(** * ClipCraft_AI: the HeyGen video gateway of [main.py]

    A shallow embedding of the FastAPI application in [src/main.py]:
    the in-memory registry [video_requests_db], the provider client
    [HeyGenService], the route handlers and the two exception handlers,
    followed by the properties of the specification that were checked
    against them.

    Conventions of the embedding.
    - A Python [dict] keeps insertion order and the handlers iterate over
      it, so a dict is an association list with distinct keys
      ([pydict]); assignment replaces in place or appends.
    - The decoded provider body ([response.json()]) is a value of [json];
      Python's [in] and indexing are modelled on every shape of value,
      with the [TypeError]s they raise.
    - Handlers run in a state-and-exception monad over [World]: the
      registry, the lazily built provider client and the log of HTTPS
      calls issued to the provider.
    - The provider, [uuid.uuid4()] and [datetime.now()] are inputs: the
      provider is an oracle of the call history, the other two are
      arguments of the handler that draws them.
    - A Python [str] is held as its UTF-8 encoding in a [string]; its
      length in characters is [py_len], the number of bytes that start a
      character.
    - Logging is not modelled. *)

From Stdlib Require Import String Ascii List ZArith Bool Lia.
Import ListNotations.

Set Warnings "-register-all".

Open Scope string_scope.
Open Scope Z_scope.

(* ================================================================== *)
(** ** Python values *)

(** A Python [float] is only ever carried, never computed with. *)
Inductive PyFloat : Type :=
| Finite (mantissa exponent : Z)
| Infinity (negative : bool)
| NaN.

(** What [response.json()] can return. *)
Inductive json : Type :=
| JNull
| JBool (b : bool)
| JInt (n : Z)
| JFloat (f : PyFloat)
| JStr (s : string)
| JList (items : list json)
| JDict (entries : list (string * json)).

(** [len(s)] of a Python [str]: in the UTF-8 encoding every character
    starts with one byte that is not a continuation byte (a byte from 128
    to 191). *)
Definition is_continuation_byte (c : ascii) : bool :=
  ((128 <=? nat_of_ascii c) && (nat_of_ascii c <? 192))%nat.

Fixpoint py_len (s : string) : nat :=
  match s with
  | EmptyString => O
  | String c rest =>
      if is_continuation_byte c then py_len rest else S (py_len rest)
  end.

(** Truthiness of an [Optional[str]]: [None] and the empty string are
    falsy. *)
Definition truthy (o : option string) : bool :=
  match o with
  | Some s => negb (s =? "")%string
  | None => false
  end.

(** [a or b] on an [Optional[str]] with a [str] fallback. *)
Definition or_else (o : option string) (fallback : string) : string :=
  match o with
  | Some s => if (s =? "")%string then fallback else s
  | None => fallback
  end.

(* ------------------------------------------------------------------ *)
(** *** Insertion-ordered dictionaries *)

Definition pydict (V : Type) : Type := list (string * V).

Fixpoint dict_get {V : Type} (k : string) (d : pydict V) : option V :=
  match d with
  | [] => None
  | (k', v) :: rest => if (k' =? k)%string then Some v else dict_get k rest
  end.

(** [k in d] *)
Definition dict_contains {V : Type} (k : string) (d : pydict V) : bool :=
  match dict_get k d with
  | Some _ => true
  | None => false
  end.

(** [d[k] = v]: an existing key keeps its position and takes the new
    value, a new key goes to the end. *)
Fixpoint dict_set {V : Type} (k : string) (v : V) (d : pydict V) : pydict V :=
  match d with
  | [] => [(k, v)]
  | (k', v') :: rest =>
      if (k' =? k)%string then (k', v) :: rest
      else (k', v') :: dict_set k v rest
  end.

Definition dict_keys {V : Type} (d : pydict V) : list string := map fst d.

(** [len(d)] *)
Definition dict_len {V : Type} (d : pydict V) : Z := Z.of_nat (length d).

(* ------------------------------------------------------------------ *)
(** *** Exceptions *)

(** The exception classes the code raises or tests for.  [Timeout],
    [ConnectionError] and [RequestException] are the classes of
    [requests.exceptions], named by the [except] clause that catches
    them. *)
Inductive exn : Type :=
| HTTPException (status_code : Z) (detail : string)
| Timeout
| ConnectionError
| RequestException
| TypeError (culprit : json)
| KeyError (key : string)
| AttributeError (culprit : json)
| ValidationError (model : string)
| ValueError.

(** [needle in hay] on two strings. *)
Definition is_substring (needle hay : string) : bool :=
  match String.index 0 needle hay with
  | Some _ => true
  | None => false
  end.

(** [v == s] for a string [s]: only the same string is equal to it. *)
Definition json_is_str (s : string) (v : json) : bool :=
  match v with
  | JStr s' => (s' =? s)%string
  | _ => false
  end.

(** [key in v] for a string key.  On a dict it tests the keys, on a list
    it tests membership, on a string it tests for a substring; anything
    else is not iterable. *)
Definition py_in (key : string) (v : json) : exn + bool :=
  match v with
  | JDict d => inr (dict_contains key d)
  | JList l => inr (existsb (json_is_str key) l)
  | JStr s => inr (is_substring key s)
  | _ => inl (TypeError v)
  end.

(** [v[key]] for a string key. *)
Definition py_getitem (v : json) (key : string) : exn + json :=
  match v with
  | JDict d =>
      match dict_get key d with
      | Some x => inr x
      | None => inl (KeyError key)
      end
  | _ => inl (TypeError v)
  end.

(** [v.get(key)] and [v.get(key, default)]. *)
Definition py_get_default (v : json) (key : string) (default : json) : exn + json :=
  match v with
  | JDict d =>
      match dict_get key d with
      | Some x => inr x
      | None => inr default
      end
  | _ => inl (AttributeError v)
  end.

Definition py_get (v : json) (key : string) : exn + json :=
  py_get_default v key JNull.

(* ------------------------------------------------------------------ *)
(** *** The Python runtime and pydantic

    Three library behaviours are used by the handlers and fixed by no
    line of [main.py]: the text of a formatted value ([f"{v}"]), the text
    of an exception ([str(e)]), and what a pydantic field of type [str]
    or [float] does with a value of another type (reject it, or coerce
    it).  They are taken as an interface; the only laws assumed are that
    a string formats as itself and that a value of the declared type is
    accepted unchanged. *)
Class PyRuntime : Type := {
  py_format : json -> string;
  py_format_str : forall s, py_format (JStr s) = s;
  exn_str : exn -> string;
  coerce_str : json -> option string;
  coerce_str_str : forall s, coerce_str (JStr s) = Some s;
  coerce_float : json -> option PyFloat;
  coerce_float_float : forall f, coerce_float (JFloat f) = Some f
}.

(** A field declared [Optional[T]]: [None] is accepted as it is, any
    other value goes through the validator of [T]. *)
Definition validate_optional {T : Type} (coerce : json -> option T) (v : json)
  : option (option T) :=
  match v with
  | JNull => Some None
  | _ =>
      match coerce v with
      | Some t => Some (Some t)
      | None => None
      end
  end.

(** A reference runtime: values format by shape, and fields accept only
    their declared type. *)
Definition shape_name (v : json) : string :=
  match v with
  | JNull => "None"
  | JBool true => "True"
  | JBool false => "False"
  | JInt _ => "<int>"
  | JFloat _ => "<float>"
  | JStr s => s
  | JList _ => "<list>"
  | JDict _ => "<dict>"
  end.

Definition exn_name (e : exn) : string :=
  match e with
  | HTTPException _ detail => detail
  | Timeout => "Timeout"
  | ConnectionError => "ConnectionError"
  | RequestException => "RequestException"
  | TypeError _ => "TypeError"
  | KeyError k => k
  | AttributeError _ => "AttributeError"
  | ValidationError m => "validation error for " ++ m
  | ValueError => "ValueError"
  end.

Definition strict_str (v : json) : option string :=
  match v with
  | JStr s => Some s
  | _ => None
  end.

Definition strict_float (v : json) : option PyFloat :=
  match v with
  | JFloat f => Some f
  | _ => None
  end.

#[export] Instance strict_runtime : PyRuntime := {|
  py_format := shape_name;
  py_format_str := fun s => eq_refl;
  exn_str := exn_name;
  coerce_str := strict_str;
  coerce_str_str := fun s => eq_refl;
  coerce_float := strict_float;
  coerce_float_float := fun f => eq_refl
|}.

(* ================================================================== *)
(** ** Data model: the pydantic models and the registry record *)

Module VideoGenerationRequest.
(** A validated generation request.  Every field but [script_text] is
    [Optional]; a field the caller leaves out takes its default. *)
Record t : Type := {
  script_text : string;
  template_id : option string;
  use_captions : option bool;
  avatar_id : option string;
  voice_id : option string;
  background_url : option string;
  title : option string;
  width : option Z;
  height : option Z
}.
End VideoGenerationRequest.

Module GenerationBody.
(** The body of [POST /generate] before validation, with every key of
    the type the model declares.  An optional key is absent ([None]),
    explicitly null ([Some None]) or given. *)
Record t : Type := {
  script_text : string;
  template_id : option (option string);
  use_captions : option (option bool);
  avatar_id : option (option string);
  voice_id : option (option string);
  background_url : option (option string);
  title : option (option string);
  width : option (option Z);
  height : option (option Z)
}.
End GenerationBody.

Definition with_default {A : Type} (given : option (option A)) (default : option A)
  : option A :=
  match given with
  | Some v => v
  | None => default
  end.

(** [Field(..., min_length=1, max_length=5000)] on [script_text], and the
    defaults of the other fields. *)
Definition parse_VideoGenerationRequest (b : GenerationBody.t)
  : list string + VideoGenerationRequest.t :=
  let n := Z.of_nat (py_len (GenerationBody.script_text b)) in
  if n <? 1 then inl ["script_text: min_length"%string]
  else if 5000 <? n then inl ["script_text: max_length"%string]
  else inr {|
    VideoGenerationRequest.script_text := GenerationBody.script_text b;
    VideoGenerationRequest.template_id :=
      with_default (GenerationBody.template_id b) None;
    VideoGenerationRequest.use_captions :=
      with_default (GenerationBody.use_captions b) (Some false);
    VideoGenerationRequest.avatar_id :=
      with_default (GenerationBody.avatar_id b)
        (Some "283a8bced1f841c7a9292a9212019165");
    VideoGenerationRequest.voice_id :=
      with_default (GenerationBody.voice_id b)
        (Some "fc3a1b6d218246d39ff5199ab147d6ee");
    VideoGenerationRequest.background_url :=
      with_default (GenerationBody.background_url b)
        (Some "https://static.heygen.ai/tmp_resource/7fba946a-b927-4bc9-b754-84e28c5546da");
    VideoGenerationRequest.title :=
      with_default (GenerationBody.title b) (Some "Render_API_Video");
    VideoGenerationRequest.width :=
      with_default (GenerationBody.width b) (Some 1280);
    VideoGenerationRequest.height :=
      with_default (GenerationBody.height b) (Some 720)
  |}.

Module VideoGenerationResponse.
Record t : Type := {
  success : bool;
  message : string;
  request_id : string;
  video_id : option string;
  estimated_time : option string
}.

(** [VideoGenerationResponse(success=..., ..., video_id=video_id, ...)]:
    [video_id] is whatever the provider sent and is validated against
    [Optional[str]]. *)
Definition new {R : PyRuntime} (success : bool) (message request_id : string)
    (video_id : json) (estimated_time : string) : exn + t :=
  match validate_optional coerce_str video_id with
  | Some v =>
      inr {| success := success; message := message;
             request_id := request_id; video_id := v;
             estimated_time := Some estimated_time |}
  | None => inl (ValidationError "VideoGenerationResponse")
  end.
End VideoGenerationResponse.

Module VideoRetrievalRequest.
Record t : Type := {
  request_id : option string;
  video_id : option string
}.
End VideoRetrievalRequest.

Module VideoRetrievalResponse.
Record t : Type := {
  success : bool;
  message : string;
  request_id : option string;
  video_id : option string;
  status : option string;
  video_url : option string;
  caption_url : option string;
  thumbnail_url : option string;
  duration : option PyFloat;
  created_at : option string
}.

(** A keyword argument that is not passed takes the field's default,
    [None]. *)
Definition kwarg (data : pydict json) (k : string) : json :=
  match dict_get k data with
  | Some v => v
  | None => JNull
  end.

Definition required_bool (v : option json) : option bool :=
  match v with
  | Some (JBool b) => Some b
  | _ => None
  end.

Definition required_str {R : PyRuntime} (v : option json) : option string :=
  match v with
  | Some JNull => None
  | Some x => coerce_str x
  | None => None
  end.

(** The constructor call on the unpacked [response_data] dict. *)
Definition new {R : PyRuntime} (response_data : pydict json) : exn + t :=
  let opt_str k := validate_optional coerce_str (kwarg response_data k) in
  match required_bool (dict_get "success" response_data),
        required_str (dict_get "message" response_data),
        opt_str "request_id", opt_str "video_id", opt_str "status",
        opt_str "video_url", opt_str "caption_url", opt_str "thumbnail_url",
        validate_optional coerce_float (kwarg response_data "duration"),
        opt_str "created_at"
  with
  | Some b, Some m, Some rid, Some vid, Some st,
    Some vu, Some cu, Some tu, Some du, Some ca =>
      inr {| success := b; message := m; request_id := rid; video_id := vid;
             status := st; video_url := vu; caption_url := cu;
             thumbnail_url := tu; duration := du; created_at := ca |}
  | _, _, _, _, _, _, _, _, _, _ => inl (ValidationError "VideoRetrievalResponse")
  end.
End VideoRetrievalResponse.

Module VideoRecord.
(** The dict stored under a request id.  [video_id] and [status] hold
    what the provider sent; the key ["last_checked"] is absent until
    the first status query. *)
Record t : Type := {
  video_id : json;
  script_text : string;
  template_id : string;
  use_captions : option bool;
  avatar_id : option string;
  voice_id : option string;
  title : option string;
  created_at : string;
  status : json;
  platform : string;
  last_checked : option string
}.

(** [record["status"] = status] *)
Definition set_status (r : t) (s : json) : t :=
  {| video_id := video_id r; script_text := script_text r;
     template_id := template_id r; use_captions := use_captions r;
     avatar_id := avatar_id r; voice_id := voice_id r; title := title r;
     created_at := created_at r; status := s; platform := platform r;
     last_checked := last_checked r |}.

(** [record["last_checked"] = now] *)
Definition set_last_checked (r : t) (now : string) : t :=
  {| video_id := video_id r; script_text := script_text r;
     template_id := template_id r; use_captions := use_captions r;
     avatar_id := avatar_id r; voice_id := voice_id r; title := title r;
     created_at := created_at r; status := status r; platform := platform r;
     last_checked := Some now |}.
End VideoRecord.

(* ================================================================== *)
(** ** The world: registry, provider client, provider *)

(** An HTTPS call made through [requests]. *)
Inductive HttpCall : Type :=
| Post (url : string) (headers : pydict string) (payload : json) (timeout : Z)
| Get (url : string) (headers : pydict string) (params : pydict json) (timeout : Z).

(** What a call comes back with: a response ([status_code], [text] and
    the decoded body, [None] when [response.json()] cannot decode it), or
    an exception raised by [requests]. *)
Inductive Transport : Type :=
| Replied (status_code : Z) (text : string) (decoded : option json)
| Raised (e : exn).

Module HeyGenService.
Record t : Type := {
  api_key : string;
  base_url : string
}.

(** [__init__] *)
Definition init (api_key : string) : t :=
  {| api_key := api_key; base_url := "https://api.heygen.com" |}.
End HeyGenService.

(** The module-level configuration read from the environment, and the
    provider behind [requests]: an oracle of the calls made so far and of
    the call being made. *)
Record Env : Type := {
  HEYGEN_API_KEY : option string;
  TEMPLATE_ID : string;
  PORT : Z;
  provider : list HttpCall -> HttpCall -> Transport
}.

Definition default_TEMPLATE_ID : string := "52df47c0bd8e435c9729121e036d2e7f".

Record World : Type := {
  video_requests_db : pydict VideoRecord.t;
  heygen_service : option HeyGenService.t;
  provider_calls : list HttpCall
}.

Definition set_db (w : World) (db : pydict VideoRecord.t) : World :=
  {| video_requests_db := db;
     heygen_service := heygen_service w;
     provider_calls := provider_calls w |}.

Definition set_service (w : World) (s : HeyGenService.t) : World :=
  {| video_requests_db := video_requests_db w;
     heygen_service := Some s;
     provider_calls := provider_calls w |}.

Definition log_call (w : World) (c : HttpCall) : World :=
  {| video_requests_db := video_requests_db w;
     heygen_service := heygen_service w;
     provider_calls := provider_calls w ++ [c] |}.

(** The state of a freshly started process. *)
Definition initial_world : World :=
  {| video_requests_db := []; heygen_service := None; provider_calls := [] |}.

(* ------------------------------------------------------------------ *)
(** *** State and exceptions *)

Definition M (A : Type) : Type := World -> (exn + A) * World.

Definition ret {A : Type} (a : A) : M A := fun w => (inr a, w).

Definition raise {A : Type} (e : exn) : M A := fun w => (inl e, w).

Definition bind {A B : Type} (m : M A) (k : A -> M B) : M B :=
  fun w =>
    match m w with
    | (inr a, w') => k a w'
    | (inl e, w') => (inl e, w')
    end.

(** A pure step that may raise. *)
Definition lift {A : Type} (r : exn + A) : M A := fun w => (r, w).

(** [try: m  except ...: handler e] *)
Definition try_except {A : Type} (m : M A) (handler : exn -> M A) : M A :=
  fun w =>
    match m w with
    | (inr a, w') => (inr a, w')
    | (inl e, w') => handler e w'
    end.

Definition read_db : M (pydict VideoRecord.t) :=
  fun w => (inr (video_requests_db w), w).

Definition write_db (db : pydict VideoRecord.t) : M unit :=
  fun w => (inr tt, set_db w db).

Declare Scope py_scope.
Delimit Scope py_scope with py.
Notation "x <- m ;; k" := (bind m (fun x => k))
  (at level 61, m at next level, right associativity) : py_scope.
Notation "m ;;; k" := (bind m (fun _ => k))
  (at level 61, right associativity) : py_scope.
Open Scope py_scope.

(** [requests.post] / [requests.get]: the call is logged and the
    provider answers it. *)
Definition requests_call (env : Env) (c : HttpCall) : M (Z * string * option json) :=
  fun w =>
    match provider env (provider_calls w) c with
    | Replied code text decoded => (inr (code, text, decoded), log_call w c)
    | Raised e => (inl e, log_call w c)
    end.

(** [response.json()]: a body that does not decode raises requests'
    [JSONDecodeError], a [RequestException]. *)
Definition response_json (decoded : option json) : M json :=
  match decoded with
  | Some j => ret j
  | None => raise RequestException
  end.

Definition json_opt_str (o : option string) : json :=
  match o with
  | Some s => JStr s
  | None => JNull
  end.

Definition json_opt_bool (o : option bool) : json :=
  match o with
  | Some b => JBool b
  | None => JNull
  end.

Definition json_opt_int (o : option Z) : json :=
  match o with
  | Some n => JInt n
  | None => JNull
  end.

(** The [except] clauses shared by the two provider methods. *)
Definition translate_requests_error {R : PyRuntime} {A : Type} (e : exn) : M A :=
  match e with
  | Timeout => raise (HTTPException 408 "Request timeout")
  | ConnectionError => raise (HTTPException 503 "Service unavailable")
  | RequestException =>
      raise (HTTPException 500 ("Request failed: " ++ exn_str e))
  | _ => raise e
  end.

(** The body of the two [try] blocks after the call returned. *)
Definition check_response (r : Z * string * option json) : M json :=
  let '(status_code, text, decoded) := r in
  if negb (status_code =? 200) then
    raise (HTTPException status_code ("HeyGen API error: " ++ text))
  else response_json decoded.

Definition generate_payload (request : VideoGenerationRequest.t) : json :=
  JDict [
    ("caption", json_opt_bool (VideoGenerationRequest.use_captions request));
    ("dimension", JDict [
       ("width", json_opt_int (VideoGenerationRequest.width request));
       ("height", json_opt_int (VideoGenerationRequest.height request))]);
    ("include_gif", JBool false);
    ("title", json_opt_str (VideoGenerationRequest.title request));
    ("variables", JDict [
       ("voice_id", JDict [
          ("name", JStr "voice_id");
          ("type", JStr "voice");
          ("properties", JDict [
             ("voice_id", json_opt_str (VideoGenerationRequest.voice_id request));
             ("locale", JNull)])]);
       ("avatar_id", JDict [
          ("name", JStr "avatar_id");
          ("type", JStr "character");
          ("properties", JDict [
             ("character_id", json_opt_str (VideoGenerationRequest.avatar_id request));
             ("type", JStr "talking_photo")])]);
       ("background_id", JDict [
          ("name", JStr "background_id");
          ("type", JStr "image");
          ("properties", JDict [
             ("url", json_opt_str (VideoGenerationRequest.background_url request));
             ("asset_id", JNull);
             ("fit", JStr "none")])]);
       ("script_content", JDict [
          ("name", JStr "script_content");
          ("type", JStr "text");
          ("properties", JDict [
             ("content", JStr (VideoGenerationRequest.script_text request))])])]);
    ("enable_sharing", JBool true)
  ].

(** The call [HeyGenService.generate_video] makes. *)
Definition generate_call (env : Env) (self : HeyGenService.t)
    (request : VideoGenerationRequest.t) : HttpCall :=
  let template_id :=
    or_else (VideoGenerationRequest.template_id request) (TEMPLATE_ID env) in
  let url :=
    HeyGenService.base_url self ++ "/v2/template/" ++ template_id ++ "/generate" in
  let headers := [
    ("accept", "application/json");
    ("content-type", "application/json");
    ("x-api-key", HeyGenService.api_key self)] in
  Post url headers (generate_payload request) 30.

(** The call [HeyGenService.get_video_status] makes. *)
Definition status_call (self : HeyGenService.t) (video_id : json) : HttpCall :=
  let url := HeyGenService.base_url self ++ "/v1/video_status.get" in
  let headers := [
    ("X-Api-Key", HeyGenService.api_key self);
    ("Content-Type", "application/json")] in
  Get url headers [("video_id", video_id)] 15.

Definition HeyGenService_generate_video {R : PyRuntime} (env : Env)
    (self : HeyGenService.t) (request : VideoGenerationRequest.t) : M json :=
  try_except
    (response <- requests_call env (generate_call env self request) ;;
     check_response response)
    translate_requests_error.

Definition HeyGenService_get_video_status {R : PyRuntime} (env : Env)
    (self : HeyGenService.t) (video_id : json) : M json :=
  try_except
    (response <- requests_call env (status_call self video_id) ;;
     check_response response)
    translate_requests_error.

(** [get_heygen_service]: the client is built on first use when a key is
    configured. *)
Definition get_heygen_service (env : Env) : M (option HeyGenService.t) :=
  fun w =>
    match heygen_service w with
    | Some s => (inr (Some s), w)
    | None =>
        if truthy (HEYGEN_API_KEY env) then
          let s := HeyGenService.init (or_else (HEYGEN_API_KEY env) "") in
          (inr (Some s), set_service w s)
        else (inr None, w)
    end.

(* ================================================================== *)
(** ** Route handlers *)

Definition not_configured : exn :=
  HTTPException 500
    "Service not configured. Please set HEYGEN_API_KEY environment variable.".

(** [except HTTPException: raise] followed by
    [except Exception as e: raise HTTPException(500, prefix + str(e))]. *)
Definition reraise_as_500 {R : PyRuntime} {A : Type} (prefix : string) (e : exn) : M A :=
  match e with
  | HTTPException _ _ => raise e
  | _ => raise (HTTPException 500 (prefix ++ exn_str e))
  end.

(** ["data" in result and key in result["data"]] *)
Definition has_data_key (result : json) (key : string) : exn + bool :=
  match py_in "data" result with
  | inl e => inl e
  | inr false => inr false
  | inr true =>
      match py_getitem result "data" with
      | inl e => inl e
      | inr data => py_in key data
      end
  end.

(** The record [generate_video] stores. *)
Definition new_record (env : Env) (request : VideoGenerationRequest.t)
    (video_id : json) (now : string) : VideoRecord.t :=
  {| VideoRecord.video_id := video_id;
     VideoRecord.script_text := VideoGenerationRequest.script_text request;
     VideoRecord.template_id :=
       or_else (VideoGenerationRequest.template_id request) (TEMPLATE_ID env);
     VideoRecord.use_captions := VideoGenerationRequest.use_captions request;
     VideoRecord.avatar_id := VideoGenerationRequest.avatar_id request;
     VideoRecord.voice_id := VideoGenerationRequest.voice_id request;
     VideoRecord.title := VideoGenerationRequest.title request;
     VideoRecord.created_at := now;
     VideoRecord.status := JStr "processing";
     VideoRecord.platform := "render";
     VideoRecord.last_checked := None |}.

(** [POST /generate].  [uuid4] is the value of [str(uuid.uuid4())] and
    [now] that of [datetime.now().isoformat()] drawn by this call. *)
Definition generate_video {R : PyRuntime} (env : Env) (uuid4 now : string)
    (request : VideoGenerationRequest.t) : M VideoGenerationResponse.t :=
  service <- get_heygen_service env ;;
  match service with
  | None => raise not_configured
  | Some service =>
      let request_id := uuid4 in
      try_except
        (result <- HeyGenService_generate_video env service request ;;
         found <- lift (has_data_key result "video_id") ;;
         if (found : bool) then
           data <- lift (py_getitem result "data") ;;
           video_id <- lift (py_getitem data "video_id") ;;
           db <- read_db ;;
           write_db (dict_set request_id (new_record env request video_id now) db) ;;;
           lift (VideoGenerationResponse.new true
                   "Video generation initiated successfully"
                   request_id video_id "2-5 minutes")
         else
           raise (HTTPException 500
                    "Unexpected response from video generation service"))
        (reraise_as_500 "Video generation failed: ")
  end.

(** The loop of [retrieve_video] over [video_requests_db.items()]: the
    first request id, in insertion order, whose record carries
    [video_id]; [request_id] is kept when there is none. *)
Fixpoint find_request_id (video_id : string) (items : pydict VideoRecord.t)
    (request_id : option string) : option string :=
  match items with
  | [] => request_id
  | (rid, data) :: rest =>
      if json_is_str video_id (VideoRecord.video_id data) then Some rid
      else find_request_id video_id rest request_id
  end.

(** Lines 299-316: the target [video_id] and the [request_id] that goes
    with it. *)
Definition determine_video_id (request : VideoRetrievalRequest.t)
    (db : pydict VideoRecord.t) : exn + (json * option string) :=
  let request_id := VideoRetrievalRequest.request_id request in
  if truthy (VideoRetrievalRequest.request_id request) then
    match dict_get (or_else request_id "") db with
    | Some record => inr (VideoRecord.video_id record, request_id)
    | None => inl (HTTPException 404 "Request ID not found")
    end
  else if truthy (VideoRetrievalRequest.video_id request) then
    let video_id := or_else (VideoRetrievalRequest.video_id request) "" in
    inr (JStr video_id, find_request_id video_id db request_id)
  else
    inl (HTTPException 400 "Either request_id or video_id must be provided").

(** Lines 327-329: the two writes to the stored record. *)
Definition update_local_storage (request_id : option string) (status : json)
    (now : string) (db : pydict VideoRecord.t) : pydict VideoRecord.t :=
  if truthy request_id then
    match dict_get (or_else request_id "") db with
    | Some record =>
        dict_set (or_else request_id "")
          (VideoRecord.set_last_checked (VideoRecord.set_status record status) now)
          db
    | None => db
    end
  else db.

(** [d.update(other)] *)
Definition dict_update {V : Type} (d other : pydict V) : pydict V :=
  fold_left (fun acc kv => dict_set (fst kv) (snd kv) acc) other d.

(** Lines 331-349: the keyword arguments of the response. *)
Definition build_response_data {R : PyRuntime} (request_id : option string)
    (video_id status data : json) : exn + pydict json :=
  let response_data := [
    ("success", JBool true);
    ("message", JStr ("Video status: " ++ py_format status));
    ("request_id", json_opt_str request_id);
    ("video_id", video_id);
    ("status", status)] in
  if json_is_str "completed" status then
    match py_get data "video_url", py_get data "caption_url",
          py_get data "thumbnail_url", py_get data "duration",
          py_get data "created_at" with
    | inr vu, inr cu, inr tu, inr du, inr ca =>
        inr (dict_update response_data [
               ("video_url", vu); ("caption_url", cu); ("thumbnail_url", tu);
               ("duration", du); ("created_at", ca)])
    | _, _, _, _, _ => inl (AttributeError data)
    end
  else if json_is_str "failed" status then
    match py_get_default data "error" (JStr "Unknown error") with
    | inr err =>
        inr (dict_set "message"
               (JStr ("Video generation failed: " ++ py_format err))
               response_data)
    | inl e => inl e
    end
  else inr response_data.

(** [POST /retrieve].  [now] is the value of [datetime.now().isoformat()]
    drawn when the record is updated. *)
Definition retrieve_video {R : PyRuntime} (env : Env) (now : string)
    (request : VideoRetrievalRequest.t) : M VideoRetrievalResponse.t :=
  service <- get_heygen_service env ;;
  match service with
  | None => raise not_configured
  | Some service =>
      db <- read_db ;;
      target <- lift (determine_video_id request db) ;;
      let '(video_id, request_id) := target in
      try_except
        (result <- HeyGenService_get_video_status env service video_id ;;
         found <- lift (has_data_key result "status") ;;
         if (found : bool) then
           data <- lift (py_getitem result "data") ;;
           status <- lift (py_getitem data "status") ;;
           db <- read_db ;;
           write_db (update_local_storage request_id status now db) ;;;
           response_data <- lift (build_response_data request_id video_id status data) ;;
           lift (VideoRetrievalResponse.new response_data)
         else
           raise (HTTPException 500
                    "Unexpected response from video status service"))
        (reraise_as_500 "Video retrieval failed: ")
  end.

(** [GET /requests/{request_id}] *)
Definition get_request_details (request_id : string) : M VideoRecord.t :=
  db <- read_db ;;
  match dict_get request_id db with
  | Some record => ret record
  | None => raise (HTTPException 404 "Request not found")
  end.

(** [GET /] *)
Definition root (now : string) : M json :=
  ret (JDict [
    ("message", JStr "HeyGen Video Generation API is running on Render");
    ("status", JStr "healthy");
    ("timestamp", JStr now);
    ("platform", JStr "Render")]).

Definition is_some {A : Type} (o : option A) : bool :=
  match o with
  | Some _ => true
  | None => false
  end.

(** [GET /health] *)
Definition health_check (env : Env) (now : string) : M json :=
  service <- get_heygen_service env ;;
  ret (JDict [
    ("status", JStr "healthy");
    ("api_key_configured", JBool (truthy (HEYGEN_API_KEY env)));
    ("service_initialized", JBool (is_some service));
    ("template_id", JStr (TEMPLATE_ID env));
    ("port", JInt (PORT env));
    ("platform", JStr "Render");
    ("timestamp", JStr now)]).

(** [GET /requests]: the platform tag, [len(video_requests_db)] and the
    registry itself. *)
Definition list_requests : M (string * Z * pydict VideoRecord.t) :=
  db <- read_db ;;
  ret ("Render", dict_len db, db).

(* ================================================================== *)
(** ** The application: routing and exception handlers *)

Inductive Payload : Type :=
| GenerationBody_out (r : VideoGenerationResponse.t)
| RetrievalBody_out (r : VideoRetrievalResponse.t)
| RecordBody_out (r : VideoRecord.t)
| ListingBody_out (l : string * Z * pydict VideoRecord.t)
| JsonBody_out (j : json).

(** Either the value a handler returned, sent as JSON with status 200,
    or an explicit [JSONResponse]. *)
Inductive HttpResponse : Type :=
| Returned (p : Payload)
| JSONResponse (status_code : Z) (content : json).

(** A value can be rendered as JSON unless it holds a float that is not
    finite: the response is rendered with [allow_nan=False], and
    [json.dumps] then raises [ValueError]. *)
Fixpoint json_serialisable (v : json) : bool :=
  match v with
  | JFloat (Finite _ _) => true
  | JFloat _ => false
  | JList items => forallb json_serialisable items
  | JDict entries =>
      (fix all (l : list (string * json)) : bool :=
         match l with
         | [] => true
         | (_, x) :: rest => json_serialisable x && all rest
         end) entries
  | _ => true
  end.

Definition float_serialisable (o : option PyFloat) : bool :=
  match o with
  | Some (Finite _ _) => true
  | Some _ => false
  | None => true
  end.

(** The JSON values of a stored record are the provider's [video_id]
    and [status]. *)
Definition record_serialisable (r : VideoRecord.t) : bool :=
  json_serialisable (VideoRecord.video_id r)
  && json_serialisable (VideoRecord.status r).

Definition payload_serialisable (p : Payload) : bool :=
  match p with
  | GenerationBody_out _ => true
  | RetrievalBody_out r => float_serialisable (VideoRetrievalResponse.duration r)
  | RecordBody_out r => record_serialisable r
  | ListingBody_out (_, _, db) =>
      forallb (fun kr => record_serialisable (snd kr)) db
  | JsonBody_out j => json_serialisable j
  end.

(** [@app.exception_handler(HTTPException)] *)
Definition http_exception_handler (status_code : Z) (detail : string) : HttpResponse :=
  JSONResponse status_code (JDict [
    ("success", JBool false);
    ("message", JStr detail);
    ("status_code", JInt status_code);
    ("platform", JStr "Render")]).

(** [@app.exception_handler(Exception)] *)
Definition general_exception_handler (e : exn) : HttpResponse :=
  JSONResponse 500 (JDict [
    ("success", JBool false);
    ("message", JStr "Internal server error");
    ("status_code", JInt 500);
    ("platform", JStr "Render")]).

(** The handler FastAPI installs for a request body that fails
    validation.  [main.py] registers handlers for [HTTPException] and
    [Exception] only, so this one stays in place: status 422 and the list
    of validation errors under the key [detail].  Each error is
    abbreviated to a label naming the field and the constraint. *)
Definition request_validation_exception_handler (errors : list string) : HttpResponse :=
  JSONResponse 422 (JDict [("detail", JList (map JStr errors))]).

(** The handler chosen for an exception that leaves a route. *)
Definition handle_exception (e : exn) : HttpResponse :=
  match e with
  | HTTPException status_code detail => http_exception_handler status_code detail
  | _ => general_exception_handler e
  end.

(** Rendering the value a handler returned: a value that cannot be
    rendered raises outside the handler's [try] and reaches the handler
    registered for [Exception]. *)
Definition render (p : Payload) : HttpResponse :=
  if payload_serialisable p then Returned p else handle_exception ValueError.

Definition respond {A : Type} (wrap : A -> Payload) (out : (exn + A) * World)
  : HttpResponse * World :=
  match out with
  | (inr a, w) => (render (wrap a), w)
  | (inl e, w) => (handle_exception e, w)
  end.

(** What the route [/requests/{request_id}] matches: a non-empty path
    segment, without a slash.  Other paths do not reach
    [get_request_details] and are no [Request] of this model. *)
Definition is_path_segment (s : string) : bool :=
  negb (s =? "")%string && negb (is_substring "/" s).

Record PathSegment : Type := {
  segment : string;
  segment_ok : is_path_segment segment = true
}.

(** A request to the service, with the values it draws from
    [uuid.uuid4()] and the clock. *)
Inductive Request : Type :=
| GET_root (now : string)
| GET_health (now : string)
| POST_generate (uuid4 now : string) (body : GenerationBody.t)
| POST_retrieve (now : string) (body : VideoRetrievalRequest.t)
| GET_requests
| GET_request_details (request_id : PathSegment).

Definition app {R : PyRuntime} (env : Env) (r : Request) (w : World)
  : HttpResponse * World :=
  match r with
  | GET_root now => respond JsonBody_out (root now w)
  | GET_health now => respond JsonBody_out (health_check env now w)
  | POST_generate uuid4 now body =>
      match parse_VideoGenerationRequest body with
      | inl errors => (request_validation_exception_handler errors, w)
      | inr request =>
          respond GenerationBody_out (generate_video env uuid4 now request w)
      end
  | POST_retrieve now body =>
      respond RetrievalBody_out (retrieve_video env now body w)
  | GET_requests => respond ListingBody_out (list_requests w)
  | GET_request_details request_id =>
      respond RecordBody_out (get_request_details (segment request_id) w)
  end.

(** The world after a sequence of requests. *)
Fixpoint serve {R : PyRuntime} (env : Env) (rs : list Request) (w : World) : World :=
  match rs with
  | [] => w
  | r :: rest => serve env rest (snd (app env r w))
  end.

(* ================================================================== *)
(** ** Fixtures: a stubbed provider and sample requests *)

(** A provider that answers every generation call with [post_reply] and
    every status call with [get_reply]. *)
Definition stub_provider (post_reply get_reply : Transport)
  : list HttpCall -> HttpCall -> Transport :=
  fun _ c =>
    match c with
    | Post _ _ _ _ => post_reply
    | Get _ _ _ _ => get_reply
    end.

Definition stub_env (post_reply get_reply : Transport) : Env :=
  {| HEYGEN_API_KEY := Some "test-key";
     TEMPLATE_ID := default_TEMPLATE_ID;
     PORT := 8000;
     provider := stub_provider post_reply get_reply |}.

Definition body_of_script (script : string) : GenerationBody.t :=
  {| GenerationBody.script_text := script;
     GenerationBody.template_id := None;
     GenerationBody.use_captions := None;
     GenerationBody.avatar_id := None;
     GenerationBody.voice_id := None;
     GenerationBody.background_url := None;
     GenerationBody.title := None;
     GenerationBody.width := None;
     GenerationBody.height := None |}.

Definition hello_request : VideoGenerationRequest.t :=
  {| VideoGenerationRequest.script_text := "Hello world";
     VideoGenerationRequest.template_id := None;
     VideoGenerationRequest.use_captions := Some false;
     VideoGenerationRequest.avatar_id := Some "283a8bced1f841c7a9292a9212019165";
     VideoGenerationRequest.voice_id := Some "fc3a1b6d218246d39ff5199ab147d6ee";
     VideoGenerationRequest.background_url :=
       Some "https://static.heygen.ai/tmp_resource/7fba946a-b927-4bc9-b754-84e28c5546da";
     VideoGenerationRequest.title := Some "Render_API_Video";
     VideoGenerationRequest.width := Some 1280;
     VideoGenerationRequest.height := Some 720 |}.

Definition video_created (video_id : string) : Transport :=
  Replied 200 "" (Some (JDict [("data", JDict [("video_id", JStr video_id)])])).

Definition status_reply (data : pydict json) : Transport :=
  Replied 200 "" (Some (JDict [("data", JDict data)])).

Definition by_request (request_id : string) : VideoRetrievalRequest.t :=
  {| VideoRetrievalRequest.request_id := Some request_id;
     VideoRetrievalRequest.video_id := None |}.

Definition by_video (video_id : string) : VideoRetrievalRequest.t :=
  {| VideoRetrievalRequest.request_id := None;
     VideoRetrievalRequest.video_id := Some video_id |}.

Definition configured_service : HeyGenService.t := HeyGenService.init "test-key".

(* ================================================================== *)
(** ** Notions used in the statements *)

(** The object under the key [data] of a provider body, when the body is
    an object that has one. *)
Definition data_of (body : json) : option (pydict json) :=
  match body with
  | JDict entries =>
      match dict_get "data" entries with
      | Some (JDict data) => Some data
      | _ => None
      end
  | _ => None
  end.

(** The value at path [data.key], when the body has one. *)
Definition data_field (body : json) (key : string) : option json :=
  match data_of body with
  | Some data => dict_get key data
  | None => None
  end.

(** The provider failures of the specification, for the call whose
    success body must carry [data.key]: a status other than 200 (every
    non-2xx status is one), an exception raised by the call (a timeout,
    a connection failure, or any other), a body that does not decode, and
    a decoded body without [data.key]. *)
Inductive ProviderFailure (key : string) : Transport -> Prop :=
| failure_status code text decoded :
    code <> 200 -> ProviderFailure key (Replied code text decoded)
| failure_raised e : ProviderFailure key (Raised e)
| failure_undecodable text : ProviderFailure key (Replied 200 text None)
| failure_missing_field text body :
    data_field body key = None ->
    ProviderFailure key (Replied 200 text (Some body)).

(** [data.get(key)] on the object under [data]. *)
Definition provided (data : pydict json) (key : string) : json :=
  match dict_get key data with
  | Some v => v
  | None => JNull
  end.

(** The length of the script in characters, as the constraints of
    [VideoGenerationRequest] count it. *)
Definition script_length (b : GenerationBody.t) : Z :=
  Z.of_nat (py_len (GenerationBody.script_text b)).

(** A response field carries the provider's value as it is: a value of
    the declared type is copied, an absent or null value stays null, and
    a value in the response always comes from a non-null provider value
    accepted by the field. *)
Definition passed_through {T : Type} (coerce : json -> option T)
    (typed : T -> json) (src : option json) (dst : option T) : Prop :=
  (forall t, src = Some (typed t) -> dst = Some t) /\
  (src = None \/ src = Some JNull -> dst = None) /\
  (forall t, dst = Some t ->
     exists v, src = Some v /\ v <> JNull /\ coerce v = Some t).

(** Two records agree on everything but [status] and [last_checked]. *)
Definition same_request (r r' : VideoRecord.t) : Prop :=
  VideoRecord.video_id r' = VideoRecord.video_id r /\
  VideoRecord.script_text r' = VideoRecord.script_text r /\
  VideoRecord.template_id r' = VideoRecord.template_id r /\
  VideoRecord.use_captions r' = VideoRecord.use_captions r /\
  VideoRecord.avatar_id r' = VideoRecord.avatar_id r /\
  VideoRecord.voice_id r' = VideoRecord.voice_id r /\
  VideoRecord.title r' = VideoRecord.title r /\
  VideoRecord.created_at r' = VideoRecord.created_at r /\
  VideoRecord.platform r' = VideoRecord.platform r.

(** The request id a request draws from [uuid.uuid4()], if it draws
    one. *)
Definition drawn_id (r : Request) : option string :=
  match r with
  | POST_generate uuid4 _ _ => Some uuid4
  | _ => None
  end.

Definition is_status_query (r : Request) : bool :=
  match r with
  | POST_retrieve _ _ => true
  | _ => false
  end.

(** The registry contract of the specification, [insert] failing on a
    key that is present: the generation that draws [uuid4] ends in an
    error and the record under [uuid4] is the one that was there. *)
Definition insert_rejects_duplicate {R : PyRuntime} (env : Env)
    (uuid4 now : string) (request : VideoGenerationRequest.t) (w : World) : Prop :=
  dict_contains uuid4 (video_requests_db w) = true ->
  exists e w',
    generate_video env uuid4 now request w = (inl e, w') /\
    dict_get uuid4 (video_requests_db w') = dict_get uuid4 (video_requests_db w).

(** The uniform error body: [success] false, a message, and the status
    code of the response. *)
Definition uniform_error_body (status_code : Z) (content : json) : Prop :=
  exists entries message,
    content = JDict entries /\
    dict_get "success" entries = Some (JBool false) /\
    dict_get "message" entries = Some (JStr message) /\
    dict_get "status_code" entries = Some (JInt status_code).

(** The body both exception handlers of [main.py] build. *)
Definition error_body (status_code : Z) (message : string) : json :=
  JDict [
    ("success", JBool false);
    ("message", JStr message);
    ("status_code", JInt status_code);
    ("platform", JStr "Render")].

(** Every error response to [r] has the uniform body. *)
Definition errors_are_uniform {R : PyRuntime} (env : Env) (r : Request) (w : World)
  : Prop :=
  forall status_code content,
    fst (app env r w) = JSONResponse status_code content ->
    uniform_error_body status_code content.

(** The body of a generation request satisfies the constraints of the
    request model; the other requests have none. *)
Definition passes_validation (r : Request) : Prop :=
  match r with
  | POST_generate _ _ body => 1 <= script_length body <= 5000
  | _ => True
  end.

(** A registry with one record, used in examples. *)
Definition sample_record (video_id : string) : VideoRecord.t :=
  {| VideoRecord.video_id := JStr video_id;
     VideoRecord.script_text := "Hello world";
     VideoRecord.template_id := default_TEMPLATE_ID;
     VideoRecord.use_captions := Some false;
     VideoRecord.avatar_id := None;
     VideoRecord.voice_id := None;
     VideoRecord.title := None;
     VideoRecord.created_at := "2024-01-01T00:00:00";
     VideoRecord.status := JStr "processing";
     VideoRecord.platform := "render";
     VideoRecord.last_checked := None |}.

Definition sample_world (request_id video_id : string) : World :=
  {| video_requests_db := [(request_id, sample_record video_id)];
     heygen_service := Some configured_service;
     provider_calls := [] |}.

(** Provider bodies for a finished and for a pending video, and the
    responses [POST /retrieve] builds from them for request ["u1"] of
    [sample_world "u1" "v1"]. *)
Definition completed_data : pydict json := [
  ("status", JStr "completed");
  ("video_url", JStr "https://cdn.example/v1.mp4");
  ("caption_url", JNull);
  ("duration", JFloat (Finite 25 (-1)));
  ("error", JNull)].

Definition completed_response : VideoRetrievalResponse.t :=
  {| VideoRetrievalResponse.success := true;
     VideoRetrievalResponse.message := "Video status: completed";
     VideoRetrievalResponse.request_id := Some "u1";
     VideoRetrievalResponse.video_id := Some "v1";
     VideoRetrievalResponse.status := Some "completed";
     VideoRetrievalResponse.video_url := Some "https://cdn.example/v1.mp4";
     VideoRetrievalResponse.caption_url := None;
     VideoRetrievalResponse.thumbnail_url := None;
     VideoRetrievalResponse.duration := Some (Finite 25 (-1));
     VideoRetrievalResponse.created_at := None |}.

Definition pending_data : pydict json := [
  ("status", JStr "processing");
  ("video_url", JStr "https://cdn.example/early.mp4");
  ("duration", JFloat (Finite 3 0))].

Definition pending_response : VideoRetrievalResponse.t :=
  {| VideoRetrievalResponse.success := true;
     VideoRetrievalResponse.message := "Video status: processing";
     VideoRetrievalResponse.request_id := Some "u1";
     VideoRetrievalResponse.video_id := Some "v1";
     VideoRetrievalResponse.status := Some "processing";
     VideoRetrievalResponse.video_url := None;
     VideoRetrievalResponse.caption_url := None;
     VideoRetrievalResponse.thumbnail_url := None;
     VideoRetrievalResponse.duration := None;
     VideoRetrievalResponse.created_at := None |}.

(** An environment without an API key. *)
Definition unconfigured_env (post_reply get_reply : Transport) : Env :=
  {| HEYGEN_API_KEY := None;
     TEMPLATE_ID := default_TEMPLATE_ID;
     PORT := 8000;
     provider := stub_provider post_reply get_reply |}.

(** A provider that answers its calls from a script, one reply per
    call in order, and times out when the script is over. *)
Definition scripted_env (replies : list Transport) : Env :=
  {| HEYGEN_API_KEY := Some "test-key";
     TEMPLATE_ID := default_TEMPLATE_ID;
     PORT := 8000;
     provider := fun history _ => nth (length history) replies (Raised Timeout) |}.

(** The specification's reading of a failure path: whenever a
    generation or a retrieval ends in an error, the registry is the one
    before the call. *)
Definition failures_leave_registry {R : PyRuntime} (env : Env)
    (uuid4 now : string) (request : VideoGenerationRequest.t)
    (query : VideoRetrievalRequest.t) (w : World) : Prop :=
  (forall e w',
     generate_video env uuid4 now request w = (inl e, w') ->
     video_requests_db w' = video_requests_db w) /\
  (forall e w',
     retrieve_video env now query w = (inl e, w') ->
     video_requests_db w' = video_requests_db w).

(** A response field as it is rendered. *)
Definition field_json {T : Type} (typed : T -> json) (o : option T) : json :=
  match o with
  | Some t => typed t
  | None => JNull
  end.

(** The specification's reading of the completed response: each of the
    five fields of a returned response is the value the provider body
    [data] holds under that key, null when the key is absent. *)
Definition completed_fields_verbatim {R : PyRuntime} (env : Env) (now : string)
    (query : VideoRetrievalRequest.t) (w : World) (data : pydict json) : Prop :=
  forall response w',
    retrieve_video env now query w = (inr response, w') ->
    field_json JStr (VideoRetrievalResponse.video_url response)
      = provided data "video_url" /\
    field_json JStr (VideoRetrievalResponse.caption_url response)
      = provided data "caption_url" /\
    field_json JStr (VideoRetrievalResponse.thumbnail_url response)
      = provided data "thumbnail_url" /\
    field_json JFloat (VideoRetrievalResponse.duration response)
      = provided data "duration" /\
    field_json JStr (VideoRetrievalResponse.created_at response)
      = provided data "created_at".

(** A runtime whose [float] fields take an integer as the float of the
    same value, as pydantic does; integers beyond 2^53, which a float
    does not hold exactly, are left out. *)
Definition lax_float (v : json) : option PyFloat :=
  match v with
  | JFloat f => Some f
  | JInt n => if Z.abs n <=? 2 ^ 53 then Some (Finite n 0) else None
  | _ => None
  end.

Definition lax_runtime : PyRuntime := {|
  py_format := shape_name;
  py_format_str := fun s => eq_refl;
  exn_str := exn_name;
  coerce_str := strict_str;
  coerce_str_str := fun s => eq_refl;
  coerce_float := lax_float;
  coerce_float_float := fun f => eq_refl
|}.

(** A provider body for a finished video whose duration is the integer
    3. *)
Definition integer_duration_data : pydict json := [
  ("status", JStr "completed");
  ("video_url", JStr "https://cdn.example/v1.mp4");
  ("duration", JInt 3)].

(** The specification's reading of record stability: after the
    requests [rs] the record under [rid] is still there and differs from
    the stored one at most in [status] and [last_checked]. *)
Definition record_fields_stable {R : PyRuntime} (env : Env) (rs : list Request)
    (w : World) (rid : string) : Prop :=
  forall record,
    dict_get rid (video_requests_db w) = Some record ->
    exists record',
      dict_get rid (video_requests_db (serve env rs w)) = Some record' /\
      same_request record record'.

(** A script of [n] copies of the two-byte character U+00E9. *)
Fixpoint accented_script (n : nat) : string :=
  match n with
  | O => EmptyString
  | S m => String (ascii_of_nat 195) (String (ascii_of_nat 169) (accented_script m))
  end.

(** The path segment ["u2"]. *)
Definition segment_u2 : PathSegment :=
  {| segment := "u2"; segment_ok := eq_refl |}.

(** The URL a call goes to. *)
Definition call_url (c : HttpCall) : string :=
  match c with
  | Post url _ _ _ => url
  | Get url _ _ _ => url
  end.

(** The record a status query leaves behind. *)
Definition checked (record : VideoRecord.t) (status : json) (now : string)
  : VideoRecord.t :=
  VideoRecord.set_last_checked (VideoRecord.set_status record status) now.

(** A registry with two records of the same video and one of another. *)
Definition three_records : pydict VideoRecord.t := [
  ("u1", sample_record "v1");
  ("u2", sample_record "v2");
  ("u3", sample_record "v2")].

(** Stepping through the monad. *)
Ltac run_monad :=
  repeat progress
    (unfold try_except, bind, lift, raise, ret, read_db, write_db,
       reraise_as_500; simpl).

(* ================================================================== *)
(** ** Dictionaries *)

Lemma dict_get_set_same {V : Type} (k : string) (v : V) (d : pydict V) :
  dict_get k (dict_set k v d) = Some v.
Proof.
  induction d as [|[k' v'] rest IH]; simpl.
  - now rewrite String.eqb_refl.
  - destruct (k' =? k)%string eqn:E; simpl; rewrite E; auto.
Qed.

Lemma dict_get_set_other {V : Type} (k k' : string) (v : V) (d : pydict V) :
  k <> k' -> dict_get k' (dict_set k v d) = dict_get k' d.
Proof.
  intros Hne. induction d as [|[k0 v0] rest IH]; simpl.
  - destruct (k =? k')%string eqn:E; auto.
    apply String.eqb_eq in E. contradiction.
  - destruct (k0 =? k)%string eqn:E; simpl.
    + apply String.eqb_eq in E. subst k0.
      destruct (k =? k')%string eqn:E'; auto.
      apply String.eqb_eq in E'. contradiction.
    + destruct (k0 =? k')%string; auto.
Qed.

Lemma dict_set_fresh {V : Type} (k : string) (v : V) (d : pydict V) :
  dict_contains k d = false -> dict_set k v d = (d ++ [(k, v)])%list.
Proof.
  unfold dict_contains. induction d as [|[k' v'] rest IH]; simpl; auto.
  destruct (k' =? k)%string; [discriminate|].
  intros H. now rewrite IH.
Qed.

Lemma dict_set_keys_present {V : Type} (k : string) (v : V) (d : pydict V) :
  dict_contains k d = true -> dict_keys (dict_set k v d) = dict_keys d.
Proof.
  unfold dict_contains, dict_keys. induction d as [|[k' v'] rest IH]; simpl.
  - discriminate.
  - destruct (k' =? k)%string; simpl; auto.
    intros H. now rewrite IH.
Qed.

Lemma dict_get_none_not_in {V : Type} (k : string) (d : pydict V) :
  dict_get k d = None -> ~ In k (dict_keys d).
Proof.
  unfold dict_keys. induction d as [|[k' v'] rest IH]; simpl; auto.
  destruct (k' =? k)%string eqn:E; [discriminate|].
  intros H [Heq|Hin]; [|now apply IH].
  subst k'. now rewrite String.eqb_refl in E.
Qed.

Lemma dict_set_keys_NoDup {V : Type} (k : string) (v : V) (d : pydict V) :
  NoDup (dict_keys d) -> NoDup (dict_keys (dict_set k v d)).
Proof.
  intros Hnd. destruct (dict_contains k d) eqn:E.
  - now rewrite dict_set_keys_present.
  - rewrite dict_set_fresh by assumption.
    unfold dict_keys in *. rewrite map_app. simpl.
    apply NoDup_app; [assumption|repeat constructor; simpl; tauto|].
    simpl. intros x Hin [Hx|[]]. subst x.
    unfold dict_contains in E.
    destruct (dict_get k d) eqn:G; [discriminate|].
    exact (dict_get_none_not_in k d G Hin).
Qed.

(* ================================================================== *)
(** ** The provider client *)

Lemma get_heygen_service_frame (env : Env) (w w1 : World)
    (r : exn + option HeyGenService.t) :
  get_heygen_service env w = (r, w1) ->
  video_requests_db w1 = video_requests_db w /\
  provider_calls w1 = provider_calls w /\
  r = inr (heygen_service w1).
Proof.
  unfold get_heygen_service. intros H.
  destruct (heygen_service w) eqn:S.
  - inversion H; subst. rewrite S. repeat split.
  - destruct (truthy (HEYGEN_API_KEY env)); inversion H; subst; simpl;
      rewrite ?S; repeat split.
Qed.

(** A reply with status 200 and a body that decodes is handed back by
    the client as it is. *)
Lemma provider_reply_returned {R : PyRuntime} (env : Env) (c : HttpCall)
    (w : World) (text : string) (body : json) :
  provider env (provider_calls w) c = Replied 200 text (Some body) ->
  try_except (response <- requests_call env c ;; check_response response)
    translate_requests_error w
  = (inr body, log_call w c).
Proof.
  intros H. unfold try_except, bind, requests_call. now rewrite H.
Qed.

(** On a provider failure the client either raises, or hands back a
    decoded body that lacks [data.key]. *)
Lemma provider_failure_outcome {R : PyRuntime} (env : Env) (c : HttpCall)
    (w : World) (key : string) :
  ProviderFailure key (provider env (provider_calls w) c) ->
  (exists e,
     try_except (response <- requests_call env c ;; check_response response)
       translate_requests_error w
     = (inl e, log_call w c)) \/
  (exists body,
     data_field body key = None /\
     try_except (response <- requests_call env c ;; check_response response)
       translate_requests_error w
     = (inr body, log_call w c)).
Proof.
  intros H. unfold try_except, bind, requests_call.
  inversion H as [code text decoded Hcode E|e E|text E|text body Hmiss E];
    simpl.
  - left. exists (HTTPException code ("HeyGen API error: " ++ text)).
    apply Z.eqb_neq in Hcode. simpl. now rewrite Hcode.
  - left. destruct e; simpl; unfold raise; eauto.
  - left. eexists. reflexivity.
  - right. now exists body.
Qed.

(** A timeout becomes a 408 and a connection failure a 503. *)
Lemma transport_errors_translated {R : PyRuntime} (env : Env) (c : HttpCall)
    (w : World) :
  (provider env (provider_calls w) c = Raised Timeout ->
   try_except (response <- requests_call env c ;; check_response response)
     translate_requests_error w
   = (inl (HTTPException 408 "Request timeout"), log_call w c)) /\
  (provider env (provider_calls w) c = Raised ConnectionError ->
   try_except (response <- requests_call env c ;; check_response response)
     translate_requests_error w
   = (inl (HTTPException 503 "Service unavailable"), log_call w c)).
Proof.
  unfold try_except, bind, requests_call.
  split; intros H; now rewrite H.
Qed.

(** A reply is a failure or a success body that carries [data.key]. *)
Lemma transport_cases (key : string) (t : Transport) :
  ProviderFailure key t \/
  exists text body data v,
    t = Replied 200 text (Some body) /\
    data_of body = Some data /\ dict_get key data = Some v.
Proof.
  destruct t as [code text [body|]|e].
  - destruct (Z.eq_dec code 200) as [->|Hne].
    + destruct (data_field body key) as [v|] eqn:F.
      * right. unfold data_field in F.
        destruct (data_of body) as [data|] eqn:D; [|discriminate].
        now exists text, body, data, v.
      * left. now constructor.
    + left. now constructor.
  - destruct (Z.eq_dec code 200) as [->|Hne]; left; now constructor.
  - left. constructor.
Qed.

(** *** Looking for [data.key] in a decoded body *)

Lemma has_data_key_present (body : json) (key : string) (data : pydict json)
    (v : json) :
  data_of body = Some data ->
  dict_get key data = Some v ->
  has_data_key body key = inr true /\
  py_getitem body "data" = inr (JDict data) /\
  py_getitem (JDict data) key = inr v.
Proof.
  unfold data_of, has_data_key. intros Hd Hk.
  destruct body; try discriminate. simpl.
  unfold dict_contains.
  destruct (dict_get "data" entries) as [[]|] eqn:G; try discriminate.
  inversion Hd; subst. simpl. unfold dict_contains. now rewrite Hk.
Qed.

(** When the body has no [data.key], the test of the handler is false
    or raises, or it passes on a string or list and the indexing that
    follows raises. *)
Lemma has_data_key_missing (body : json) (key : string) :
  data_field body key = None ->
  has_data_key body key = inr false \/
  (exists e, has_data_key body key = inl e) \/
  (has_data_key body key = inr true /\
   exists data e,
     py_getitem body "data" = inr data /\ py_getitem data key = inl e).
Proof.
  unfold data_field, data_of, has_data_key. intros H.
  destruct body; simpl; try (right; left; eexists; reflexivity).
  - (* a string: indexing it raises *)
    destruct (is_substring "data" s); [right; left; eexists|left]; reflexivity.
  - (* a list: indexing it raises *)
    destruct (existsb (json_is_str "data") items);
      [right; left; eexists|left]; reflexivity.
  - unfold dict_contains.
    destruct (dict_get "data" entries) as [data|] eqn:G; [|now left].
    destruct data; simpl; try (right; left; eexists; reflexivity).
    + destruct (is_substring key s) eqn:E; [|now left].
      right; right. split; [reflexivity|].
      exists (JStr s), (TypeError (JStr s)). now split.
    + destruct (existsb (json_is_str key) items) eqn:E; [|now left].
      right; right. split; [reflexivity|].
      exists (JList items), (TypeError (JList items)). now split.
    + unfold dict_contains. rewrite H. now left.
Qed.

(* ================================================================== *)
(** ** Generation *)



(** A provider failure on the generation call ends the handler in an
    [HTTPException]; the world is the one after the single call. *)
Lemma generate_video_failure {R : PyRuntime} (env : Env) (uuid4 now : string)
    (request : VideoGenerationRequest.t) (w w1 : World)
    (service : HeyGenService.t) :
  get_heygen_service env w = (inr (Some service), w1) ->
  ProviderFailure "video_id"
    (provider env (provider_calls w) (generate_call env service request)) ->
  exists code detail,
    generate_video env uuid4 now request w
    = (inl (HTTPException code detail),
       log_call w1 (generate_call env service request)).
Proof.
  intros Hsvc Hfail.
  destruct (get_heygen_service_frame _ _ _ _ Hsvc) as (Hdb & Hcalls & Hs).
  rewrite <- Hcalls in Hfail.
  unfold generate_video, bind at 1. rewrite Hsvc.
  unfold HeyGenService_generate_video.
  unfold try_except at 1, bind at 1.
  destruct (provider_failure_outcome env _ w1 "video_id" Hfail)
    as [(e & Hcall)|(body & Hmiss & Hcall)]; rewrite Hcall.
  - destruct e; run_monad; eauto.
  - run_monad.
    destruct (has_data_key_missing body "video_id" Hmiss)
      as [Hf|[(e & He)|(Hf & data & e & Hd & He)]].
    + rewrite Hf. run_monad. eauto.
    + rewrite He. destruct e; run_monad; eauto.
    + rewrite Hf, Hd. simpl. rewrite He. destruct e; run_monad; eauto.
Qed.

(* ================================================================== *)
(** ** Retrieval *)

(** When the target cannot be determined the handler stops there. *)
Lemma retrieve_video_unresolved {R : PyRuntime} (env : Env) (now : string)
    (request : VideoRetrievalRequest.t) (w w1 : World)
    (service : HeyGenService.t) (e : exn) :
  get_heygen_service env w = (inr (Some service), w1) ->
  determine_video_id request (video_requests_db w) = inl e ->
  retrieve_video env now request w = (inl e, w1).
Proof.
  intros Hsvc Hdet.
  destruct (get_heygen_service_frame _ _ _ _ Hsvc) as (Hdb & _ & _).
  unfold retrieve_video, bind at 1. rewrite Hsvc.
  unfold bind at 1, read_db. unfold bind at 1, lift.
  now rewrite Hdb, Hdet.
Qed.

(** A provider failure on the status call ends the handler in an
    [HTTPException]; the world is the one after the single call. *)
Lemma retrieve_video_failure {R : PyRuntime} (env : Env) (now : string)
    (request : VideoRetrievalRequest.t) (w w1 : World)
    (service : HeyGenService.t) (video_id : json) (request_id : option string) :
  get_heygen_service env w = (inr (Some service), w1) ->
  determine_video_id request (video_requests_db w) = inr (video_id, request_id) ->
  ProviderFailure "status"
    (provider env (provider_calls w) (status_call service video_id)) ->
  exists code detail,
    retrieve_video env now request w
    = (inl (HTTPException code detail),
       log_call w1 (status_call service video_id)).
Proof.
  intros Hsvc Hdet Hfail.
  destruct (get_heygen_service_frame _ _ _ _ Hsvc) as (Hdb & Hcalls & Hs).
  rewrite <- Hcalls in Hfail.
  unfold retrieve_video, bind at 1. rewrite Hsvc.
  unfold bind at 1, read_db. unfold bind at 1, lift.
  rewrite Hdb, Hdet.
  unfold HeyGenService_get_video_status.
  unfold try_except at 1, bind at 1.
  destruct (provider_failure_outcome env _ w1 "status" Hfail)
    as [(e & Hcall)|(body & Hmiss & Hcall)]; rewrite Hcall.
  - destruct e; run_monad; eauto.
  - run_monad.
    destruct (has_data_key_missing body "status" Hmiss)
      as [Hf|[(e & He)|(Hf & data & e & Hd & He)]].
    + rewrite Hf. run_monad. eauto.
    + rewrite He. destruct e; run_monad; eauto.
    + rewrite Hf, Hd. simpl. rewrite He. destruct e; run_monad; eauto.
Qed.

(** The response constructors raise nothing but a validation error. *)
Lemma VideoRetrievalResponse_new_error {R : PyRuntime}
    (response_data : pydict json) (e : exn) :
  VideoRetrievalResponse.new response_data = inl e ->
  e = ValidationError "VideoRetrievalResponse".
Proof.
  unfold VideoRetrievalResponse.new.
  repeat match goal with
         | |- context [match ?x with Some _ => _ | None => _ end] =>
             destruct x
         end; congruence.
Qed.

(** The outcome of building the response from its keyword arguments,
    as the handler's [except] clauses leave it. *)
Lemma retrieve_video_reply {R : PyRuntime} (env : Env) (now : string)
    (request : VideoRetrievalRequest.t) (w w1 : World)
    (service : HeyGenService.t) (video_id : json) (request_id : option string)
    (text : string) (body : json) (data : pydict json) (status : json) :
  get_heygen_service env w = (inr (Some service), w1) ->
  determine_video_id request (video_requests_db w) = inr (video_id, request_id) ->
  provider env (provider_calls w) (status_call service video_id)
    = Replied 200 text (Some body) ->
  data_of body = Some data ->
  dict_get "status" data = Some status ->
  exists response_data,
    build_response_data request_id video_id status (JDict data)
      = inr response_data /\
    retrieve_video env now request w
    = (match VideoRetrievalResponse.new response_data with
       | inr response => inr response
       | inl e => inl (HTTPException 500 ("Video retrieval failed: " ++ exn_str e))
       end,
       set_db (log_call w1 (status_call service video_id))
         (update_local_storage request_id status now (video_requests_db w))).
Proof.
  intros Hsvc Hdet Hreply Hdata Hstatus.
  destruct (get_heygen_service_frame _ _ _ _ Hsvc) as (Hdb & Hcalls & Hs).
  destruct (has_data_key_present _ _ _ _ Hdata Hstatus) as (Hfound & Hget & Hst).
  rewrite <- Hcalls in Hreply.
  pose proof (provider_reply_returned env _ w1 text body Hreply) as Hcall.
  assert (Hbuild : exists response_data,
             build_response_data request_id video_id status (JDict data)
             = inr response_data).
  { unfold build_response_data, py_get, py_get_default.
    destruct (json_is_str "completed" status).
    - repeat match goal with
             | |- context [dict_get ?k data] => destruct (dict_get k data)
             end; eauto.
    - destruct (json_is_str "failed" status); [|eauto].
      destruct (dict_get "error" data); eauto. }
  destruct Hbuild as (response_data & Hbuild).
  exists response_data. split; [assumption|].
  unfold retrieve_video, bind at 1. rewrite Hsvc.
  unfold bind at 1, read_db. unfold bind at 1, lift.
  rewrite Hdb, Hdet.
  unfold HeyGenService_get_video_status.
  unfold try_except at 1, bind at 1. rewrite Hcall.
  run_monad. rewrite Hfound, Hget. simpl. rewrite Hstatus, Hbuild, Hdb.
  destruct (VideoRetrievalResponse.new response_data) as [e|response] eqn:N;
    [|reflexivity].
  now rewrite (VideoRetrievalResponse_new_error _ _ N).
Qed.

(* ================================================================== *)
(** ** Failure paths and input checks *)

(** C4.  A generation request whose [script_text] has length 0 or more
    than 5000 is answered with a 4xx response (422) and the world,
    provider-call log included, is untouched; a [script_text] of length 1
    to 5000 passes validation. *)
Theorem script_length_is_validated {R : PyRuntime} :
  forall (env : Env) (uuid4 now : string) (body : GenerationBody.t) (w : World),
    (script_length body = 0 \/ 5000 < script_length body ->
     exists status_code content,
       app env (POST_generate uuid4 now body) w
         = (JSONResponse status_code content, w) /\
       400 <= status_code < 500 /\
       provider_calls (snd (app env (POST_generate uuid4 now body) w))
         = provider_calls w)
    /\
    (1 <= script_length body <= 5000 ->
     exists request,
       parse_VideoGenerationRequest body = inr request /\
       VideoGenerationRequest.script_text request
         = GenerationBody.script_text body).
Proof.
  intros env uuid4 now body w. unfold script_length. split.
  - intros Hlen. simpl. unfold parse_VideoGenerationRequest.
    destruct (Z.of_nat (py_len (GenerationBody.script_text body)) <? 1)
      eqn:Lo.
    + eexists 422, _. simpl. repeat split; lia.
    + destruct (5000 <? Z.of_nat (py_len (GenerationBody.script_text body)))
        eqn:Hi.
      * eexists 422, _. simpl. repeat split; lia.
      * apply Z.ltb_ge in Lo, Hi. lia.
  - intros Hlen. unfold parse_VideoGenerationRequest.
    destruct (Z.of_nat (py_len (GenerationBody.script_text body)) <? 1)
      eqn:Lo; [apply Z.ltb_lt in Lo; lia|].
    destruct (5000 <? Z.of_nat (py_len (GenerationBody.script_text body)))
      eqn:Hi; [apply Z.ltb_lt in Hi; lia|].
    eexists. split; reflexivity.
Qed.

Lemma script_length_is_validated_witness :
  (exists status_code content,
     app (stub_env (video_created "v1") (Raised Timeout))
       (POST_generate "u1" "t0" (body_of_script "")) initial_world
       = (JSONResponse status_code content, initial_world) /\
     400 <= status_code < 500 /\
     provider_calls
       (snd (app (stub_env (video_created "v1") (Raised Timeout))
               (POST_generate "u1" "t0" (body_of_script "")) initial_world))
       = []) /\
  (exists request,
     parse_VideoGenerationRequest (body_of_script "Hello world") = inr request /\
     VideoGenerationRequest.script_text request = "Hello world").
Proof.
  split.
  - apply (proj1 (@script_length_is_validated strict_runtime
                    (stub_env (video_created "v1") (Raised Timeout))
                    "u1" "t0" (body_of_script "") initial_world)).
    left. reflexivity.
  - apply (proj2 (@script_length_is_validated strict_runtime
                    (stub_env (video_created "v1") (Raised Timeout))
                    "u1" "t0" (body_of_script "Hello world") initial_world)).
    unfold script_length. simpl. lia.
Defined.

(** The provider is called exactly once after the target is
    determined, whatever it answers. *)
Lemma retrieve_video_calls {R : PyRuntime} (env : Env) (now : string)
    (request : VideoRetrievalRequest.t) (w w1 : World)
    (service : HeyGenService.t) (video_id : json) (request_id : option string) :
  get_heygen_service env w = (inr (Some service), w1) ->
  determine_video_id request (video_requests_db w) = inr (video_id, request_id) ->
  provider_calls (snd (retrieve_video env now request w))
  = (provider_calls w ++ [status_call service video_id])%list.
Proof.
  intros Hsvc Hdet.
  destruct (get_heygen_service_frame _ _ _ _ Hsvc) as (_ & Hcalls & _).
  destruct (transport_cases "status"
              (provider env (provider_calls w) (status_call service video_id)))
    as [Hfail|(text & body & data & status & Hreply & Hdata & Hstatus)].
  - destruct (retrieve_video_failure env now request w w1 service video_id
                request_id Hsvc Hdet Hfail) as (code & detail & Hrun).
    rewrite Hrun. simpl. now rewrite Hcalls.
  - destruct (retrieve_video_reply env now request w w1 service video_id
                request_id text body data status Hsvc Hdet Hreply Hdata Hstatus)
      as (response_data & _ & Hrun).
    rewrite Hrun. simpl. now rewrite Hcalls.
Qed.

(** C5.  With the provider client configured, and a request or video
    id counted as supplied when it is a non-empty string (the handler's
    truthiness test): with neither supplied the call fails with 400; a
    supplied request id decides the target, whatever video id comes with
    it, and the status call is made for the stored video id; a supplied
    request id that is not in the registry fails with 404 and no provider
    call; a video id supplied alone is the target of the status call as
    it is, whether or not a record carries it. *)
Theorem retrieval_target_resolution {R : PyRuntime} :
  forall (env : Env) (now : string) (request : VideoRetrievalRequest.t)
         (w w1 : World) (service : HeyGenService.t),
    get_heygen_service env w = (inr (Some service), w1) ->
    let request_id := VideoRetrievalRequest.request_id request in
    let video_id := VideoRetrievalRequest.video_id request in
    (truthy request_id = false -> truthy video_id = false ->
     retrieve_video env now request w
       = (inl (HTTPException 400 "Either request_id or video_id must be provided"),
          w1) /\
     provider_calls w1 = provider_calls w)
    /\
    (forall rid record,
       request_id = Some rid -> rid <> "" ->
       dict_get rid (video_requests_db w) = Some record ->
       determine_video_id request (video_requests_db w)
         = inr (VideoRecord.video_id record, Some rid) /\
       provider_calls (snd (retrieve_video env now request w))
         = (provider_calls w
              ++ [status_call service (VideoRecord.video_id record)])%list)
    /\
    (forall rid,
       request_id = Some rid -> rid <> "" ->
       dict_get rid (video_requests_db w) = None ->
       retrieve_video env now request w
         = (inl (HTTPException 404 "Request ID not found"), w1) /\
       provider_calls w1 = provider_calls w)
    /\
    (forall vid,
       truthy request_id = false -> video_id = Some vid -> vid <> "" ->
       provider_calls (snd (retrieve_video env now request w))
         = (provider_calls w ++ [status_call service (JStr vid)])%list).
Proof.
  intros env now request w w1 service Hsvc request_id video_id.
  destruct (get_heygen_service_frame _ _ _ _ Hsvc) as (_ & Hcalls & _).
  subst request_id video_id. destruct request as [orid ovid]. simpl.
  split; [|split; [|split]].
  - intros Hrid Hvid. split; [|assumption].
    apply (retrieve_video_unresolved env now _ w w1 service _ Hsvc).
    unfold determine_video_id. simpl. now rewrite Hrid, Hvid.
  - intros rid record -> Hrid Hget.
    apply String.eqb_neq in Hrid.
    assert (Hdet : determine_video_id
                     {| VideoRetrievalRequest.request_id := Some rid;
                        VideoRetrievalRequest.video_id := ovid |}
                     (video_requests_db w)
                   = inr (VideoRecord.video_id record, Some rid)).
    { unfold determine_video_id. simpl. now rewrite Hrid, Hget. }
    split; [exact Hdet|].
    exact (retrieve_video_calls env now _ w w1 service _ (Some rid) Hsvc Hdet).
  - intros rid -> Hrid Hget. split; [|assumption].
    apply (retrieve_video_unresolved env now _ w w1 service _ Hsvc).
    unfold determine_video_id. simpl.
    apply String.eqb_neq in Hrid. now rewrite Hrid, Hget.
  - intros vid Hrid -> Hvid.
    apply (retrieve_video_calls env now _ w w1 service _
             (find_request_id vid (video_requests_db w) orid) Hsvc).
    unfold determine_video_id. simpl. rewrite Hrid.
    apply String.eqb_neq in Hvid. now rewrite Hvid.
Qed.

Lemma retrieval_target_resolution_witness :
  let env := stub_env (Raised Timeout) (status_reply [("status", JStr "processing")]) in
  let w := sample_world "u1" "v1" in
  retrieve_video env "t1"
    {| VideoRetrievalRequest.request_id := None;
       VideoRetrievalRequest.video_id := None |} w
  = (inl (HTTPException 400 "Either request_id or video_id must be provided"), w)
  /\ provider_calls
       (snd (retrieve_video env "t1"
               {| VideoRetrievalRequest.request_id := Some "u1";
                  VideoRetrievalRequest.video_id := Some "other" |} w))
     = [status_call configured_service (JStr "v1")]
  /\ retrieve_video env "t1" (by_request "u9") w
     = (inl (HTTPException 404 "Request ID not found"), w)
  /\ provider_calls (snd (retrieve_video env "t1" (by_video "v7") w))
     = [status_call configured_service (JStr "v7")].
Proof.
  intros env w. split; [|split; [|split]].
  - apply (retrieval_target_resolution env "t1"
             {| VideoRetrievalRequest.request_id := None;
                VideoRetrievalRequest.video_id := None |}
             w w configured_service eq_refl); reflexivity.
  - apply (proj1 (proj2 (retrieval_target_resolution env "t1"
             {| VideoRetrievalRequest.request_id := Some "u1";
                VideoRetrievalRequest.video_id := Some "other" |}
             w w configured_service eq_refl)) "u1" (sample_record "v1"));
      [reflexivity|discriminate|reflexivity].
  - apply (proj1 (proj2 (proj2 (retrieval_target_resolution env "t1"
             (by_request "u9") w w configured_service eq_refl))) "u9");
      [reflexivity|discriminate|reflexivity].
  - apply (proj2 (proj2 (proj2 (retrieval_target_resolution env "t1"
             (by_video "v7") w w configured_service eq_refl))) "v7");
      [reflexivity|reflexivity|discriminate].
Defined.

(** C9.  With the provider client configured, a retrieval that supplies
    a request id absent from the registry fails with 404 whatever video
    id accompanies it: the outcome does not depend on the video id, and
    no provider call is made. *)
Theorem unknown_request_id_ignores_video_id {R : PyRuntime} :
  forall (env : Env) (now rid : string) (video_id : option string)
         (w w1 : World) (service : HeyGenService.t),
    get_heygen_service env w = (inr (Some service), w1) ->
    rid <> "" ->
    dict_get rid (video_requests_db w) = None ->
    retrieve_video env now
      {| VideoRetrievalRequest.request_id := Some rid;
         VideoRetrievalRequest.video_id := video_id |} w
      = (inl (HTTPException 404 "Request ID not found"), w1)
    /\ provider_calls w1 = provider_calls w
    /\ video_requests_db w1 = video_requests_db w.
Proof.
  intros env now rid video_id w w1 service Hsvc Hrid Habsent.
  destruct (get_heygen_service_frame _ _ _ _ Hsvc) as (Hdb & Hcalls & _).
  repeat split; try assumption.
  apply (retrieve_video_unresolved env now _ w w1 service _ Hsvc).
  unfold determine_video_id. simpl.
  apply String.eqb_neq in Hrid. now rewrite Hrid, Habsent.
Qed.

Lemma unknown_request_id_ignores_video_id_witness :
  let env := stub_env (Raised Timeout) (status_reply [("status", JStr "completed")]) in
  let w := sample_world "u1" "v1" in
  retrieve_video env "t1"
    {| VideoRetrievalRequest.request_id := Some "u9";
       VideoRetrievalRequest.video_id := Some "v1" |} w
    = (inl (HTTPException 404 "Request ID not found"), w)
  /\ provider_calls w = provider_calls w
  /\ video_requests_db w = video_requests_db w.
Proof.
  intros env w.
  apply (unknown_request_id_ignores_video_id env "t1" "u9" (Some "v1")
           w w configured_service eq_refl);
    [discriminate|reflexivity].
Defined.

(* ================================================================== *)
(** ** The retrieval response *)

(** What the constructor did with each keyword argument. *)
Lemma VideoRetrievalResponse_new_fields {R : PyRuntime}
    (response_data : pydict json) (r : VideoRetrievalResponse.t) :
  VideoRetrievalResponse.new response_data = inr r ->
  let arg := VideoRetrievalResponse.kwarg response_data in
  VideoRetrievalResponse.required_bool (dict_get "success" response_data)
    = Some (VideoRetrievalResponse.success r) /\
  VideoRetrievalResponse.required_str (dict_get "message" response_data)
    = Some (VideoRetrievalResponse.message r) /\
  validate_optional coerce_str (arg "status")
    = Some (VideoRetrievalResponse.status r) /\
  validate_optional coerce_str (arg "video_url")
    = Some (VideoRetrievalResponse.video_url r) /\
  validate_optional coerce_str (arg "caption_url")
    = Some (VideoRetrievalResponse.caption_url r) /\
  validate_optional coerce_str (arg "thumbnail_url")
    = Some (VideoRetrievalResponse.thumbnail_url r) /\
  validate_optional coerce_float (arg "duration")
    = Some (VideoRetrievalResponse.duration r) /\
  validate_optional coerce_str (arg "created_at")
    = Some (VideoRetrievalResponse.created_at r).
Proof.
  intros H. cbv zeta. unfold VideoRetrievalResponse.new in H.
  repeat match type of H with
         | context [match ?x with Some _ => _ | None => _ end] =>
             destruct x; try discriminate
         end.
  injection H as <-. simpl. repeat split; reflexivity.
Qed.

(** The keyword arguments for a status given as a string. *)
Lemma build_response_data_str {R : PyRuntime} (request_id : option string)
    (video_id : json) (s : string) (data : pydict json) :
  let base := [
    ("success", JBool true);
    ("message", JStr ("Video status: " ++ s));
    ("request_id", json_opt_str request_id);
    ("video_id", video_id);
    ("status", JStr s)] in
  build_response_data request_id video_id (JStr s) (JDict data)
  = inr (if (s =? "completed")%string then
           (base ++ [("video_url", provided data "video_url");
                     ("caption_url", provided data "caption_url");
                     ("thumbnail_url", provided data "thumbnail_url");
                     ("duration", provided data "duration");
                     ("created_at", provided data "created_at")])%list
         else if (s =? "failed")%string then
           [("success", JBool true);
            ("message",
             JStr ("Video generation failed: "
                   ++ py_format (match dict_get "error" data with
                                 | Some e => e
                                 | None => JStr "Unknown error"
                                 end)));
            ("request_id", json_opt_str request_id);
            ("video_id", video_id);
            ("status", JStr s)]
         else base).
Proof.
  intros base. subst base.
  unfold build_response_data, py_get, py_get_default, provided.
  simpl json_is_str. rewrite py_format_str.
  destruct (s =? "completed")%string.
  - repeat match goal with
           | |- context [dict_get ?k data] => destruct (dict_get k data)
           end; reflexivity.
  - destruct (s =? "failed")%string; [|reflexivity].
    destruct (dict_get "error" data); reflexivity.
Qed.

Lemma validate_optional_not_null {T : Type} (coerce : json -> option T)
    (v : json) :
  v <> JNull ->
  validate_optional coerce v
  = match coerce v with
    | Some t => Some (Some t)
    | None => None
    end.
Proof. destruct v; intros H; [contradiction|reflexivity..]. Qed.

Lemma json_null_dec (v : json) : {v = JNull} + {v <> JNull}.
Proof. destruct v; (now left) || (right; discriminate). Qed.

Lemma validate_optional_passed_through {T : Type} (coerce : json -> option T)
    (typed : T -> json) (src : option json) (dst : option T) :
  (forall t, coerce (typed t) = Some t) ->
  (forall t, typed t <> JNull) ->
  validate_optional coerce (match src with Some v => v | None => JNull end)
    = Some dst ->
  passed_through coerce typed src dst.
Proof.
  intros Hlaw Hnn H. unfold passed_through.
  destruct src as [v|]; [destruct (json_null_dec v) as [->|Hv]|].
  - (* null *)
    simpl in H. injection H as <-. split; [|split].
    + intros t E. injection E as E. now destruct (Hnn t).
    + reflexivity.
    + discriminate.
  - (* a value *)
    rewrite validate_optional_not_null in H by assumption.
    destruct (coerce v) as [t0|] eqn:C; [|discriminate].
    injection H as <-. split; [|split].
    + intros t E. injection E as ->. rewrite Hlaw in C. congruence.
    + intros [E|E]; [discriminate|]. injection E as ->. contradiction.
    + intros t E. injection E as ->. now exists v.
  - (* absent *)
    simpl in H. injection H as <-. split; [|split].
    + discriminate.
    + reflexivity.
    + discriminate.
Qed.

(** Whatever the status, the keyword arguments carry it, and [success]
    is true. *)
Lemma build_response_data_status {R : PyRuntime} (request_id : option string)
    (video_id status : json) (data response_data : pydict json) :
  build_response_data request_id video_id status (JDict data)
    = inr response_data ->
  dict_get "success" response_data = Some (JBool true) /\
  VideoRetrievalResponse.kwarg response_data "status" = status.
Proof.
  unfold build_response_data, py_get, py_get_default.
  destruct (json_is_str "completed" status).
  - repeat match goal with
           | |- context [dict_get ?k data] => destruct (dict_get k data)
           end; intros H; injection H as <-; now split.
  - destruct (json_is_str "failed" status).
    + destruct (dict_get "error" data); intros H; injection H as <-; now split.
    + intros H; injection H as <-; now split.
Qed.

(** A retrieval that returned a response built it from the keyword
    arguments of [build_response_data]. *)
Lemma retrieve_video_returned {R : PyRuntime} (env : Env) (now : string)
    (request : VideoRetrievalRequest.t) (w w1 w' : World)
    (service : HeyGenService.t) (video_id : json) (request_id : option string)
    (text : string) (body : json) (data : pydict json) (status : json)
    (response : VideoRetrievalResponse.t) :
  get_heygen_service env w = (inr (Some service), w1) ->
  determine_video_id request (video_requests_db w) = inr (video_id, request_id) ->
  provider env (provider_calls w) (status_call service video_id)
    = Replied 200 text (Some body) ->
  data_of body = Some data ->
  dict_get "status" data = Some status ->
  retrieve_video env now request w = (inr response, w') ->
  exists response_data,
    build_response_data request_id video_id status (JDict data)
      = inr response_data /\
    VideoRetrievalResponse.new response_data = inr response.
Proof.
  intros Hsvc Hdet Hreply Hdata Hstatus Hret.
  destruct (retrieve_video_reply env now request w w1 service video_id
              request_id text body data status Hsvc Hdet Hreply Hdata Hstatus)
    as (response_data & Hbuild & Hrun).
  exists response_data. split; [assumption|].
  rewrite Hrun in Hret.
  destruct (VideoRetrievalResponse.new response_data); [discriminate|].
  now injection Hret as -> _.
Qed.

(** C6, as the code has it.  For a retrieval that returns a response,
    on a provider body that has a [data.status]: the response carries that status, as the
    [status] field accepted it, and a status that is the string [s] is
    carried as [s]; when the status is "completed", [video_url],
    [caption_url], [thumbnail_url], [duration] and [created_at] carry the
    provider's values through the fields of the response model (a value
    of the field's declared type is copied as it is, an absent or null
    value stays null, and a value of another type appears only as the
    field accepted and converted it, never without a provider value);
    when the status is "failed", the message is
    "Video generation failed: " followed by the provider's [error] when
    the key is present, and by "Unknown error" when it is absent. *)
Theorem retrieval_response_contents {R : PyRuntime} :
  forall (env : Env) (now : string) (request : VideoRetrievalRequest.t)
         (w w1 w' : World) (service : HeyGenService.t) (video_id : json)
         (request_id : option string) (text : string) (body : json)
         (data : pydict json) (status : json)
         (response : VideoRetrievalResponse.t),
    get_heygen_service env w = (inr (Some service), w1) ->
    determine_video_id request (video_requests_db w) = inr (video_id, request_id) ->
    provider env (provider_calls w) (status_call service video_id)
      = Replied 200 text (Some body) ->
    data_of body = Some data ->
    dict_get "status" data = Some status ->
    retrieve_video env now request w = (inr response, w') ->
    VideoRetrievalResponse.success response = true /\
    validate_optional coerce_str status
      = Some (VideoRetrievalResponse.status response) /\
    (forall s, status = JStr s ->
       VideoRetrievalResponse.status response = Some s) /\
    (status = JStr "completed" ->
     passed_through coerce_str JStr (dict_get "video_url" data)
       (VideoRetrievalResponse.video_url response) /\
     passed_through coerce_str JStr (dict_get "caption_url" data)
       (VideoRetrievalResponse.caption_url response) /\
     passed_through coerce_str JStr (dict_get "thumbnail_url" data)
       (VideoRetrievalResponse.thumbnail_url response) /\
     passed_through coerce_float JFloat (dict_get "duration" data)
       (VideoRetrievalResponse.duration response) /\
     passed_through coerce_str JStr (dict_get "created_at" data)
       (VideoRetrievalResponse.created_at response)) /\
    (status = JStr "failed" ->
     (forall e, dict_get "error" data = Some e ->
        VideoRetrievalResponse.message response
        = "Video generation failed: " ++ py_format e) /\
     (forall x, dict_get "error" data = Some (JStr x) ->
        VideoRetrievalResponse.message response
        = "Video generation failed: " ++ x) /\
     (dict_get "error" data = None ->
        VideoRetrievalResponse.message response
        = "Video generation failed: Unknown error")).
Proof.
  intros env now request w w1 w' service video_id request_id text body data
    status response Hsvc Hdet Hreply Hdata Hstatus Hret.
  destruct (retrieve_video_returned env now request w w1 w' service video_id
              request_id text body data status response
              Hsvc Hdet Hreply Hdata Hstatus Hret)
    as (response_data & Hbuild & Hnew).
  pose proof (VideoRetrievalResponse_new_fields _ _ Hnew) as F.
  cbv zeta in F.
  destruct F as (Fok & Fmsg & Fst & Fvu & Fcu & Ftu & Fdu & Fca).
  destruct (build_response_data_status _ _ _ _ _ Hbuild) as (Hok & Hkw).
  rewrite Hok in Fok. injection Fok as Fok. rewrite Hkw in Fst.
  split; [now symmetry|split; [assumption|split; [|split]]].
  - intros s ->. simpl in Fst. rewrite coerce_str_str in Fst. congruence.
  - intros ->. rewrite build_response_data_str in Hbuild.
    injection Hbuild as <-. simpl in Fvu, Fcu, Ftu, Fdu, Fca.
    unfold VideoRetrievalResponse.kwarg, provided in *. simpl in *.
    split; [|split; [|split; [|split]]];
      (apply validate_optional_passed_through;
       [first [exact coerce_str_str|exact coerce_float_float]
       |discriminate|assumption]).
  - intros ->. rewrite build_response_data_str in Hbuild.
    injection Hbuild as <-. simpl in Fmsg.
    rewrite coerce_str_str in Fmsg. injection Fmsg as <-.
    split; [|split].
    + intros e He. now rewrite He.
    + intros x He. now rewrite He, py_format_str.
    + intros He. now rewrite He, py_format_str.
Qed.

Lemma retrieval_response_contents_witness :
  VideoRetrievalResponse.status completed_response = Some "completed" /\
  passed_through strict_str JStr (Some (JStr "https://cdn.example/v1.mp4"))
    (VideoRetrievalResponse.video_url completed_response) /\
  passed_through strict_float JFloat (Some (JFloat (Finite 25 (-1))))
    (VideoRetrievalResponse.duration completed_response) /\
  passed_through strict_str JStr (Some JNull)
    (VideoRetrievalResponse.caption_url completed_response) /\
  passed_through strict_str JStr None
    (VideoRetrievalResponse.created_at completed_response).
Proof.
  destruct (@retrieval_response_contents strict_runtime
              (stub_env (Raised Timeout) (status_reply completed_data))
              "t1" (by_request "u1") (sample_world "u1" "v1")
              (sample_world "u1" "v1")
              (snd (@retrieve_video strict_runtime
                      (stub_env (Raised Timeout) (status_reply completed_data))
                      "t1" (by_request "u1") (sample_world "u1" "v1")))
              configured_service (JStr "v1") (Some "u1") ""
              (JDict [("data", JDict completed_data)]) completed_data
              (JStr "completed") completed_response
              eq_refl eq_refl eq_refl eq_refl eq_refl eq_refl)
    as (_ & _ & Hstatus & Hcompleted & _).
  specialize (Hstatus "completed" eq_refl).
  destruct (Hcompleted eq_refl) as (Hvu & Hcu & _ & Hdu & Hca).
  exact (conj Hstatus (conj Hvu (conj Hdu (conj Hcu Hca)))).
Defined.

(** C10.  For a retrieval that returns a response, on a provider body
    whose [data.status] is a string other than "completed", the fields
    [video_url], [caption_url], [thumbnail_url], [duration] and
    [created_at] of the response are all null, whatever the provider body
    holds under those keys. *)
Theorem unfinished_video_has_no_urls {R : PyRuntime} :
  forall (env : Env) (now : string) (request : VideoRetrievalRequest.t)
         (w w1 w' : World) (service : HeyGenService.t) (video_id : json)
         (request_id : option string) (text : string) (body : json)
         (data : pydict json) (s : string) (response : VideoRetrievalResponse.t),
    get_heygen_service env w = (inr (Some service), w1) ->
    determine_video_id request (video_requests_db w) = inr (video_id, request_id) ->
    provider env (provider_calls w) (status_call service video_id)
      = Replied 200 text (Some body) ->
    data_of body = Some data ->
    dict_get "status" data = Some (JStr s) ->
    s <> "completed" ->
    retrieve_video env now request w = (inr response, w') ->
    VideoRetrievalResponse.video_url response = None /\
    VideoRetrievalResponse.caption_url response = None /\
    VideoRetrievalResponse.thumbnail_url response = None /\
    VideoRetrievalResponse.duration response = None /\
    VideoRetrievalResponse.created_at response = None.
Proof.
  intros env now request w w1 w' service video_id request_id text body data s
    response Hsvc Hdet Hreply Hdata Hstatus Hs Hret.
  destruct (retrieve_video_returned env now request w w1 w' service video_id
              request_id text body data (JStr s) response
              Hsvc Hdet Hreply Hdata Hstatus Hret)
    as (response_data & Hbuild & Hnew).
  rewrite build_response_data_str in Hbuild. injection Hbuild as Hrd.
  apply String.eqb_neq in Hs. rewrite Hs in Hrd.
  pose proof (VideoRetrievalResponse_new_fields _ _ Hnew) as F.
  cbv zeta in F.
  destruct F as (_ & _ & _ & Fvu & Fcu & Ftu & Fdu & Fca).
  subst response_data. unfold VideoRetrievalResponse.kwarg in *.
  destruct (s =? "failed")%string; simpl in Fvu, Fcu, Ftu, Fdu, Fca;
    injection Fvu as <-; injection Fcu as <-; injection Ftu as <-;
    injection Fdu as <-; injection Fca as <-; repeat split.
Qed.

Lemma unfinished_video_has_no_urls_witness :
  VideoRetrievalResponse.video_url pending_response = None /\
  VideoRetrievalResponse.caption_url pending_response = None /\
  VideoRetrievalResponse.thumbnail_url pending_response = None /\
  VideoRetrievalResponse.duration pending_response = None /\
  VideoRetrievalResponse.created_at pending_response = None.
Proof.
  apply (@unfinished_video_has_no_urls strict_runtime
           (stub_env (Raised Timeout) (status_reply pending_data))
           "t1" (by_request "u1") (sample_world "u1" "v1")
           (sample_world "u1" "v1")
           (snd (@retrieve_video strict_runtime
                   (stub_env (Raised Timeout) (status_reply pending_data))
                   "t1" (by_request "u1") (sample_world "u1" "v1")))
           configured_service (JStr "v1") (Some "u1") ""
           (JDict [("data", JDict pending_data)]) pending_data
           "processing" pending_response);
    solve [reflexivity | discriminate].
Defined.

(* ================================================================== *)
(** ** The registry *)

(** The store of [generate_video] is reached whenever the provider body
    has a value at [data.video_id], of any type; the response is built
    after it. *)
Lemma generate_video_reply {R : PyRuntime} (env : Env) (uuid4 now : string)
    (request : VideoGenerationRequest.t) (w w1 : World)
    (service : HeyGenService.t) (text : string) (result : json)
    (data : pydict json) (video_id : json) :
  get_heygen_service env w = (inr (Some service), w1) ->
  provider env (provider_calls w) (generate_call env service request)
    = Replied 200 text (Some result) ->
  data_of result = Some data ->
  dict_get "video_id" data = Some video_id ->
  generate_video env uuid4 now request w
  = (match VideoGenerationResponse.new true
             "Video generation initiated successfully" uuid4 video_id
             "2-5 minutes" with
     | inr response => inr response
     | inl e => inl (HTTPException 500 ("Video generation failed: " ++ exn_str e))
     end,
     set_db (log_call w1 (generate_call env service request))
       (dict_set uuid4 (new_record env request video_id now)
          (video_requests_db w))).
Proof.
  intros Hsvc Hreply Hdata Hvid.
  destruct (get_heygen_service_frame _ _ _ _ Hsvc) as (Hdb & Hcalls & Hs).
  destruct (has_data_key_present _ _ _ _ Hdata Hvid) as (Hfound & Hget & Hid).
  rewrite <- Hcalls in Hreply.
  pose proof (provider_reply_returned env _ w1 text result Hreply) as Hcall.
  unfold generate_video, bind at 1. rewrite Hsvc.
  unfold HeyGenService_generate_video.
  unfold try_except at 1, bind at 1. rewrite Hcall.
  run_monad. rewrite Hfound, Hget. simpl. rewrite Hvid, Hdb.
  unfold VideoGenerationResponse.new.
  destruct (validate_optional coerce_str video_id); reflexivity.
Qed.

(** C2, as the code has it.  A generation whose drawn request id is
    already in the registry does not fail on it: with the provider
    answering 200 and a video identifier, the handler returns its
    response, the record under that request id is replaced by the new
    one, and the keys and every other record are unchanged. *)
Theorem insert_replaces_duplicate {R : PyRuntime} :
  forall (env : Env) (uuid4 now : string) (request : VideoGenerationRequest.t)
         (w w1 : World) (service : HeyGenService.t) (text : string)
         (result : json) (data : pydict json) (video_id : string),
    get_heygen_service env w = (inr (Some service), w1) ->
    provider env (provider_calls w) (generate_call env service request)
      = Replied 200 text (Some result) ->
    data_of result = Some data ->
    dict_get "video_id" data = Some (JStr video_id) ->
    dict_contains uuid4 (video_requests_db w) = true ->
    exists response w',
      generate_video env uuid4 now request w = (inr response, w') /\
      dict_get uuid4 (video_requests_db w')
        = Some (new_record env request (JStr video_id) now) /\
      dict_keys (video_requests_db w') = dict_keys (video_requests_db w) /\
      (forall k, k <> uuid4 ->
         dict_get k (video_requests_db w') = dict_get k (video_requests_db w)).
Proof.
  intros env uuid4 now request w w1 service text result data video_id
    Hsvc Hreply Hdata Hvid Hdup.
  rewrite (generate_video_reply env uuid4 now request w w1 service text result
             data (JStr video_id) Hsvc Hreply Hdata Hvid).
  unfold VideoGenerationResponse.new. simpl. rewrite coerce_str_str.
  eexists. eexists. split; [reflexivity|]. simpl.
  split; [apply dict_get_set_same|].
  split; [now apply dict_set_keys_present|].
  intros k Hk. apply dict_get_set_other. congruence.
Qed.

Lemma insert_replaces_duplicate_witness :
  let env := stub_env (video_created "v2") (Raised Timeout) in
  let w := sample_world "u1" "v1" in
  exists response w',
    generate_video env "u1" "t0" hello_request w = (inr response, w') /\
    dict_get "u1" (video_requests_db w')
      = Some (new_record env hello_request (JStr "v2") "t0") /\
    dict_keys (video_requests_db w') = dict_keys (video_requests_db w) /\
    (forall k, k <> "u1" ->
       dict_get k (video_requests_db w') = dict_get k (video_requests_db w)).
Proof.
  intros env w.
  apply (@insert_replaces_duplicate strict_runtime env "u1" "t0" hello_request
           w w configured_service ""
           (JDict [("data", JDict [("video_id", JStr "v2")])])
           [("video_id", JStr "v2")] "v2"); reflexivity.
Defined.

(** C2, as the specification states it, fails: the request id ["u1"] is
    in the registry with video ["v1"]; a generation that draws ["u1"]
    again returns success and the record under ["u1"] now carries
    ["v2"]. *)
Lemma insert_duplicate_is_not_rejected :
  let env := stub_env (video_created "v2") (Raised Timeout) in
  let w := sample_world "u1" "v1" in
  let out := generate_video env "u1" "t0" hello_request w in
  (exists response, fst out = inr response) /\
  dict_get "u1" (video_requests_db w) = Some (sample_record "v1") /\
  dict_get "u1" (video_requests_db (snd out))
    = Some (new_record env hello_request (JStr "v2") "t0") /\
  ~ insert_rejects_duplicate env "u1" "t0" hello_request w.
Proof.
  intros env w out. split; [|split; [|split]].
  - vm_compute. eexists. reflexivity.
  - reflexivity.
  - reflexivity.
  - intros H. destruct (H eq_refl) as (e & w' & Hrun & _).
    vm_compute in Hrun. discriminate.
Qed.

Lemma get_heygen_service_cases (env : Env) (w : World) :
  exists w1,
    video_requests_db w1 = video_requests_db w /\
    (get_heygen_service env w = (inr None, w1) \/
     exists service, get_heygen_service env w = (inr (Some service), w1)).
Proof.
  destruct (get_heygen_service env w) as [r w1] eqn:G.
  destruct (get_heygen_service_frame _ _ _ _ G) as (Hdb & _ & ->).
  exists w1. split; [assumption|].
  destruct (heygen_service w1); eauto.
Qed.

(** [generate_video] leaves the registry alone or assigns one record
    under the request id it drew. *)
Lemma generate_video_db {R : PyRuntime} (env : Env) (uuid4 now : string)
    (request : VideoGenerationRequest.t) (w : World) :
  let db' := video_requests_db (snd (generate_video env uuid4 now request w)) in
  db' = video_requests_db w \/
  exists record, db' = dict_set uuid4 record (video_requests_db w).
Proof.
  cbv zeta.
  destruct (get_heygen_service_cases env w) as (w1 & Hdb & [Hnone|(service & Hsvc)]).
  - left. unfold generate_video, bind. now rewrite Hnone.
  - destruct (transport_cases "video_id"
                (provider env (provider_calls w)
                   (generate_call env service request)))
      as [Hfail|(text & body & data & v & Hreply & Hdata & Hv)].
    + left.
      destruct (generate_video_failure env uuid4 now request w w1 service
                  Hsvc Hfail) as (code & detail & ->).
      exact Hdb.
    + right. exists (new_record env request v now).
      now rewrite (generate_video_reply env uuid4 now request w w1 service
                     text body data v Hsvc Hreply Hdata Hv).
Qed.

(** [retrieve_video] leaves the registry alone or performs the two
    writes of the status update. *)
Lemma retrieve_video_db {R : PyRuntime} (env : Env) (now : string)
    (request : VideoRetrievalRequest.t) (w : World) :
  let db' := video_requests_db (snd (retrieve_video env now request w)) in
  db' = video_requests_db w \/
  exists request_id status,
    db' = update_local_storage request_id status now (video_requests_db w).
Proof.
  cbv zeta.
  destruct (get_heygen_service_cases env w) as (w1 & Hdb & [Hnone|(service & Hsvc)]).
  - left. unfold retrieve_video, bind. now rewrite Hnone.
  - destruct (determine_video_id request (video_requests_db w))
      as [e|[video_id request_id]] eqn:Hdet.
    + left.
      now rewrite (retrieve_video_unresolved env now request w w1 service e
                     Hsvc Hdet).
    + destruct (transport_cases "status"
                  (provider env (provider_calls w) (status_call service video_id)))
        as [Hfail|(text & body & data & status & Hreply & Hdata & Hstatus)].
      * left.
        destruct (retrieve_video_failure env now request w w1 service video_id
                    request_id Hsvc Hdet Hfail) as (code & detail & ->).
        exact Hdb.
      * right. exists request_id, status.
        destruct (retrieve_video_reply env now request w w1 service video_id
                    request_id text body data status
                    Hsvc Hdet Hreply Hdata Hstatus) as (rd & _ & ->).
        reflexivity.
Qed.

(** What one request does to the registry. *)
Lemma app_db {R : PyRuntime} (env : Env) (r : Request) (w : World) :
  let db := video_requests_db w in
  let db' := video_requests_db (snd (app env r w)) in
  db' = db \/
  (exists uuid4 record, drawn_id r = Some uuid4 /\ db' = dict_set uuid4 record db) \/
  (exists request_id status now,
     is_status_query r = true /\
     db' = update_local_storage request_id status now db).
Proof.
  cbv zeta. destruct r as [now|now|uuid4 now body|now body| |request_id]; simpl.
  - now left.
  - left. unfold health_check, bind.
    destruct (get_heygen_service env w) as [r w1] eqn:G.
    destruct (get_heygen_service_frame _ _ _ _ G) as (Hdb & _ & ->).
    exact Hdb.
  - destruct (parse_VideoGenerationRequest body) as [errors|request];
      [now left|].
    destruct (generate_video_db env uuid4 now request w) as [H|(record & H)];
      [left|right; left; exists uuid4, record; split; [reflexivity|]];
      destruct (generate_video env uuid4 now request w) as [[e|a] w'];
      exact H.
  - destruct (retrieve_video_db env now body w) as [H|(rid & status & H)];
      [left|right; right; exists rid, status, now; split; [reflexivity|]];
      destruct (retrieve_video env now body w) as [[e|a] w'];
      exact H.
  - now left.
  - left. unfold get_request_details, bind, read_db.
    destruct (dict_get (segment request_id) (video_requests_db w)); reflexivity.
Qed.

Lemma same_request_refl (r : VideoRecord.t) : same_request r r.
Proof. unfold same_request. repeat split. Qed.

Lemma same_request_trans (a b c : VideoRecord.t) :
  same_request a b -> same_request b c -> same_request a c.
Proof.
  unfold same_request. intros Hab Hbc.
  repeat match goal with H : _ /\ _ |- _ => destruct H end.
  repeat split; congruence.
Qed.

(** The status update rewrites [status] and [last_checked] of one
    record and nothing else. *)
Lemma update_local_storage_get (request_id : option string) (status : json)
    (now k : string) (db : pydict VideoRecord.t) (record : VideoRecord.t) :
  dict_get k db = Some record ->
  exists record',
    dict_get k (update_local_storage request_id status now db) = Some record' /\
    same_request record record'.
Proof.
  intros Hget. unfold update_local_storage.
  destruct (truthy request_id); [|exists record; split;
                                    [assumption|apply same_request_refl]].
  destruct (dict_get (or_else request_id "") db) as [found|] eqn:G;
    [|exists record; split; [assumption|apply same_request_refl]].
  destruct (String.eqb_spec (or_else request_id "") k) as [E|E].
  - rewrite E in *. rewrite dict_get_set_same. eexists. split; [reflexivity|].
    assert (found = record) by congruence. subst found.
    unfold same_request. simpl. repeat split.
  - rewrite dict_get_set_other by assumption.
    exists record. split; [assumption|apply same_request_refl].
Qed.

Lemma update_local_storage_keys (request_id : option string) (status : json)
    (now : string) (db : pydict VideoRecord.t) :
  dict_keys (update_local_storage request_id status now db) = dict_keys db.
Proof.
  unfold update_local_storage.
  destruct (truthy request_id); [|reflexivity].
  destruct (dict_get (or_else request_id "") db) eqn:G; [|reflexivity].
  apply dict_set_keys_present. unfold dict_contains. now rewrite G.
Qed.

Lemma app_record {R : PyRuntime} (env : Env) (r : Request) (w : World)
    (rid : string) (record : VideoRecord.t) :
  dict_get rid (video_requests_db w) = Some record ->
  drawn_id r <> Some rid ->
  exists record',
    dict_get rid (video_requests_db (snd (app env r w))) = Some record' /\
    same_request record record'.
Proof.
  intros Hget Hdrawn.
  destruct (app_db env r w)
    as [->|[(uuid4 & new & Hr & ->)|(request_id & status & now & _ & ->)]].
  - exists record. split; [assumption|apply same_request_refl].
  - rewrite dict_get_set_other by congruence.
    exists record. split; [assumption|apply same_request_refl].
  - now apply update_local_storage_get.
Qed.

Lemma app_other_routes {R : PyRuntime} (env : Env) (r : Request) (w : World)
    (rid : string) :
  is_status_query r = false ->
  drawn_id r <> Some rid ->
  dict_get rid (video_requests_db (snd (app env r w)))
  = dict_get rid (video_requests_db w).
Proof.
  intros Hquery Hdrawn.
  destruct (app_db env r w)
    as [->|[(uuid4 & new & Hr & ->)|(request_id & status & now & Hq & _)]].
  - reflexivity.
  - apply dict_get_set_other. congruence.
  - congruence.
Qed.

Lemma app_keys_NoDup {R : PyRuntime} (env : Env) (r : Request) (w : World) :
  NoDup (dict_keys (video_requests_db w)) ->
  NoDup (dict_keys (video_requests_db (snd (app env r w)))).
Proof.
  intros Hnd.
  destruct (app_db env r w)
    as [->|[(uuid4 & new & _ & ->)|(request_id & status & now & _ & ->)]].
  - assumption.
  - now apply dict_set_keys_NoDup.
  - now rewrite update_local_storage_keys.
Qed.

(** C7, as the code has it.  Take a record stored under [rid] and any
    sequence of requests in which no generation draws [rid] again.  After the sequence the record is still there and
    differs from the stored one at most in [status] and [last_checked];
    a request other than a status query leaves it exactly as it was; and
    the keys of the registry stay distinct. *)
Theorem record_identity_is_stable {R : PyRuntime} :
  forall (env : Env) (rs : list Request) (w : World) (rid : string)
         (record : VideoRecord.t),
    dict_get rid (video_requests_db w) = Some record ->
    ~ In (Some rid) (map drawn_id rs) ->
    (exists record',
       dict_get rid (video_requests_db (serve env rs w)) = Some record' /\
       same_request record record')
    /\
    (forall r w0,
       is_status_query r = false -> drawn_id r <> Some rid ->
       dict_get rid (video_requests_db (snd (app env r w0)))
       = dict_get rid (video_requests_db w0))
    /\
    (NoDup (dict_keys (video_requests_db w)) ->
     NoDup (dict_keys (video_requests_db (serve env rs w)))).
Proof.
  intros env rs. induction rs as [|r rest IH]; intros w rid record Hget Hfresh.
  - simpl. split; [|split].
    + exists record. split; [assumption|apply same_request_refl].
    + intros r w0. apply app_other_routes.
    + trivial.
  - simpl in Hfresh.
    assert (Hr : drawn_id r <> Some rid) by tauto.
    assert (Hrest : ~ In (Some rid) (map drawn_id rest)) by tauto.
    destruct (app_record env r w rid record Hget Hr) as (mid & Hmid & Hsame).
    destruct (IH (snd (app env r w)) rid mid Hmid Hrest)
      as ((record' & Hget' & Hsame') & _ & Hkeys).
    simpl. split; [|split].
    + exists record'. split; [assumption|].
      exact (same_request_trans _ _ _ Hsame Hsame').
    + intros r0 w0. apply app_other_routes.
    + intros Hnd. apply Hkeys. now apply app_keys_NoDup.
Qed.

Lemma record_identity_is_stable_witness :
  let env :=
    stub_env (video_created "v2") (status_reply [("status", JStr "completed")]) in
  let rs := [POST_retrieve "t1" (by_request "u1");
             POST_generate "u2" "t2" (body_of_script "Hello world");
             GET_requests;
             POST_retrieve "t3" (by_video "v1")] in
  exists record',
    dict_get "u1" (video_requests_db (serve env rs (sample_world "u1" "v1")))
      = Some record' /\
    same_request (sample_record "v1") record'.
Proof.
  intros env rs.
  apply (@record_identity_is_stable strict_runtime env rs
           (sample_world "u1" "v1") "u1" (sample_record "v1")).
  - reflexivity.
  - simpl. intros [H|[H|[H|[H|[]]]]]; discriminate.
Defined.

(* ================================================================== *)
(** ** Error responses *)

Lemma handle_exception_body (e : exn) (status_code : Z) (content : json) :
  handle_exception e = JSONResponse status_code content ->
  exists message, content = error_body status_code message.
Proof.
  destruct e; simpl; intros H; injection H as <- <-; eexists; reflexivity.
Qed.

Lemma respond_body {A : Type} (wrap : A -> Payload) (out : (exn + A) * World)
    (status_code : Z) (content : json) :
  fst (respond wrap out) = JSONResponse status_code content ->
  exists message, content = error_body status_code message.
Proof.
  destruct out as [[e|a] w]; simpl; [apply handle_exception_body|].
  unfold render. destruct (payload_serialisable (wrap a)); [discriminate|].
  apply handle_exception_body.
Qed.

Lemma error_body_uniform (status_code : Z) (message : string) :
  uniform_error_body status_code (error_body status_code message).
Proof.
  unfold uniform_error_body, error_body.
  eexists. exists message. repeat split.
Qed.

(** An error response to a request that passed validation comes from
    one of the two exception handlers of [main.py]. *)
Lemma app_error_body {R : PyRuntime} (env : Env) (r : Request) (w : World)
    (status_code : Z) (content : json) :
  passes_validation r ->
  fst (app env r w) = JSONResponse status_code content ->
  exists message, content = error_body status_code message.
Proof.
  intros Hvalid.
  destruct r as [now|now|uuid4 now body|now body| |request_id];
    unfold app.
  - apply respond_body.
  - apply respond_body.
  - simpl in Hvalid. unfold script_length in Hvalid.
    unfold parse_VideoGenerationRequest.
    destruct (Z.of_nat (py_len (GenerationBody.script_text body)) <? 1)
      eqn:Lo; [apply Z.ltb_lt in Lo; lia|].
    destruct (5000 <? Z.of_nat (py_len (GenerationBody.script_text body)))
      eqn:Hi; [apply Z.ltb_lt in Hi; lia|].
    apply respond_body.
  - apply respond_body.
  - apply respond_body.
  - apply respond_body.
Qed.

(** C8, as the code has it.  For a request whose body passes
    validation, every error response of every route is the JSON body
    [success: false], a message and the status code of the response,
    together with a platform tag, whether the route raised an
    [HTTPException] or anything else. *)
Theorem handled_errors_are_uniform {R : PyRuntime} :
  forall (env : Env) (r : Request) (w : World),
    passes_validation r ->
    errors_are_uniform env r w /\
    (forall status_code content,
       fst (app env r w) = JSONResponse status_code content ->
       exists message, content = error_body status_code message).
Proof.
  intros env r w Hvalid. split.
  - intros status_code content Hresp.
    destruct (app_error_body env r w status_code content Hvalid Hresp)
      as (message & ->).
    apply error_body_uniform.
  - intros status_code content. now apply app_error_body.
Qed.

Lemma handled_errors_are_uniform_witness :
  fst (app (stub_env (Raised Timeout) (Raised ConnectionError))
         (POST_generate "u1" "t0" (body_of_script "Hello world")) initial_world)
    = JSONResponse 408 (JDict [
        ("success", JBool false);
        ("message", JStr "Request timeout");
        ("status_code", JInt 408);
        ("platform", JStr "Render")])
  /\ uniform_error_body 408 (JDict [
        ("success", JBool false);
        ("message", JStr "Request timeout");
        ("status_code", JInt 408);
        ("platform", JStr "Render")]).
Proof.
  split; [reflexivity|].
  refine (proj1 (@handled_errors_are_uniform strict_runtime
           (stub_env (Raised Timeout) (Raised ConnectionError))
           (POST_generate "u1" "t0" (body_of_script "Hello world"))
           initial_world _) _ _ _).
  - simpl. unfold script_length. simpl. lia.
  - reflexivity.
Defined.

(** C8, as the specification states it, fails: a generation request
    with an empty [script_text] is answered 422 with the validation
    errors under [detail], a body without [success], [message] or
    [status_code]. *)
Lemma validation_error_is_not_uniform :
  fst (app (stub_env (Raised Timeout) (Raised Timeout))
         (POST_generate "u1" "t0" (body_of_script "")) initial_world)
    = JSONResponse 422 (JDict [("detail", JList [JStr "script_text: min_length"])])
  /\ ~ errors_are_uniform (stub_env (Raised Timeout) (Raised Timeout))
         (POST_generate "u1" "t0" (body_of_script "")) initial_world.
Proof.
  split; [reflexivity|].
  intros H.
  destruct (H 422 (JDict [("detail", JList [JStr "script_text: min_length"])])
              eq_refl) as (entries & message & Hc & Hs & _).
  injection Hc as <-. discriminate.
Qed.

(* ================================================================== *)
(** ** Further observations on the handlers *)

(** An empty script is answered 422 before the handler runs: the world
    of a fresh process is untouched. *)
Example empty_script_is_rejected :
  app (stub_env (video_created "v1") (Raised Timeout))
    (POST_generate "u1" "t0" (body_of_script "")) initial_world
  = (JSONResponse 422 (JDict [("detail", JList [JStr "script_text: min_length"])]),
     initial_world).
Proof. reflexivity. Qed.

(** The scenario of the specification: a generation answered with video
    ["v123"], then a retrieval by the request id answered "processing". *)
Example generate_then_retrieve :
  let env :=
    stub_env (video_created "v123") (status_reply [("status", JStr "processing")]) in
  let w := snd (app env (POST_generate "u1" "t0" (body_of_script "Hello world"))
                  initial_world) in
  fst (app env (POST_retrieve "t1" (by_request "u1")) w)
  = Returned (RetrievalBody_out
      {| VideoRetrievalResponse.success := true;
         VideoRetrievalResponse.message := "Video status: processing";
         VideoRetrievalResponse.request_id := Some "u1";
         VideoRetrievalResponse.video_id := Some "v123";
         VideoRetrievalResponse.status := Some "processing";
         VideoRetrievalResponse.video_url := None;
         VideoRetrievalResponse.caption_url := None;
         VideoRetrievalResponse.thumbnail_url := None;
         VideoRetrievalResponse.duration := None;
         VideoRetrievalResponse.created_at := None |}).
Proof. reflexivity. Qed.

(** An empty request id counts as not supplied: the video id that comes
    with it is the target, and alone it is answered 400. *)
Example empty_request_id_is_not_supplied :
  determine_video_id
    {| VideoRetrievalRequest.request_id := Some "";
       VideoRetrievalRequest.video_id := Some "v1" |}
    [("u1", sample_record "v1")]
  = inr (JStr "v1", Some "u1")
  /\ determine_video_id
       {| VideoRetrievalRequest.request_id := Some "";
          VideoRetrievalRequest.video_id := None |}
       [("u1", sample_record "v1")]
     = inl (HTTPException 400 "Either request_id or video_id must be provided").
Proof. split; reflexivity. Qed.

(** The store of [generate_video] comes before the response is built.
    When the response model rejects the provider's [video_id] (here an
    object, where the field is declared [Optional[str]]), the call ends
    in a 500 and the record stays in the registry.  This path is none of
    the provider failures of [ProviderFailure]. *)
Example response_rejected_after_store :
  let env :=
    stub_env
      (Replied 200 "" (Some (JDict [("data", JDict [("video_id", JDict [])])])))
      (Raised Timeout) in
  let out := @generate_video strict_runtime env "u2" "t0" hello_request
               (sample_world "u1" "v1") in
  fst out
  = inl (HTTPException 500
           "Video generation failed: validation error for VideoGenerationResponse")
  /\ dict_get "u2" (video_requests_db (snd out))
     = Some (new_record env hello_request (JDict []) "t0").
Proof. split; reflexivity. Qed.

(** The same holds for the status update of [retrieve_video]. *)
Example response_rejected_after_update :
  let env :=
    stub_env (Raised Timeout) (status_reply [("status", JDict [])]) in
  let out := @retrieve_video strict_runtime env "t1" (by_request "u1")
               (sample_world "u1" "v1") in
  fst out
  = inl (HTTPException 500
           "Video retrieval failed: validation error for VideoRetrievalResponse")
  /\ dict_get "u1" (video_requests_db (snd out))
     = Some (VideoRecord.set_last_checked
               (VideoRecord.set_status (sample_record "v1") (JDict [])) "t1").
Proof. split; reflexivity. Qed.

(** A body whose [data] is a string containing the key passes the
    membership test and fails at the indexing; the handler answers 500
    and stores nothing. *)
Example substring_body_stores_nothing :
  let env :=
    stub_env (Replied 200 "" (Some (JDict [("data", JStr "no video_id here")])))
      (Raised Timeout) in
  let out := @generate_video strict_runtime env "u2" "t0" hello_request
               initial_world in
  has_data_key (JDict [("data", JStr "no video_id here")]) "video_id" = inr true
  /\ fst out = inl (HTTPException 500 "Video generation failed: TypeError")
  /\ video_requests_db (snd out) = [].
Proof. repeat split. Qed.

(* ================================================================== *)
(** ** The provider client is optional and built once *)

Lemma get_heygen_service_built (env : Env) (w : World) (s : HeyGenService.t) :
  heygen_service w = Some s ->
  get_heygen_service env w = (inr (Some s), w).
Proof. intros H. unfold get_heygen_service. now rewrite H. Qed.

Lemma get_heygen_service_unconfigured (env : Env) (w : World) :
  heygen_service w = None ->
  truthy (HEYGEN_API_KEY env) = false ->
  get_heygen_service env w = (inr None, w).
Proof. intros H K. unfold get_heygen_service. now rewrite H, K. Qed.

(** Without an API key and without a client, [POST /generate] (on a
    body that passes validation) and [POST /retrieve] (on any body, also
    one that names no id) are answered 500 "Service not configured", and
    the world is untouched: no provider call, no registry change. *)
Theorem unconfigured_service_answers_500 {R : PyRuntime} :
  forall (env : Env) (w : World),
    heygen_service w = None ->
    truthy (HEYGEN_API_KEY env) = false ->
    let answer :=
      JSONResponse 500
        (error_body 500
           "Service not configured. Please set HEYGEN_API_KEY environment variable.") in
    (forall uuid4 now body request,
       parse_VideoGenerationRequest body = inr request ->
       app env (POST_generate uuid4 now body) w = (answer, w)) /\
    (forall now body, app env (POST_retrieve now body) w = (answer, w)).
Proof.
  intros env w Hnone Hkey answer.
  pose proof (get_heygen_service_unconfigured env w Hnone Hkey) as G.
  split.
  - intros uuid4 now body request Hparse. simpl. rewrite Hparse.
    unfold generate_video, bind. now rewrite G.
  - intros now body. simpl. unfold retrieve_video, bind. now rewrite G.
Qed.

Lemma unconfigured_service_answers_500_witness :
  let env := unconfigured_env (video_created "v1") (Raised Timeout) in
  let answer :=
    JSONResponse 500
      (error_body 500
         "Service not configured. Please set HEYGEN_API_KEY environment variable.") in
  app env (POST_generate "u1" "t0" (body_of_script "Hello world")) initial_world
    = (answer, initial_world)
  /\ app env (POST_retrieve "t1"
                {| VideoRetrievalRequest.request_id := None;
                   VideoRetrievalRequest.video_id := None |}) initial_world
     = (answer, initial_world).
Proof.
  intros env answer.
  destruct (@unconfigured_service_answers_500 strict_runtime env initial_world
              eq_refl eq_refl) as [Hgen Hret].
  split.
  - apply (Hgen "u1" "t0" (body_of_script "Hello world") hello_request).
    reflexivity.
  - apply Hret.
Defined.

(** The world a handler leaves: the one after the client lookup,
    possibly with one call logged, possibly with the registry written
    after that call. *)
Lemma generate_video_world {R : PyRuntime} (env : Env) (uuid4 now : string)
    (request : VideoGenerationRequest.t) (w : World) :
  exists w1 r,
    get_heygen_service env w = (r, w1) /\
    let w' := snd (generate_video env uuid4 now request w) in
    w' = w1 \/
    (exists c, w' = log_call w1 c) \/
    (exists c db', w' = set_db (log_call w1 c) db').
Proof.
  destruct (get_heygen_service env w) as [r w1] eqn:G.
  exists w1, r. split; [reflexivity|]. cbv zeta.
  destruct (get_heygen_service_frame _ _ _ _ G) as (_ & _ & ->).
  destruct (heygen_service w1) as [service|] eqn:S.
  - destruct (transport_cases "video_id"
                (provider env (provider_calls w)
                   (generate_call env service request)))
      as [Hfail|(text & body & data & v & Hreply & Hdata & Hv)].
    + destruct (generate_video_failure env uuid4 now request w w1 service
                  G Hfail) as (code & detail & ->).
      right. left. eexists. reflexivity.
    + rewrite (generate_video_reply env uuid4 now request w w1 service
                 text body data v G Hreply Hdata Hv).
      right. right. eexists. eexists. reflexivity.
  - left. unfold generate_video, bind. now rewrite G.
Qed.

Lemma retrieve_video_world {R : PyRuntime} (env : Env) (now : string)
    (request : VideoRetrievalRequest.t) (w : World) :
  exists w1 r,
    get_heygen_service env w = (r, w1) /\
    let w' := snd (retrieve_video env now request w) in
    w' = w1 \/
    (exists c, w' = log_call w1 c) \/
    (exists c db', w' = set_db (log_call w1 c) db').
Proof.
  destruct (get_heygen_service env w) as [r w1] eqn:G.
  exists w1, r. split; [reflexivity|]. cbv zeta.
  destruct (get_heygen_service_frame _ _ _ _ G) as (_ & _ & ->).
  destruct (heygen_service w1) as [service|] eqn:S.
  - destruct (determine_video_id request (video_requests_db w))
      as [e|[video_id request_id]] eqn:Hdet.
    + left.
      now rewrite (retrieve_video_unresolved env now request w w1 service e
                     G Hdet).
    + destruct (transport_cases "status"
                  (provider env (provider_calls w) (status_call service video_id)))
        as [Hfail|(text & body & data & status & Hreply & Hdata & Hstatus)].
      * destruct (retrieve_video_failure env now request w w1 service video_id
                    request_id G Hdet Hfail) as (code & detail & ->).
        right. left. eexists. reflexivity.
      * destruct (retrieve_video_reply env now request w w1 service video_id
                    request_id text body data status
                    G Hdet Hreply Hdata Hstatus) as (rd & _ & ->).
        right. right. eexists. eexists. reflexivity.
  - left. unfold retrieve_video, bind. now rewrite G.
Qed.

(** The same for any request to the application. *)
Lemma app_world {R : PyRuntime} (env : Env) (r : Request) (w : World) :
  exists w1,
    (w1 = w \/ exists s, get_heygen_service env w = (s, w1)) /\
    let w' := snd (app env r w) in
    (w' = w1 \/
     (exists c, w' = log_call w1 c) \/
     (exists c db', w' = set_db (log_call w1 c) db')) /\
    (drawn_id r = None -> is_status_query r = false -> w' = w1).
Proof.
  destruct r as [now|now|uuid4 now body|now body| |request_id]; cbv zeta.
  - exists w. split; [now left|]. simpl. split; [now left|reflexivity].
  - destruct (get_heygen_service env w) as [s w1] eqn:G.
    exists w1. split; [right; now exists s|].
    simpl. unfold health_check, bind. rewrite G.
    destruct (get_heygen_service_frame _ _ _ _ G) as (_ & _ & ->).
    simpl. split; [now left|reflexivity].
  - simpl app. destruct (parse_VideoGenerationRequest body) as [errors|request].
    + exists w. split; [now left|]. simpl. split; [now left|discriminate].
    + destruct (generate_video_world env uuid4 now request w)
        as (w1 & s & G & H).
      exists w1. split; [right; now exists s|].
      split; [|discriminate].
      destruct (generate_video env uuid4 now request w) as [[e|a] w'];
        exact H.
  - simpl app.
    destruct (retrieve_video_world env now body w) as (w1 & s & G & H).
    exists w1. split; [right; now exists s|].
    split; [|discriminate].
    destruct (retrieve_video env now body w) as [[e|a] w']; exact H.
  - exists w. split; [now left|]. simpl. split; [now left|reflexivity].
  - exists w. split; [now left|]. simpl. unfold get_request_details, bind, read_db.
    destruct (dict_get (segment request_id) (video_requests_db w));
      (split; [now left|reflexivity]).
Qed.

Lemma app_service {R : PyRuntime} (env : Env) (r : Request) (w : World)
    (s : HeyGenService.t) :
  heygen_service w = Some s ->
  heygen_service (snd (app env r w)) = Some s.
Proof.
  intros Hs.
  destruct (app_world env r w) as (w1 & Hw1 & Hw' & _).
  assert (w1 = w) as ->.
  { destruct Hw1 as [E|(x & G)]; [assumption|].
    rewrite (get_heygen_service_built env w s Hs) in G. congruence. }
  destruct Hw' as [->|[(c & ->)|(c & db' & ->)]]; assumption.
Qed.

(** The provider client is a lazily built singleton: with a non-empty
    API key and no client yet, the first lookup builds the client for
    that key and for the fixed base URL; and once a client exists, no
    sequence of requests replaces or removes it. *)
Theorem provider_client_is_built_once {R : PyRuntime} :
  forall (env : Env) (w : World),
    (forall key,
       heygen_service w = None ->
       HEYGEN_API_KEY env = Some key -> key <> "" ->
       get_heygen_service env w
       = (inr (Some {| HeyGenService.api_key := key;
                       HeyGenService.base_url := "https://api.heygen.com" |}),
          set_service w
            {| HeyGenService.api_key := key;
               HeyGenService.base_url := "https://api.heygen.com" |})) /\
    (forall s rs,
       heygen_service w = Some s ->
       heygen_service (serve env rs w) = Some s).
Proof.
  intros env w. split.
  - intros key Hnone Hkey Hne. unfold get_heygen_service.
    rewrite Hnone, Hkey. simpl.
    apply String.eqb_neq in Hne. now rewrite Hne.
  - intros s rs. revert w. induction rs as [|r rest IH]; intros w Hs.
    + assumption.
    + simpl. apply IH. now apply app_service.
Qed.

Lemma provider_client_is_built_once_witness :
  let env := stub_env (video_created "v2") (Raised Timeout) in
  get_heygen_service env initial_world
    = (inr (Some configured_service),
       set_service initial_world configured_service)
  /\ heygen_service
       (serve env [POST_generate "u2" "t0" (body_of_script "Hello world");
                   GET_health "t1"; POST_retrieve "t2" (by_request "u2")]
          (sample_world "u1" "v1"))
     = Some configured_service.
Proof.
  intros env. split.
  - apply (proj1 (@provider_client_is_built_once strict_runtime env initial_world)
             "test-key"); [reflexivity|reflexivity|discriminate].
  - apply (proj2 (@provider_client_is_built_once strict_runtime env
                    (sample_world "u1" "v1"))). reflexivity.
Defined.

(* ================================================================== *)
(** ** What a request never does *)

Lemma app_calls {R : PyRuntime} (env : Env) (r : Request) (w : World) :
  let calls' := provider_calls (snd (app env r w)) in
  (calls' = provider_calls w \/
   exists c, calls' = (provider_calls w ++ [c])%list) /\
  (drawn_id r = None -> is_status_query r = false ->
   calls' = provider_calls w).
Proof.
  cbv zeta.
  destruct (app_world env r w) as (w1 & Hw1 & Hw' & Hother).
  assert (Hc : provider_calls w1 = provider_calls w).
  { destruct Hw1 as [->|(s & G)]; [reflexivity|].
    now destruct (get_heygen_service_frame _ _ _ _ G) as (_ & ? & _). }
  split.
  - destruct Hw' as [->|[(c & ->)|(c & db' & ->)]]; simpl; rewrite Hc;
      [now left|right; now exists c|right; now exists c].
  - intros Hd Hq. now rewrite (Hother Hd Hq).
Qed.

(** No retry: a request makes at most one provider call, the routes
    other than [POST /generate] and [POST /retrieve] make none, and a
    sequence of requests makes at most as many calls as it has
    requests. *)
Theorem at_most_one_provider_call {R : PyRuntime} :
  forall (env : Env) (w : World),
    (forall r,
       provider_calls (snd (app env r w)) = provider_calls w \/
       exists c, provider_calls (snd (app env r w))
                 = (provider_calls w ++ [c])%list) /\
    (forall r,
       drawn_id r = None -> is_status_query r = false ->
       provider_calls (snd (app env r w)) = provider_calls w) /\
    (forall rs,
       (length (provider_calls (serve env rs w))
        <= length (provider_calls w) + length rs)%nat).
Proof.
  intros env w. split; [|split].
  - intros r. apply (proj1 (app_calls env r w)).
  - intros r. apply (proj2 (app_calls env r w)).
  - intros rs. revert w. induction rs as [|r rest IH]; intros w.
    + simpl. lia.
    + simpl. specialize (IH (snd (app env r w))).
      destruct (proj1 (app_calls env r w)) as [E|(c & E)]; rewrite E in IH.
      * lia.
      * rewrite length_app in IH. simpl in IH. lia.
Qed.

Lemma dict_set_keys {V : Type} (k : string) (v : V) (d : pydict V) :
  dict_keys (dict_set k v d) = dict_keys d \/
  dict_keys (dict_set k v d) = (dict_keys d ++ [k])%list.
Proof.
  destruct (dict_contains k d) eqn:E.
  - left. now apply dict_set_keys_present.
  - right. rewrite dict_set_fresh by assumption.
    unfold dict_keys. now rewrite map_app.
Qed.

Lemma app_keys {R : PyRuntime} (env : Env) (r : Request) (w : World) :
  let keys := dict_keys (video_requests_db w) in
  let keys' := dict_keys (video_requests_db (snd (app env r w))) in
  keys' = keys \/
  exists uuid4, drawn_id r = Some uuid4 /\ keys' = (keys ++ [uuid4])%list.
Proof.
  cbv zeta.
  destruct (app_db env r w)
    as [->|[(uuid4 & new & Hr & ->)|(request_id & status & now & _ & ->)]].
  - now left.
  - destruct (dict_set_keys uuid4 new (video_requests_db w)) as [E|E];
      [now left|right; now exists uuid4].
  - left. apply update_local_storage_keys.
Qed.

(** The registry is append-only: after any sequence of requests the
    request ids of the registry are the ones it had, in the same order,
    followed by ids drawn by generation requests of the sequence, at
    most one per request.  Nothing is ever deleted or reordered. *)
Theorem registry_is_append_only {R : PyRuntime} :
  forall (env : Env) (rs : list Request) (w : World),
    exists added,
      dict_keys (video_requests_db (serve env rs w))
        = (dict_keys (video_requests_db w) ++ added)%list /\
      (forall k, In k added -> In (Some k) (map drawn_id rs)) /\
      (length added <= length rs)%nat.
Proof.
  intros env rs. induction rs as [|r rest IH]; intros w.
  - exists []. simpl. rewrite app_nil_r. repeat split; [tauto|lia].
  - destruct (IH (snd (app env r w))) as (added & Hkeys & Hin & Hlen).
    simpl serve. rewrite Hkeys.
    destruct (app_keys env r w) as [E|(uuid4 & Hr & E)]; rewrite E.
    + exists added. split; [reflexivity|]. split.
      * intros k Hk. simpl. right. now apply Hin.
      * simpl. lia.
    + exists (uuid4 :: added). rewrite <- app_assoc. split; [reflexivity|].
      split.
      * intros k [<-|Hk]; simpl; [now left|right; now apply Hin].
      * simpl. lia.
Qed.

(** Every exception that leaves a route is an [HTTPException]: whatever
    the provider does, [generate_video], [retrieve_video] and
    [get_request_details] never let a [TypeError], a validation error or
    an exception of [requests] through. *)
Theorem routes_raise_only_http_exceptions {R : PyRuntime} :
  forall (env : Env) (w : World),
    (forall uuid4 now request e w',
       generate_video env uuid4 now request w = (inl e, w') ->
       exists code detail, e = HTTPException code detail) /\
    (forall now request e w',
       retrieve_video env now request w = (inl e, w') ->
       exists code detail, e = HTTPException code detail) /\
    (forall request_id e w',
       get_request_details request_id w = (inl e, w') ->
       exists code detail, e = HTTPException code detail).
Proof.
  intros env w.
  destruct (get_heygen_service_cases env w) as (w1 & _ & G).
  split; [|split].
  - intros uuid4 now request e w' Hrun.
    destruct G as [Hnone|(service & Hsvc)].
    + unfold generate_video, bind in Hrun. rewrite Hnone in Hrun.
      injection Hrun as <- _. unfold not_configured. eauto.
    + destruct (transport_cases "video_id"
                  (provider env (provider_calls w)
                     (generate_call env service request)))
        as [Hfail|(text & body & data & v & Hreply & Hdata & Hv)].
      * destruct (generate_video_failure env uuid4 now request w w1 service
                    Hsvc Hfail) as (code & detail & E).
        rewrite E in Hrun. injection Hrun as <- _. eauto.
      * rewrite (generate_video_reply env uuid4 now request w w1 service
                   text body data v Hsvc Hreply Hdata Hv) in Hrun.
        destruct (VideoGenerationResponse.new _ _ _ _ _);
          [|discriminate].
        injection Hrun as <- _. eauto.
  - intros now request e w' Hrun.
    destruct G as [Hnone|(service & Hsvc)].
    + unfold retrieve_video, bind in Hrun. rewrite Hnone in Hrun.
      injection Hrun as <- _. unfold not_configured. eauto.
    + destruct (determine_video_id request (video_requests_db w))
        as [e0|[video_id request_id]] eqn:Hdet.
      * rewrite (retrieve_video_unresolved env now request w w1 service e0
                   Hsvc Hdet) in Hrun.
        injection Hrun as <- _.
        unfold determine_video_id in Hdet.
        destruct (truthy (VideoRetrievalRequest.request_id request)).
        -- destruct (dict_get _ _); [discriminate|].
           injection Hdet as <-. eauto.
        -- destruct (truthy (VideoRetrievalRequest.video_id request));
             [discriminate|].
           injection Hdet as <-. eauto.
      * destruct (transport_cases "status"
                    (provider env (provider_calls w)
                       (status_call service video_id)))
          as [Hfail|(text & body & data & status & Hreply & Hdata & Hstatus)].
        -- destruct (retrieve_video_failure env now request w w1 service
                      video_id request_id Hsvc Hdet Hfail)
             as (code & detail & E).
           rewrite E in Hrun. injection Hrun as <- _. eauto.
        -- destruct (retrieve_video_reply env now request w w1 service video_id
                      request_id text body data status
                      Hsvc Hdet Hreply Hdata Hstatus) as (rd & _ & E).
           rewrite E in Hrun.
           destruct (VideoRetrievalResponse.new rd); [|discriminate].
           injection Hrun as <- _. eauto.
  - intros request_id e w' Hrun.
    unfold get_request_details, bind, read_db in Hrun.
    destruct (dict_get request_id (video_requests_db w)); [discriminate|].
    injection Hrun as <- _. eauto.
Qed.

(* ================================================================== *)
(** ** Error translation, end to end *)

(** What the client's [try] block raises for each way the call can go
    wrong. *)
Lemma client_errors {R : PyRuntime} (env : Env) (c : HttpCall) (w : World) :
  let client :=
    try_except (response <- requests_call env c ;; check_response response)
      translate_requests_error w in
  let t := provider env (provider_calls w) c in
  (t = Raised Timeout ->
   client = (inl (HTTPException 408 "Request timeout"), log_call w c)) /\
  (t = Raised ConnectionError ->
   client = (inl (HTTPException 503 "Service unavailable"), log_call w c)) /\
  (t = Raised RequestException ->
   client = (inl (HTTPException 500
                    ("Request failed: " ++ exn_str RequestException)),
             log_call w c)) /\
  (forall code text decoded,
     t = Replied code text decoded -> code <> 200 ->
     client = (inl (HTTPException code ("HeyGen API error: " ++ text)),
               log_call w c)) /\
  (forall text,
     t = Replied 200 text None ->
     client = (inl (HTTPException 500
                      ("Request failed: " ++ exn_str RequestException)),
               log_call w c)).
Proof.
  cbv zeta. unfold try_except, bind, requests_call.
  repeat apply conj; intros; try (rewrite H; reflexivity).
  rewrite H. simpl. apply Z.eqb_neq in H0. now rewrite H0.
Qed.

(** An [HTTPException] raised by the client leaves each handler as it
    is. *)
Lemma generate_video_client_error {R : PyRuntime} (env : Env)
    (uuid4 now : string) (request : VideoGenerationRequest.t) (w w1 w2 : World)
    (service : HeyGenService.t) (code : Z) (detail : string) :
  get_heygen_service env w = (inr (Some service), w1) ->
  try_except
    (response <- requests_call env (generate_call env service request) ;;
     check_response response)
    translate_requests_error w1
  = (inl (HTTPException code detail), w2) ->
  generate_video env uuid4 now request w = (inl (HTTPException code detail), w2).
Proof.
  intros Hsvc Hclient.
  unfold generate_video, bind at 1. rewrite Hsvc.
  unfold HeyGenService_generate_video.
  unfold try_except at 1, bind at 1. now rewrite Hclient.
Qed.

Lemma retrieve_video_client_error {R : PyRuntime} (env : Env) (now : string)
    (request : VideoRetrievalRequest.t) (w w1 w2 : World)
    (service : HeyGenService.t) (video_id : json) (request_id : option string)
    (code : Z) (detail : string) :
  get_heygen_service env w = (inr (Some service), w1) ->
  determine_video_id request (video_requests_db w) = inr (video_id, request_id) ->
  try_except
    (response <- requests_call env (status_call service video_id) ;;
     check_response response)
    translate_requests_error w1
  = (inl (HTTPException code detail), w2) ->
  retrieve_video env now request w = (inl (HTTPException code detail), w2).
Proof.
  intros Hsvc Hdet Hclient.
  destruct (get_heygen_service_frame _ _ _ _ Hsvc) as (Hdb & _ & _).
  unfold retrieve_video, bind at 1. rewrite Hsvc.
  unfold bind at 1, read_db. unfold bind at 1, lift.
  rewrite Hdb, Hdet.
  unfold HeyGenService_get_video_status.
  unfold try_except at 1, bind at 1. now rewrite Hclient.
Qed.

(** [POST /generate], on a body that passes validation and with the
    client configured, answers a provider timeout with 408, a connection
    failure with 503, another [requests] error or an undecodable body
    with 500, and a provider status other than 200 with that same status
    and the provider's text in the message (also when the status is
    another 2xx); a decoded body in which the membership test finds no
    [data.video_id] is answered 500 "Unexpected response".  Each answer
    is the uniform error body. *)
Theorem generation_errors_are_translated {R : PyRuntime} :
  forall (env : Env) (uuid4 now : string) (body : GenerationBody.t)
         (request : VideoGenerationRequest.t) (w w1 : World)
         (service : HeyGenService.t),
    parse_VideoGenerationRequest body = inr request ->
    get_heygen_service env w = (inr (Some service), w1) ->
    let t := provider env (provider_calls w) (generate_call env service request) in
    let answer := fst (app env (POST_generate uuid4 now body) w) in
    (t = Raised Timeout ->
     answer = JSONResponse 408 (error_body 408 "Request timeout")) /\
    (t = Raised ConnectionError ->
     answer = JSONResponse 503 (error_body 503 "Service unavailable")) /\
    (t = Raised RequestException ->
     answer = JSONResponse 500
                (error_body 500 ("Request failed: " ++ exn_str RequestException))) /\
    (forall code text decoded,
       t = Replied code text decoded -> code <> 200 ->
       answer = JSONResponse code
                  (error_body code ("HeyGen API error: " ++ text))) /\
    (forall text,
       t = Replied 200 text None ->
       answer = JSONResponse 500
                  (error_body 500 ("Request failed: " ++ exn_str RequestException))) /\
    (forall text result,
       t = Replied 200 text (Some result) ->
       has_data_key result "video_id" = inr false ->
       answer = JSONResponse 500
                  (error_body 500
                     "Unexpected response from video generation service")).
Proof.
  intros env uuid4 now body request w w1 service Hparse Hsvc t answer.
  subst t answer.
  destruct (get_heygen_service_frame _ _ _ _ Hsvc) as (_ & Hcalls & _).
  rewrite <- Hcalls.
  destruct (client_errors env (generate_call env service request) w1)
    as (Hto & Hconn & Hreq & Hstatus & Hjson).
  simpl app. rewrite Hparse.
  repeat apply conj.
  - intros H.
    now rewrite (generate_video_client_error env uuid4 now request w w1 _
                   service _ _ Hsvc (Hto H)).
  - intros H.
    now rewrite (generate_video_client_error env uuid4 now request w w1 _
                   service _ _ Hsvc (Hconn H)).
  - intros H.
    now rewrite (generate_video_client_error env uuid4 now request w w1 _
                   service _ _ Hsvc (Hreq H)).
  - intros code text decoded H Hcode.
    now rewrite (generate_video_client_error env uuid4 now request w w1 _
                   service _ _ Hsvc (Hstatus code text decoded H Hcode)).
  - intros text H.
    now rewrite (generate_video_client_error env uuid4 now request w w1 _
                   service _ _ Hsvc (Hjson text H)).
  - intros text result H Hfound.
    pose proof (provider_reply_returned env _ w1 text result H) as Hcall.
    unfold generate_video, bind at 1. rewrite Hsvc.
    unfold HeyGenService_generate_video.
    unfold try_except at 1, bind at 1. rewrite Hcall.
    run_monad. rewrite Hfound. reflexivity.
Qed.

Lemma generation_errors_are_translated_witness :
  fst (app (stub_env (Raised Timeout) (Raised Timeout))
         (POST_generate "u1" "t0" (body_of_script "Hello world")) initial_world)
    = JSONResponse 408 (error_body 408 "Request timeout")
  /\ fst (app (stub_env (Replied 201 "created" None) (Raised Timeout))
            (POST_generate "u1" "t0" (body_of_script "Hello world")) initial_world)
     = JSONResponse 201 (error_body 201 "HeyGen API error: created")
  /\ fst (app (stub_env (Replied 200 "" (Some (JDict [("data", JDict [])])))
                 (Raised Timeout))
            (POST_generate "u1" "t0" (body_of_script "Hello world")) initial_world)
     = JSONResponse 500
         (error_body 500 "Unexpected response from video generation service").
Proof.
  split; [|split].
  - apply (@generation_errors_are_translated strict_runtime
             (stub_env (Raised Timeout) (Raised Timeout)) "u1" "t0"
             (body_of_script "Hello world") hello_request initial_world
             (set_service initial_world configured_service) configured_service
             eq_refl eq_refl).
    reflexivity.
  - apply (proj1 (proj2 (proj2 (proj2
             (@generation_errors_are_translated strict_runtime
                (stub_env (Replied 201 "created" None) (Raised Timeout))
                "u1" "t0" (body_of_script "Hello world") hello_request
                initial_world (set_service initial_world configured_service)
                configured_service eq_refl eq_refl))))
             201 "created" None); [reflexivity|discriminate].
  - apply (proj2 (proj2 (proj2 (proj2 (proj2
             (@generation_errors_are_translated strict_runtime
                (stub_env (Replied 200 "" (Some (JDict [("data", JDict [])])))
                   (Raised Timeout))
                "u1" "t0" (body_of_script "Hello world") hello_request
                initial_world (set_service initial_world configured_service)
                configured_service eq_refl eq_refl)))))
             "" (JDict [("data", JDict [])])); reflexivity.
Defined.

(** [POST /retrieve], once the target video is determined, translates
    the failures of the status call the same way: 408 for a timeout, 503
    for a connection failure, 500 for another [requests] error or an
    undecodable body, the provider's own status for a status other than
    200, and 500 "Unexpected response" when the membership test finds no
    [data.status]. *)
Theorem retrieval_errors_are_translated {R : PyRuntime} :
  forall (env : Env) (now : string) (request : VideoRetrievalRequest.t)
         (w w1 : World) (service : HeyGenService.t) (video_id : json)
         (request_id : option string),
    get_heygen_service env w = (inr (Some service), w1) ->
    determine_video_id request (video_requests_db w) = inr (video_id, request_id) ->
    let t := provider env (provider_calls w) (status_call service video_id) in
    let answer := fst (app env (POST_retrieve now request) w) in
    (t = Raised Timeout ->
     answer = JSONResponse 408 (error_body 408 "Request timeout")) /\
    (t = Raised ConnectionError ->
     answer = JSONResponse 503 (error_body 503 "Service unavailable")) /\
    (t = Raised RequestException ->
     answer = JSONResponse 500
                (error_body 500 ("Request failed: " ++ exn_str RequestException))) /\
    (forall code text decoded,
       t = Replied code text decoded -> code <> 200 ->
       answer = JSONResponse code
                  (error_body code ("HeyGen API error: " ++ text))) /\
    (forall text,
       t = Replied 200 text None ->
       answer = JSONResponse 500
                  (error_body 500 ("Request failed: " ++ exn_str RequestException))) /\
    (forall text result,
       t = Replied 200 text (Some result) ->
       has_data_key result "status" = inr false ->
       answer = JSONResponse 500
                  (error_body 500
                     "Unexpected response from video status service")).
Proof.
  intros env now request w w1 service video_id request_id Hsvc Hdet t answer.
  subst t answer.
  destruct (get_heygen_service_frame _ _ _ _ Hsvc) as (Hdb & Hcalls & _).
  rewrite <- Hcalls.
  destruct (client_errors env (status_call service video_id) w1)
    as (Hto & Hconn & Hreq & Hstatus & Hjson).
  simpl app.
  repeat apply conj.
  - intros H.
    now rewrite (retrieve_video_client_error env now request w w1 _ service
                   video_id request_id _ _ Hsvc Hdet (Hto H)).
  - intros H.
    now rewrite (retrieve_video_client_error env now request w w1 _ service
                   video_id request_id _ _ Hsvc Hdet (Hconn H)).
  - intros H.
    now rewrite (retrieve_video_client_error env now request w w1 _ service
                   video_id request_id _ _ Hsvc Hdet (Hreq H)).
  - intros code text decoded H Hcode.
    now rewrite (retrieve_video_client_error env now request w w1 _ service
                   video_id request_id _ _ Hsvc Hdet
                   (Hstatus code text decoded H Hcode)).
  - intros text H.
    now rewrite (retrieve_video_client_error env now request w w1 _ service
                   video_id request_id _ _ Hsvc Hdet (Hjson text H)).
  - intros text result H Hfound.
    pose proof (provider_reply_returned env _ w1 text result H) as Hcall.
    unfold retrieve_video, bind at 1. rewrite Hsvc.
    unfold bind at 1, read_db. unfold bind at 1, lift.
    rewrite Hdb, Hdet.
    unfold HeyGenService_get_video_status.
    unfold try_except at 1, bind at 1. rewrite Hcall.
    run_monad. rewrite Hfound. reflexivity.
Qed.

Lemma retrieval_errors_are_translated_witness :
  fst (app (stub_env (Raised Timeout) (Raised ConnectionError))
         (POST_retrieve "t1" (by_video "v9")) (sample_world "u1" "v1"))
    = JSONResponse 503 (error_body 503 "Service unavailable")
  /\ fst (app (stub_env (Raised Timeout) (Replied 404 "no such video" None))
            (POST_retrieve "t1" (by_request "u1")) (sample_world "u1" "v1"))
     = JSONResponse 404 (error_body 404 "HeyGen API error: no such video").
Proof.
  split.
  - apply (proj1 (proj2
             (@retrieval_errors_are_translated strict_runtime
                (stub_env (Raised Timeout) (Raised ConnectionError)) "t1"
                (by_video "v9") (sample_world "u1" "v1") (sample_world "u1" "v1")
                configured_service (JStr "v9") None eq_refl eq_refl))).
    reflexivity.
  - apply (proj1 (proj2 (proj2 (proj2
             (@retrieval_errors_are_translated strict_runtime
                (stub_env (Raised Timeout) (Replied 404 "no such video" None))
                "t1" (by_request "u1") (sample_world "u1" "v1")
                (sample_world "u1" "v1") configured_service (JStr "v1")
                (Some "u1") eq_refl eq_refl))))
             404 "no such video" None); [reflexivity|discriminate].
Defined.

(* ================================================================== *)
(** ** What generation stores *)

(** With the client configured, [generate_video] writes to the registry
    exactly when the provider answers 200 with a decoded body that has a
    value at [data.video_id]; it then assigns, under the drawn request
    id, the record built from the request and that value.  In every
    other case the registry is the one before the call. *)
Theorem generation_stores_iff_video_id {R : PyRuntime} :
  forall (env : Env) (uuid4 now : string) (request : VideoGenerationRequest.t)
         (w w1 : World) (service : HeyGenService.t),
    get_heygen_service env w = (inr (Some service), w1) ->
    video_requests_db (snd (generate_video env uuid4 now request w))
    = match provider env (provider_calls w) (generate_call env service request) with
      | Replied code text (Some body) =>
          if code =? 200 then
            match data_field body "video_id" with
            | Some v =>
                dict_set uuid4 (new_record env request v now)
                  (video_requests_db w)
            | None => video_requests_db w
            end
          else video_requests_db w
      | _ => video_requests_db w
      end.
Proof.
  intros env uuid4 now request w w1 service Hsvc.
  destruct (get_heygen_service_frame _ _ _ _ Hsvc) as (Hdb & _ & _).
  assert (Hfail : ProviderFailure "video_id"
                    (provider env (provider_calls w)
                       (generate_call env service request)) ->
                  video_requests_db (snd (generate_video env uuid4 now request w))
                  = video_requests_db w).
  { intros F.
    destruct (generate_video_failure env uuid4 now request w w1 service Hsvc F)
      as (code & detail & ->). exact Hdb. }
  destruct (provider env (provider_calls w) (generate_call env service request))
    as [code text [body|]|e] eqn:T.
  - destruct (code =? 200) eqn:C.
    + apply Z.eqb_eq in C. subst code.
      destruct (data_field body "video_id") as [v|] eqn:F.
      * unfold data_field in F.
        destruct (data_of body) as [data|] eqn:D; [|discriminate].
        now rewrite (generate_video_reply env uuid4 now request w w1 service
                       text body data v Hsvc T D F).
      * apply Hfail. now constructor.
    + apply Hfail. constructor. now apply Z.eqb_neq.
  - apply Hfail. destruct (Z.eq_dec code 200) as [->|Hne]; now constructor.
  - apply Hfail. constructor.
Qed.

Lemma generation_stores_iff_video_id_witness :
  let env := stub_env (Replied 200 "" (Some (JDict [("data", JList [JStr "video_id"])])))
               (Raised Timeout) in
  video_requests_db
    (snd (generate_video env "u2" "t0" hello_request (sample_world "u1" "v1")))
  = [("u1", sample_record "v1")].
Proof.
  intros env.
  apply (@generation_stores_iff_video_id strict_runtime env "u2" "t0"
           hello_request (sample_world "u1" "v1") (sample_world "u1" "v1")
           configured_service eq_refl).
Defined.

(** The store comes before the response is built.  When the response
    model accepts the provider's [video_id] the call returns success with
    it; when the model rejects it the call ends in a 500, and in both
    cases the record is in the registry with the provider's value. *)
Theorem store_precedes_response {R : PyRuntime} :
  forall (env : Env) (uuid4 now : string) (request : VideoGenerationRequest.t)
         (w w1 : World) (service : HeyGenService.t) (text : string)
         (result : json) (data : pydict json) (v : json),
    get_heygen_service env w = (inr (Some service), w1) ->
    provider env (provider_calls w) (generate_call env service request)
      = Replied 200 text (Some result) ->
    data_of result = Some data ->
    dict_get "video_id" data = Some v ->
    let out := generate_video env uuid4 now request w in
    dict_get uuid4 (video_requests_db (snd out))
      = Some (new_record env request v now) /\
    (forall id,
       validate_optional coerce_str v = Some id ->
       fst out
       = inr {| VideoGenerationResponse.success := true;
                VideoGenerationResponse.message :=
                  "Video generation initiated successfully";
                VideoGenerationResponse.request_id := uuid4;
                VideoGenerationResponse.video_id := id;
                VideoGenerationResponse.estimated_time := Some "2-5 minutes" |}) /\
    (validate_optional coerce_str v = None ->
     fst out
     = inl (HTTPException 500
              ("Video generation failed: "
               ++ exn_str (ValidationError "VideoGenerationResponse")))).
Proof.
  intros env uuid4 now request w w1 service text result data v
    Hsvc Hreply Hdata Hv out. subst out.
  rewrite (generate_video_reply env uuid4 now request w w1 service text result
             data v Hsvc Hreply Hdata Hv).
  unfold VideoGenerationResponse.new. simpl.
  split; [apply dict_get_set_same|].
  split; intros; rewrite H; reflexivity.
Qed.

Lemma store_precedes_response_witness :
  let env :=
    stub_env (Replied 200 "" (Some (JDict [("data", JDict [("video_id", JList [])])])))
      (Raised Timeout) in
  let out := @generate_video strict_runtime env "u2" "t0" hello_request
               (sample_world "u1" "v1") in
  dict_get "u2" (video_requests_db (snd out))
    = Some (new_record env hello_request (JList []) "t0")
  /\ fst out
     = inl (HTTPException 500
              "Video generation failed: validation error for VideoGenerationResponse").
Proof.
  intros env out.
  destruct (@store_precedes_response strict_runtime env "u2" "t0" hello_request
              (sample_world "u1" "v1") (sample_world "u1" "v1")
              configured_service ""
              (JDict [("data", JDict [("video_id", JList [])])])
              [("video_id", JList [])] (JList [])
              eq_refl eq_refl eq_refl eq_refl) as (Hstored & _ & Hrejected).
  split; [exact Hstored|exact (Hrejected eq_refl)].
Defined.

(** A null [video_id] counts as present: the provider body
    [{"data": {"video_id": null}}] is a success, the response carries a
    null video id, and a record with a null video id is stored. *)
Theorem null_video_id_is_accepted {R : PyRuntime} :
  forall (env : Env) (uuid4 now : string) (request : VideoGenerationRequest.t)
         (w w1 : World) (service : HeyGenService.t) (text : string)
         (result : json) (data : pydict json),
    get_heygen_service env w = (inr (Some service), w1) ->
    provider env (provider_calls w) (generate_call env service request)
      = Replied 200 text (Some result) ->
    data_of result = Some data ->
    dict_get "video_id" data = Some JNull ->
    generate_video env uuid4 now request w
    = (inr {| VideoGenerationResponse.success := true;
              VideoGenerationResponse.message :=
                "Video generation initiated successfully";
              VideoGenerationResponse.request_id := uuid4;
              VideoGenerationResponse.video_id := None;
              VideoGenerationResponse.estimated_time := Some "2-5 minutes" |},
       set_db (log_call w1 (generate_call env service request))
         (dict_set uuid4 (new_record env request JNull now)
            (video_requests_db w))).
Proof.
  intros env uuid4 now request w w1 service text result data
    Hsvc Hreply Hdata Hv.
  now rewrite (generate_video_reply env uuid4 now request w w1 service text
                 result data JNull Hsvc Hreply Hdata Hv).
Qed.

Lemma null_video_id_is_accepted_witness :
  let env :=
    stub_env (Replied 200 "" (Some (JDict [("data", JDict [("video_id", JNull)])])))
      (Raised Timeout) in
  fst (generate_video env "u2" "t0" hello_request (sample_world "u1" "v1"))
  = inr {| VideoGenerationResponse.success := true;
           VideoGenerationResponse.message :=
             "Video generation initiated successfully";
           VideoGenerationResponse.request_id := "u2";
           VideoGenerationResponse.video_id := None;
           VideoGenerationResponse.estimated_time := Some "2-5 minutes" |}.
Proof.
  intros env.
  rewrite (@null_video_id_is_accepted strict_runtime env "u2" "t0" hello_request
             (sample_world "u1" "v1") (sample_world "u1" "v1")
             configured_service ""
             (JDict [("data", JDict [("video_id", JNull)])])
             [("video_id", JNull)] eq_refl eq_refl eq_refl eq_refl).
  reflexivity.
Defined.

(* ================================================================== *)
(** ** Reading the registry back *)

Lemma dict_len_set {V : Type} (k : string) (v : V) (d : pydict V) :
  dict_len (dict_set k v d)
  = dict_len d + (if dict_contains k d then 0 else 1).
Proof.
  unfold dict_len. destruct (dict_contains k d) eqn:E.
  - assert (H : length (dict_keys (dict_set k v d)) = length (dict_keys d))
      by now rewrite dict_set_keys_present.
    unfold dict_keys in H. rewrite !length_map in H. lia.
  - rewrite dict_set_fresh by assumption. rewrite length_app. simpl. lia.
Qed.

Lemma dict_set_forallb {V : Type} (P : string * V -> bool) (k : string) (v : V)
    (d : pydict V) :
  (forall k', P (k', v) = true) ->
  forallb P d = true ->
  forallb P (dict_set k v d) = true.
Proof.
  intros Hv. induction d as [|[k0 v0] rest IH]; simpl.
  - intros _. now rewrite Hv.
  - intros H. apply andb_prop in H. destruct H as [H0 Hrest].
    destruct (k0 =? k)%string; simpl.
    + now rewrite Hv, Hrest.
    + now rewrite H0, IH.
Qed.

Lemma app_request_details {R : PyRuntime} (env : Env) (id : PathSegment)
    (w : World) :
  app env (GET_request_details id) w
  = (match dict_get (segment id) (video_requests_db w) with
     | Some record =>
         if record_serialisable record
         then Returned (RecordBody_out record)
         else JSONResponse 500 (error_body 500 "Internal server error")
     | None => JSONResponse 404 (error_body 404 "Request not found")
     end, w).
Proof.
  unfold app, get_request_details, bind, read_db.
  destruct (dict_get (segment id) (video_requests_db w)) as [record|];
    [|reflexivity].
  unfold ret, respond, render, payload_serialisable.
  destruct (record_serialisable record); reflexivity.
Qed.

Lemma app_list_requests {R : PyRuntime} (env : Env) (w : World) :
  app env GET_requests w
  = (if forallb (fun kr => record_serialisable (snd kr)) (video_requests_db w)
     then Returned (ListingBody_out
                      ("Render", dict_len (video_requests_db w),
                       video_requests_db w))
     else JSONResponse 500 (error_body 500 "Internal server error"), w).
Proof.
  unfold app, list_requests, bind, read_db, ret, respond, render,
    payload_serialisable.
  destruct (forallb _ _); reflexivity.
Qed.

(** After a generation that reached the store with a value that can be
    rendered as JSON (no float that is not finite), in a registry whose
    records can all be rendered, [GET /requests/{id}] for the drawn id
    returns the stored record, and [GET /requests] reports one request
    more than before when the id was new and the same number when it
    replaced a record; neither read changes the world. *)
Theorem stored_record_is_read_back {R : PyRuntime} :
  forall (env : Env) (id : PathSegment) (now : string)
         (request : VideoGenerationRequest.t)
         (w w1 : World) (service : HeyGenService.t) (text : string)
         (result : json) (data : pydict json) (v : json),
    get_heygen_service env w = (inr (Some service), w1) ->
    provider env (provider_calls w) (generate_call env service request)
      = Replied 200 text (Some result) ->
    data_of result = Some data ->
    dict_get "video_id" data = Some v ->
    json_serialisable v = true ->
    forallb (fun kr => record_serialisable (snd kr)) (video_requests_db w)
      = true ->
    let w' := snd (generate_video env (segment id) now request w) in
    app env (GET_request_details id) w'
      = (Returned (RecordBody_out (new_record env request v now)), w') /\
    app env GET_requests w'
      = (Returned (ListingBody_out
           ("Render",
            dict_len (video_requests_db w)
              + (if dict_contains (segment id) (video_requests_db w)
                 then 0 else 1),
            video_requests_db w')), w').
Proof.
  intros env id now request w w1 service text result data v
    Hsvc Hreply Hdata Hv Hfinite Hall w'. subst w'.
  rewrite (generate_video_reply env (segment id) now request w w1 service text
             result data v Hsvc Hreply Hdata Hv).
  assert (Hnew : record_serialisable (new_record env request v now) = true).
  { unfold record_serialisable. simpl. now rewrite Hfinite. }
  rewrite app_request_details, app_list_requests.
  cbn [snd video_requests_db set_db].
  rewrite dict_get_set_same, dict_len_set, Hnew.
  rewrite (dict_set_forallb (fun kr => record_serialisable (snd kr)) _ _ _
             (fun _ => Hnew) Hall).
  split; reflexivity.
Qed.

Lemma stored_record_is_read_back_witness :
  let env := stub_env (video_created "v2") (Raised Timeout) in
  let w' := snd (generate_video env "u2" "t0" hello_request
                   (sample_world "u1" "v1")) in
  app env (GET_request_details segment_u2) w'
    = (Returned (RecordBody_out (new_record env hello_request (JStr "v2") "t0")),
       w')
  /\ app env GET_requests w'
     = (Returned (ListingBody_out ("Render", 2, video_requests_db w')), w').
Proof.
  intros env w'.
  apply (@stored_record_is_read_back strict_runtime env segment_u2 "t0"
           hello_request (sample_world "u1" "v1") (sample_world "u1" "v1")
           configured_service "" (JDict [("data", JDict [("video_id", JStr "v2")])])
           [("video_id", JStr "v2")] (JStr "v2")); reflexivity.
Defined.

(** [GET /requests/{id}], for an id the route matches, answers an id
    that is not in the registry with 404 "Request not found" in the
    uniform error body; an id that is there with its record when the
    record can be rendered as JSON, and with 500 "Internal server error"
    when it holds a float that is not finite; it never changes the
    world. *)
Theorem request_details_lookup {R : PyRuntime} :
  forall (env : Env) (id : PathSegment) (w : World),
    app env (GET_request_details id) w
    = (match dict_get (segment id) (video_requests_db w) with
       | Some record =>
           if record_serialisable record
           then Returned (RecordBody_out record)
           else JSONResponse 500 (error_body 500 "Internal server error")
       | None => JSONResponse 404 (error_body 404 "Request not found")
       end, w).
Proof.
  intros env id w. apply app_request_details.
Qed.

(* ================================================================== *)
(** ** What a status query writes *)

Lemma retrieve_by_request_id_db {R : PyRuntime} (env : Env) (now rid : string)
    (request : VideoRetrievalRequest.t) (w w1 : World)
    (service : HeyGenService.t) (record : VideoRecord.t) (text : string)
    (body : json) (data : pydict json) (status : json) :
  get_heygen_service env w = (inr (Some service), w1) ->
  VideoRetrievalRequest.request_id request = Some rid ->
  rid <> "" ->
  dict_get rid (video_requests_db w) = Some record ->
  provider env (provider_calls w)
    (status_call service (VideoRecord.video_id record))
    = Replied 200 text (Some body) ->
  data_of body = Some data ->
  dict_get "status" data = Some status ->
  video_requests_db (snd (retrieve_video env now request w))
  = dict_set rid (checked record status now) (video_requests_db w).
Proof.
  intros Hsvc Hrid Hne Hget Hreply Hdata Hstatus.
  assert (Htruthy : truthy (Some rid) = true).
  { simpl. apply String.eqb_neq in Hne. now rewrite Hne. }
  assert (Hor : or_else (Some rid) "" = rid).
  { simpl. apply String.eqb_neq in Hne. now rewrite Hne. }
  assert (Hdet : determine_video_id request (video_requests_db w)
                 = inr (VideoRecord.video_id record, Some rid)).
  { unfold determine_video_id. now rewrite Hrid, Htruthy, Hor, Hget. }
  destruct (retrieve_video_reply env now request w w1 service _ _ text body
              data status Hsvc Hdet Hreply Hdata Hstatus) as (rd & _ & ->).
  simpl. unfold update_local_storage. now rewrite Htruthy, Hor, Hget.
Qed.

(** A successful status query by request id rewrites that record's
    [status] to the provider's value and its [last_checked] to the time
    of the query, whether or not the response is then accepted by the
    response model; the keys and every other record are unchanged. *)
Theorem status_query_updates_record {R : PyRuntime} :
  forall (env : Env) (now rid : string) (request : VideoRetrievalRequest.t)
         (w w1 : World) (service : HeyGenService.t)
         (record : VideoRecord.t) (text : string) (body : json)
         (data : pydict json) (status : json),
    get_heygen_service env w = (inr (Some service), w1) ->
    VideoRetrievalRequest.request_id request = Some rid ->
    rid <> "" ->
    dict_get rid (video_requests_db w) = Some record ->
    provider env (provider_calls w)
      (status_call service (VideoRecord.video_id record))
      = Replied 200 text (Some body) ->
    data_of body = Some data ->
    dict_get "status" data = Some status ->
    let db' := video_requests_db (snd (retrieve_video env now request w)) in
    dict_get rid db' = Some (checked record status now) /\
    dict_keys db' = dict_keys (video_requests_db w) /\
    (forall k, k <> rid -> dict_get k db' = dict_get k (video_requests_db w)).
Proof.
  intros env now rid request w w1 service record text body data status
    Hsvc Hrid Hne Hget Hreply Hdata Hstatus db'. subst db'.
  rewrite (retrieve_by_request_id_db env now rid request w w1 service record
             text body data status Hsvc Hrid Hne Hget Hreply Hdata Hstatus).
  split; [apply dict_get_set_same|]. split.
  - apply dict_set_keys_present. unfold dict_contains. now rewrite Hget.
  - intros k Hk. apply dict_get_set_other. congruence.
Qed.

Lemma status_query_updates_record_witness :
  let env := stub_env (Raised Timeout) (status_reply [("status", JStr "completed")]) in
  let db' := video_requests_db
               (snd (retrieve_video env "t5" (by_request "u2")
                       {| video_requests_db := three_records;
                          heygen_service := Some configured_service;
                          provider_calls := [] |})) in
  dict_get "u2" db' = Some (checked (sample_record "v2") (JStr "completed") "t5")
  /\ dict_keys db' = ["u1"; "u2"; "u3"]
  /\ (forall k, k <> "u2" -> dict_get k db' = dict_get k three_records).
Proof.
  intros env db'.
  apply (@status_query_updates_record strict_runtime env "t5" "u2"
           (by_request "u2")
           {| video_requests_db := three_records;
              heygen_service := Some configured_service;
              provider_calls := [] |}
           {| video_requests_db := three_records;
              heygen_service := Some configured_service;
              provider_calls := [] |}
           configured_service (sample_record "v2") ""
           (JDict [("data", JDict [("status", JStr "completed")])])
           [("status", JStr "completed")] (JStr "completed"));
    solve [reflexivity | discriminate].
Defined.

(* ================================================================== *)
(** ** Retrieval by video id *)

Lemma json_is_str_true (s : string) (v : json) :
  json_is_str s v = true <-> v = JStr s.
Proof.
  destruct v; simpl; split; intros H; try discriminate.
  - apply String.eqb_eq in H. now subst.
  - injection H as ->. apply String.eqb_refl.
Qed.

Lemma json_is_str_false (s : string) (v : json) :
  json_is_str s v = false <-> v <> JStr s.
Proof.
  split.
  - intros H E. apply json_is_str_true in E. congruence.
  - intros H. destruct (json_is_str s v) eqn:E; [|reflexivity].
    apply json_is_str_true in E. contradiction.
Qed.

Lemma find_request_id_match (video_id : string) (request_id : option string)
    (before : pydict VideoRecord.t) (rid : string) (record : VideoRecord.t)
    (after : pydict VideoRecord.t) :
  (forall k r, In (k, r) before -> VideoRecord.video_id r <> JStr video_id) ->
  VideoRecord.video_id record = JStr video_id ->
  find_request_id video_id (before ++ (rid, record) :: after)%list request_id
  = Some rid.
Proof.
  intros Hbefore Hrecord.
  induction before as [|[k r] rest IH]; simpl.
  - apply json_is_str_true in Hrecord. now rewrite Hrecord.
  - assert (Hr : json_is_str video_id (VideoRecord.video_id r) = false).
    { apply json_is_str_false. apply (Hbefore k). now left. }
    rewrite Hr. apply IH. intros k' r' Hin. apply (Hbefore k'). now right.
Qed.

Lemma find_request_id_no_match (video_id : string) (request_id : option string)
    (db : pydict VideoRecord.t) :
  (forall k r, In (k, r) db -> VideoRecord.video_id r <> JStr video_id) ->
  find_request_id video_id db request_id = request_id.
Proof.
  intros Hnone. induction db as [|[k r] rest IH]; simpl; [reflexivity|].
  assert (Hr : json_is_str video_id (VideoRecord.video_id r) = false).
  { apply json_is_str_false. apply (Hnone k). now left. }
  rewrite Hr. apply IH. intros k' r' Hin. apply (Hnone k'). now right.
Qed.

(** The scan over the registry returns the request id of the first
    record, in insertion order, that carries the video id, and keeps the
    given request id when no record carries it. *)
Theorem find_request_id_first_match :
  forall (video_id : string) (request_id : option string),
    (forall before rid record after,
       (forall k r, In (k, r) before -> VideoRecord.video_id r <> JStr video_id) ->
       VideoRecord.video_id record = JStr video_id ->
       find_request_id video_id (before ++ (rid, record) :: after)%list request_id
       = Some rid) /\
    (forall db,
       (forall k r, In (k, r) db -> VideoRecord.video_id r <> JStr video_id) ->
       find_request_id video_id db request_id = request_id).
Proof.
  intros video_id request_id. split.
  - intros before rid record after. apply find_request_id_match.
  - intros db. apply find_request_id_no_match.
Qed.

(** A retrieval by a video id that no record carries never writes to
    the registry, whatever the provider answers; and when it returns a
    response, the response names that video id and carries the request id
    the caller sent, which is null. *)
Theorem unmatched_video_id_is_best_effort {R : PyRuntime} :
  forall (env : Env) (now vid : string) (w w1 : World)
         (service : HeyGenService.t),
    get_heygen_service env w = (inr (Some service), w1) ->
    vid <> "" ->
    (forall k r, In (k, r) (video_requests_db w) ->
       VideoRecord.video_id r <> JStr vid) ->
    let out := retrieve_video env now (by_video vid) w in
    video_requests_db (snd out) = video_requests_db w /\
    (forall response,
       fst out = inr response ->
       VideoRetrievalResponse.video_id response = Some vid /\
       VideoRetrievalResponse.request_id response = None).
Proof.
  intros env now vid w w1 service Hsvc Hne Hnone out. subst out.
  destruct (get_heygen_service_frame _ _ _ _ Hsvc) as (Hdb & _ & _).
  assert (Hdet : determine_video_id (by_video vid) (video_requests_db w)
                 = inr (JStr vid, None)).
  { unfold determine_video_id. simpl.
    apply String.eqb_neq in Hne. rewrite Hne. simpl.
    now rewrite (find_request_id_no_match vid None (video_requests_db w)
                   Hnone). }
  destruct (transport_cases "status"
              (provider env (provider_calls w) (status_call service (JStr vid))))
    as [Hfail|(text & body & data & status & Hreply & Hdata & Hstatus)].
  - destruct (retrieve_video_failure env now (by_video vid) w w1 service _ _
                Hsvc Hdet Hfail) as (code & detail & ->).
    simpl. split; [exact Hdb|discriminate].
  - destruct (retrieve_video_reply env now (by_video vid) w w1 service _ _
                text body data status Hsvc Hdet Hreply Hdata Hstatus)
      as (rd & Hbuild & ->).
    simpl. split; [reflexivity|].
    intros response Hresp.
    destruct (VideoRetrievalResponse.new rd) as [e|r] eqn:N; [discriminate|].
    injection Hresp as ->.
    assert (Hargs : VideoRetrievalResponse.kwarg rd "video_id" = JStr vid /\
                    VideoRetrievalResponse.kwarg rd "request_id" = JNull).
    { revert Hbuild. clear.
      unfold build_response_data, py_get, py_get_default.
      destruct (json_is_str "completed" status).
      - repeat match goal with
               | |- context [dict_get ?k data] => destruct (dict_get k data)
               end; intros H; injection H as <-; now split.
      - destruct (json_is_str "failed" status).
        + destruct (dict_get "error" data); intros H; injection H as <-;
            now split.
        + intros H; injection H as <-; now split. }
    destruct Hargs as [Hvid Hrid].
    unfold VideoRetrievalResponse.new in N.
    rewrite Hvid, Hrid in N. simpl in N. rewrite coerce_str_str in N.
    repeat match type of N with
           | context [match ?x with Some _ => _ | None => _ end] =>
               destruct x; try discriminate
           end.
    injection N as <-. split; reflexivity.
Qed.

Lemma unmatched_video_id_is_best_effort_witness :
  let env := stub_env (Raised Timeout) (status_reply [("status", JStr "completed")]) in
  let out := retrieve_video env "t1" (by_video "v7") (sample_world "u1" "v1") in
  video_requests_db (snd out) = [("u1", sample_record "v1")]
  /\ (forall response,
        fst out = inr response ->
        VideoRetrievalResponse.video_id response = Some "v7" /\
        VideoRetrievalResponse.request_id response = None).
Proof.
  intros env out.
  apply (@unmatched_video_id_is_best_effort strict_runtime env "t1" "v7"
           (sample_world "u1" "v1") (sample_world "u1" "v1") configured_service).
  - reflexivity.
  - discriminate.
  - intros k r [H|[]]. injection H as _ <-. discriminate.
Defined.

Lemma dict_get_app_fresh {V : Type} (k : string) (before rest : pydict V) :
  ~ In k (dict_keys before) ->
  dict_get k (before ++ rest)%list = dict_get k rest.
Proof.
  unfold dict_keys. induction before as [|[k' v'] tl IH]; simpl; [reflexivity|].
  intros Hnot. destruct (String.eqb_spec k' k) as [E|E]; [tauto|].
  apply IH. tauto.
Qed.

(** A successful status query by video id updates the first record, in
    insertion order, that carries the video id, and no other record, also
    not a later record of the same video. *)
Theorem status_query_by_video_updates_first_match {R : PyRuntime} :
  forall (env : Env) (now vid rid : string) (w w1 : World)
         (service : HeyGenService.t) (before after : pydict VideoRecord.t)
         (record : VideoRecord.t) (text : string) (body : json)
         (data : pydict json) (status : json),
    get_heygen_service env w = (inr (Some service), w1) ->
    vid <> "" -> rid <> "" ->
    video_requests_db w = (before ++ (rid, record) :: after)%list ->
    (forall k r, In (k, r) before -> VideoRecord.video_id r <> JStr vid) ->
    ~ In rid (dict_keys before) ->
    VideoRecord.video_id record = JStr vid ->
    provider env (provider_calls w) (status_call service (JStr vid))
      = Replied 200 text (Some body) ->
    data_of body = Some data ->
    dict_get "status" data = Some status ->
    let db' := video_requests_db (snd (retrieve_video env now (by_video vid) w)) in
    dict_get rid db' = Some (checked record status now) /\
    (forall k, k <> rid -> dict_get k db' = dict_get k (video_requests_db w)).
Proof.
  intros env now vid rid w w1 service before after record text body data status
    Hsvc Hvid Hrid Hdb Hbefore Hfresh Hrecord Hreply Hdata Hstatus db'.
  subst db'.
  assert (Hfind : find_request_id vid (video_requests_db w) None = Some rid).
  { rewrite Hdb.
    now apply find_request_id_match. }
  assert (Hget : dict_get rid (video_requests_db w) = Some record).
  { rewrite Hdb, dict_get_app_fresh by assumption.
    simpl. now rewrite String.eqb_refl. }
  assert (Hdet : determine_video_id (by_video vid) (video_requests_db w)
                 = inr (JStr vid, Some rid)).
  { unfold determine_video_id. simpl.
    apply String.eqb_neq in Hvid. rewrite Hvid. simpl. now rewrite Hfind. }
  destruct (retrieve_video_reply env now (by_video vid) w w1 service _ _
              text body data status Hsvc Hdet Hreply Hdata Hstatus)
    as (rd & _ & ->).
  simpl. unfold update_local_storage. simpl.
  apply String.eqb_neq in Hrid. rewrite Hrid. simpl. rewrite Hget.
  split; [apply dict_get_set_same|].
  intros k Hk. apply dict_get_set_other. congruence.
Qed.

Lemma status_query_by_video_updates_first_match_witness :
  let env := stub_env (Raised Timeout) (status_reply [("status", JStr "failed")]) in
  let w := {| video_requests_db := three_records;
              heygen_service := Some configured_service;
              provider_calls := [] |} in
  let db' := video_requests_db (snd (retrieve_video env "t5" (by_video "v2") w)) in
  dict_get "u2" db' = Some (checked (sample_record "v2") (JStr "failed") "t5")
  /\ (forall k, k <> "u2" -> dict_get k db' = dict_get k three_records).
Proof.
  intros env w db'.
  apply (@status_query_by_video_updates_first_match strict_runtime env "t5"
           "v2" "u2" w w configured_service [("u1", sample_record "v1")]
           [("u3", sample_record "v2")] (sample_record "v2") ""
           (JDict [("data", JDict [("status", JStr "failed")])])
           [("status", JStr "failed")] (JStr "failed"));
    try solve [reflexivity | discriminate].
  - intros k r [H|[]]. injection H as _ <-. discriminate.
  - simpl. intros [H|[]]. discriminate.
Defined.

(** A response to a retrieval names its target: it carries the video id
    the status call was made for and the request id that was resolved,
    and for a status string other than "failed" its message is
    "Video status: " followed by the status. *)
Theorem retrieval_response_names_target {R : PyRuntime} :
  forall (env : Env) (now : string) (request : VideoRetrievalRequest.t)
         (w w1 w' : World) (service : HeyGenService.t) (vid : string)
         (request_id : option string) (text : string) (body : json)
         (data : pydict json) (s : string) (response : VideoRetrievalResponse.t),
    get_heygen_service env w = (inr (Some service), w1) ->
    determine_video_id request (video_requests_db w) = inr (JStr vid, request_id) ->
    provider env (provider_calls w) (status_call service (JStr vid))
      = Replied 200 text (Some body) ->
    data_of body = Some data ->
    dict_get "status" data = Some (JStr s) ->
    retrieve_video env now request w = (inr response, w') ->
    VideoRetrievalResponse.video_id response = Some vid /\
    VideoRetrievalResponse.request_id response = request_id /\
    (s <> "failed" ->
     VideoRetrievalResponse.message response = "Video status: " ++ s).
Proof.
  intros env now request w w1 w' service vid request_id text body data s
    response Hsvc Hdet Hreply Hdata Hstatus Hret.
  destruct (retrieve_video_returned env now request w w1 w' service (JStr vid)
              request_id text body data (JStr s) response
              Hsvc Hdet Hreply Hdata Hstatus Hret)
    as (rd & Hbuild & Hnew).
  rewrite build_response_data_str in Hbuild. injection Hbuild as <-.
  unfold VideoRetrievalResponse.new, VideoRetrievalResponse.kwarg in Hnew.
  destruct (s =? "completed")%string eqn:C;
    [|destruct (s =? "failed")%string eqn:F];
    simpl in Hnew; rewrite ?coerce_str_str in Hnew;
    destruct request_id as [r|]; simpl in Hnew;
    rewrite ?coerce_str_str in Hnew;
    repeat match type of Hnew with
           | context [match ?x with Some _ => _ | None => _ end] =>
               destruct x; try discriminate
           end;
    injection Hnew as <-; simpl; repeat split; try reflexivity;
    intros Hs; apply String.eqb_neq in Hs; congruence.
Qed.

Lemma retrieval_response_names_target_witness :
  VideoRetrievalResponse.video_id pending_response = Some "v1"
  /\ VideoRetrievalResponse.request_id pending_response = Some "u1"
  /\ ("processing" <> "failed" ->
      VideoRetrievalResponse.message pending_response
      = "Video status: " ++ "processing").
Proof.
  apply (@retrieval_response_names_target strict_runtime
           (stub_env (Raised Timeout) (status_reply pending_data))
           "t1" (by_request "u1") (sample_world "u1" "v1")
           (sample_world "u1" "v1")
           (snd (@retrieve_video strict_runtime
                   (stub_env (Raised Timeout) (status_reply pending_data))
                   "t1" (by_request "u1") (sample_world "u1" "v1")))
           configured_service "v1" (Some "u1") ""
           (JDict [("data", JDict pending_data)]) pending_data
           "processing" pending_response);
    reflexivity.
Defined.

(** Each status query stands alone: two successful queries by the same
    request id make two provider calls for the same video, and the record
    ends with the status and the time of the second one. *)
Theorem repeated_status_queries {R : PyRuntime} :
  forall (env : Env) (now1 now2 rid : string) (w : World)
         (service : HeyGenService.t) (record : VideoRecord.t)
         (text1 text2 : string) (body1 body2 : json)
         (data1 data2 : pydict json) (status1 status2 : json),
    heygen_service w = Some service ->
    rid <> "" ->
    dict_get rid (video_requests_db w) = Some record ->
    let c := status_call service (VideoRecord.video_id record) in
    provider env (provider_calls w) c = Replied 200 text1 (Some body1) ->
    data_of body1 = Some data1 ->
    dict_get "status" data1 = Some status1 ->
    provider env (provider_calls w ++ [c])%list c
      = Replied 200 text2 (Some body2) ->
    data_of body2 = Some data2 ->
    dict_get "status" data2 = Some status2 ->
    let w' := serve env [POST_retrieve now1 (by_request rid);
                         POST_retrieve now2 (by_request rid)] w in
    dict_get rid (video_requests_db w') = Some (checked record status2 now2) /\
    provider_calls w' = (provider_calls w ++ [c; c])%list.
Proof.
  intros env now1 now2 rid w service record text1 text2 body1 body2 data1 data2
    status1 status2 Hs Hrid Hget c Hreply1 Hdata1 Hstatus1
    Hreply2 Hdata2 Hstatus2 w'.
  subst w'.
  pose proof (get_heygen_service_built env w service Hs) as Hsvc.
  assert (Hget1 : dict_get rid
                     (video_requests_db
                        (snd (retrieve_video env now1 (by_request rid) w)))
                   = Some (checked record status1 now1)).
  { rewrite (retrieve_by_request_id_db env now1 rid (by_request rid) w w
               service record text1 body1 data1 status1
               Hsvc eq_refl Hrid Hget Hreply1 Hdata1 Hstatus1).
    apply dict_get_set_same. }
  pose proof (retrieve_video_calls env now1 (by_request rid) w w service
                (VideoRecord.video_id record) (Some rid) Hsvc) as Hcalls1.
  assert (Hdet : determine_video_id (by_request rid) (video_requests_db w)
                 = inr (VideoRecord.video_id record, Some rid)).
  { unfold determine_video_id. simpl.
    apply String.eqb_neq in Hrid. now rewrite Hrid, Hget. }
  specialize (Hcalls1 Hdet).
  assert (Hsnd : forall now, forall w0,
             snd (respond RetrievalBody_out
                    (retrieve_video env now (by_request rid) w0))
             = snd (retrieve_video env now (by_request rid) w0)).
  { intros now w0.
    now destruct (retrieve_video env now (by_request rid) w0) as [[e|a] w1]. }
  assert (Hs1 : heygen_service
                  (snd (retrieve_video env now1 (by_request rid) w))
                = Some service).
  { pose proof (app_service env (POST_retrieve now1 (by_request rid)) w
                  service Hs) as H.
    simpl app in H. now rewrite Hsnd in H. }
  simpl serve.
  rewrite !Hsnd.
  set (wa := snd (retrieve_video env now1 (by_request rid) w)) in *.
  pose proof (get_heygen_service_built env wa service Hs1) as Hsvc1.
  fold c in Hcalls1.
  assert (Hreply2' : provider env (provider_calls wa)
                       (status_call service
                          (VideoRecord.video_id (checked record status1 now1)))
                     = Replied 200 text2 (Some body2)).
  { rewrite Hcalls1. exact Hreply2. }
  split.
  - rewrite (retrieve_by_request_id_db env now2 rid (by_request rid) wa wa
               service (checked record status1 now1) text2 body2 data2 status2
               Hsvc1 eq_refl Hrid Hget1 Hreply2' Hdata2 Hstatus2).
    apply dict_get_set_same.
  - assert (Hdet2 : determine_video_id (by_request rid) (video_requests_db wa)
                    = inr (VideoRecord.video_id record, Some rid)).
    { unfold determine_video_id. simpl.
      apply String.eqb_neq in Hrid. now rewrite Hrid, Hget1. }
    rewrite (retrieve_video_calls env now2 (by_request rid) wa wa service
               (VideoRecord.video_id record) (Some rid) Hsvc1 Hdet2).
    rewrite Hcalls1. now rewrite <- app_assoc.
Qed.

Lemma repeated_status_queries_witness :
  let env := scripted_env [status_reply [("status", JStr "processing")];
                           status_reply [("status", JStr "completed")]] in
  let w' := serve env [POST_retrieve "t1" (by_request "u1");
                       POST_retrieve "t2" (by_request "u1")]
              (sample_world "u1" "v1") in
  dict_get "u1" (video_requests_db w')
    = Some (checked (sample_record "v1") (JStr "completed") "t2")
  /\ provider_calls w'
     = [status_call configured_service (JStr "v1");
        status_call configured_service (JStr "v1")].
Proof.
  intros env w'.
  apply (@repeated_status_queries strict_runtime env "t1" "t2" "u1"
           (sample_world "u1" "v1") configured_service (sample_record "v1")
           "" ""
           (JDict [("data", JDict [("status", JStr "processing")])])
           (JDict [("data", JDict [("status", JStr "completed")])])
           [("status", JStr "processing")] [("status", JStr "completed")]
           (JStr "processing") (JStr "completed"));
    solve [reflexivity | discriminate].
Defined.

(* ================================================================== *)
(** ** Liveness and configuration *)

(** [GET /health] always answers, with or without an API key.  It
    reports whether a key is configured and whether a client exists after
    the lookup it makes, which builds the client when a key is there; a
    client is missing afterwards only if there was none and no key.  It
    leaves the registry and the call log alone. *)
Theorem health_is_always_available {R : PyRuntime} :
  forall (env : Env) (now : string) (w : World),
    exists w',
      app env (GET_health now) w
        = (Returned (JsonBody_out (JDict [
             ("status", JStr "healthy");
             ("api_key_configured", JBool (truthy (HEYGEN_API_KEY env)));
             ("service_initialized", JBool (is_some (heygen_service w')));
             ("template_id", JStr (TEMPLATE_ID env));
             ("port", JInt (PORT env));
             ("platform", JStr "Render");
             ("timestamp", JStr now)])), w') /\
      video_requests_db w' = video_requests_db w /\
      provider_calls w' = provider_calls w /\
      (heygen_service w' = None <->
       heygen_service w = None /\ truthy (HEYGEN_API_KEY env) = false).
Proof.
  intros env now w. simpl. unfold health_check, bind, get_heygen_service.
  destruct (heygen_service w) as [s|] eqn:S.
  - exists w. simpl. rewrite S.
    split; [reflexivity|]. split; [reflexivity|]. split; [reflexivity|].
    split; [discriminate|intros [H _]; discriminate].
  - destruct (truthy (HEYGEN_API_KEY env)) eqn:K.
    + exists (set_service w
                (HeyGenService.init (or_else (HEYGEN_API_KEY env) ""))).
      simpl.
      split; [reflexivity|]. split; [reflexivity|]. split; [reflexivity|].
      split; [discriminate|intros [_ H]; discriminate].
    + exists w. simpl. rewrite S.
      split; [reflexivity|]. split; [reflexivity|]. split; [reflexivity|].
      split; [intros _; now split|reflexivity].
Qed.

(** The template that is called is the template that is recorded: the
    generation call goes to [/v2/template/<id>/generate] for the template
    id of the request, or for the configured default when the request has
    none or an empty one, and a record stored for the request carries
    that same id. *)
Theorem template_called_is_template_recorded :
  forall (env : Env) (service : HeyGenService.t)
         (request : VideoGenerationRequest.t) (video_id : json) (now : string),
    exists template,
      call_url (generate_call env service request)
        = HeyGenService.base_url service ++ "/v2/template/" ++ template
          ++ "/generate" /\
      VideoRecord.template_id (new_record env request video_id now) = template /\
      (VideoGenerationRequest.template_id request = None \/
       VideoGenerationRequest.template_id request = Some "" ->
       template = TEMPLATE_ID env) /\
      (forall t,
         VideoGenerationRequest.template_id request = Some t -> t <> "" ->
         template = t).
Proof.
  intros env service request video_id now.
  exists (or_else (VideoGenerationRequest.template_id request) (TEMPLATE_ID env)).
  repeat split.
  - intros [H|H]; rewrite H; reflexivity.
  - intros t H Hne. rewrite H. simpl.
    apply String.eqb_neq in Hne. now rewrite Hne.
Qed.

(* ================================================================== *)
(** ** The empty request id *)

Lemma find_request_id_initial (video_id : string) (db : pydict VideoRecord.t)
    (a b : option string) :
  (exists rid, find_request_id video_id db a = Some rid /\
               find_request_id video_id db b = Some rid) \/
  (find_request_id video_id db a = a /\ find_request_id video_id db b = b).
Proof.
  induction db as [|[k r] rest IH]; simpl.
  - now right.
  - destruct (json_is_str video_id (VideoRecord.video_id r)); [|exact IH].
    left. now exists k.
Qed.

(** An empty request id is the same as none: a retrieval that sends
    the empty string as request id leaves exactly the world that the same
    retrieval without a request id leaves, provider call and registry
    update included. *)
Theorem empty_request_id_is_ignored {R : PyRuntime} :
  forall (env : Env) (now : string) (video_id : option string) (w : World),
    snd (retrieve_video env now
           {| VideoRetrievalRequest.request_id := Some "";
              VideoRetrievalRequest.video_id := video_id |} w)
    = snd (retrieve_video env now
             {| VideoRetrievalRequest.request_id := None;
                VideoRetrievalRequest.video_id := video_id |} w).
Proof.
  intros env now video_id w.
  set (with_empty := {| VideoRetrievalRequest.request_id := Some "";
                        VideoRetrievalRequest.video_id := video_id |}).
  set (without := {| VideoRetrievalRequest.request_id := None;
                     VideoRetrievalRequest.video_id := video_id |}).
  destruct (get_heygen_service_cases env w) as (w1 & _ & [Hnone|(service & Hsvc)]).
  - unfold retrieve_video, bind. now rewrite Hnone.
  - destruct (truthy video_id) eqn:T.
    + set (vid := or_else video_id "").
      set (db := video_requests_db w).
      assert (Da : determine_video_id with_empty db
                   = inr (JStr vid, find_request_id vid db (Some ""))).
      { unfold determine_video_id. simpl. now rewrite T. }
      assert (Db : determine_video_id without db
                   = inr (JStr vid, find_request_id vid db None)).
      { unfold determine_video_id. simpl. now rewrite T. }
      destruct (transport_cases "status"
                  (provider env (provider_calls w)
                     (status_call service (JStr vid))))
        as [Hfail|(text & body & data & status & Hreply & Hdata & Hstatus)].
      * destruct (retrieve_video_failure env now with_empty w w1 service _ _
                    Hsvc Da Hfail) as (c1 & d1 & ->).
        destruct (retrieve_video_failure env now without w w1 service _ _
                    Hsvc Db Hfail) as (c2 & d2 & ->).
        reflexivity.
      * destruct (retrieve_video_reply env now with_empty w w1 service _ _
                    text body data status Hsvc Da Hreply Hdata Hstatus)
          as (rd1 & _ & ->).
        destruct (retrieve_video_reply env now without w w1 service _ _
                    text body data status Hsvc Db Hreply Hdata Hstatus)
          as (rd2 & _ & ->).
        simpl. f_equal. fold db.
        destruct (find_request_id_initial vid db (Some "") None)
          as [(rid & -> & ->)|[-> ->]]; reflexivity.
    + assert (Da : determine_video_id with_empty (video_requests_db w)
                   = inl (HTTPException 400
                            "Either request_id or video_id must be provided")).
      { unfold determine_video_id. simpl. now rewrite T. }
      assert (Db : determine_video_id without (video_requests_db w)
                   = inl (HTTPException 400
                            "Either request_id or video_id must be provided")).
      { unfold determine_video_id. simpl. now rewrite T. }
      rewrite (retrieve_video_unresolved env now with_empty w w1 service _
                 Hsvc Da).
      now rewrite (retrieve_video_unresolved env now without w w1 service _
                     Hsvc Db).
Qed.

(* ================================================================== *)
(** ** Failure paths and the registry *)

(** C3, as the code has it.  With the provider client configured: on
    every provider failure of the generation call (status other than 200,
    timeout, connection failure or another exception, undecodable body,
    body without [data.video_id]) and of the status call of a retrieval
    (the same failures, or a body without [data.status]), the handler
    raises an [HTTPException], the registry is exactly the one before the
    call, and the provider was called once.  Any other failure comes
    after the write: the provider body carried the field, the response
    model rejected a value, and the registry holds the record that was
    stored, or the status update that was made. *)
Theorem failure_paths_and_registry {R : PyRuntime} :
  forall (env : Env) (w w1 : World) (service : HeyGenService.t),
    get_heygen_service env w = (inr (Some service), w1) ->
    (forall uuid4 now request,
       ProviderFailure "video_id"
         (provider env (provider_calls w) (generate_call env service request)) ->
       exists code detail w',
         generate_video env uuid4 now request w
           = (inl (HTTPException code detail), w') /\
         video_requests_db w' = video_requests_db w /\
         provider_calls w'
           = (provider_calls w ++ [generate_call env service request])%list)
    /\
    (forall uuid4 now request e w',
       generate_video env uuid4 now request w = (inl e, w') ->
       video_requests_db w' = video_requests_db w \/
       exists text body data v,
         provider env (provider_calls w) (generate_call env service request)
           = Replied 200 text (Some body) /\
         data_of body = Some data /\
         dict_get "video_id" data = Some v /\
         validate_optional coerce_str v = None /\
         video_requests_db w'
           = dict_set uuid4 (new_record env request v now) (video_requests_db w))
    /\
    (forall now request video_id request_id,
       determine_video_id request (video_requests_db w)
         = inr (video_id, request_id) ->
       ProviderFailure "status"
         (provider env (provider_calls w) (status_call service video_id)) ->
       exists code detail w',
         retrieve_video env now request w
           = (inl (HTTPException code detail), w') /\
         video_requests_db w' = video_requests_db w /\
         provider_calls w'
           = (provider_calls w ++ [status_call service video_id])%list)
    /\
    (forall now request video_id request_id e w',
       determine_video_id request (video_requests_db w)
         = inr (video_id, request_id) ->
       retrieve_video env now request w = (inl e, w') ->
       video_requests_db w' = video_requests_db w \/
       exists text body data status response_data,
         provider env (provider_calls w) (status_call service video_id)
           = Replied 200 text (Some body) /\
         data_of body = Some data /\
         dict_get "status" data = Some status /\
         build_response_data request_id video_id status (JDict data)
           = inr response_data /\
         VideoRetrievalResponse.new response_data
           = inl (ValidationError "VideoRetrievalResponse") /\
         video_requests_db w'
           = update_local_storage request_id status now (video_requests_db w)).
Proof.
  intros env w w1 service Hsvc.
  destruct (get_heygen_service_frame _ _ _ _ Hsvc) as (Hdb & Hcalls & _).
  split; [|split; [|split]].
  - intros uuid4 now request Hfail.
    destruct (generate_video_failure env uuid4 now request w w1 service Hsvc Hfail)
      as (code & detail & Hrun).
    exists code, detail. eexists. split; [exact Hrun|].
    simpl. now rewrite Hdb, Hcalls.
  - intros uuid4 now request e w' Hrun.
    destruct (transport_cases "video_id"
                (provider env (provider_calls w)
                   (generate_call env service request)))
      as [Hfail|(text & body & data & v & Hreply & Hdata & Hv)].
    + left.
      destruct (generate_video_failure env uuid4 now request w w1 service
                  Hsvc Hfail) as (code & detail & E).
      rewrite E in Hrun. injection Hrun as _ <-. exact Hdb.
    + right. exists text, body, data, v.
      rewrite (generate_video_reply env uuid4 now request w w1 service
                 text body data v Hsvc Hreply Hdata Hv) in Hrun.
      unfold VideoGenerationResponse.new in Hrun.
      destruct (validate_optional coerce_str v) eqn:V; [discriminate|].
      injection Hrun as _ <-. repeat split; assumption.
  - intros now request video_id request_id Hdet Hfail.
    destruct (retrieve_video_failure env now request w w1 service video_id
                request_id Hsvc Hdet Hfail) as (code & detail & Hrun).
    exists code, detail. eexists. split; [exact Hrun|].
    simpl. now rewrite Hdb, Hcalls.
  - intros now request video_id request_id e w' Hdet Hrun.
    destruct (transport_cases "status"
                (provider env (provider_calls w) (status_call service video_id)))
      as [Hfail|(text & body & data & status & Hreply & Hdata & Hstatus)].
    + left.
      destruct (retrieve_video_failure env now request w w1 service video_id
                  request_id Hsvc Hdet Hfail) as (code & detail & E).
      rewrite E in Hrun. injection Hrun as _ <-. exact Hdb.
    + right. exists text, body, data, status.
      destruct (retrieve_video_reply env now request w w1 service video_id
                  request_id text body data status
                  Hsvc Hdet Hreply Hdata Hstatus) as (rd & Hbuild & E).
      exists rd. rewrite E in Hrun.
      destruct (VideoRetrievalResponse.new rd) as [e0|r0] eqn:N; [|discriminate].
      rewrite (VideoRetrievalResponse_new_error _ _ N).
      injection Hrun as _ <-. repeat split; assumption.
Qed.

Lemma failure_paths_and_registry_witness :
  let env := stub_env (Raised Timeout) (Replied 502 "Bad Gateway" None) in
  let w := sample_world "u1" "v1" in
  (exists code detail w',
     generate_video env "u2" "t0" hello_request w
       = (inl (HTTPException code detail), w') /\
     video_requests_db w' = video_requests_db w /\
     provider_calls w'
       = [generate_call env configured_service hello_request]) /\
  (exists code detail w',
     retrieve_video env "t1" (by_request "u1") w
       = (inl (HTTPException code detail), w') /\
     video_requests_db w' = video_requests_db w /\
     provider_calls w' = [status_call configured_service (JStr "v1")]).
Proof.
  intros env w.
  destruct (@failure_paths_and_registry strict_runtime env w w
              configured_service eq_refl) as (Hgen & _ & Hret & _).
  split.
  - apply (Hgen "u2" "t0" hello_request). constructor.
  - apply (Hret "t1" (by_request "u1") (JStr "v1") (Some "u1") eq_refl).
    constructor. discriminate.
Defined.

(** C3, as the specification states it, fails: the provider answers the
    generation call with an object as [video_id] and the status call with
    an object as [status]; both handlers answer 500, and the registry has
    the new record ["u2"], and the record ["u1"] with the new status. *)
Lemma registry_changed_on_failure :
  let env :=
    stub_env
      (Replied 200 "" (Some (JDict [("data", JDict [("video_id", JDict [])])])))
      (status_reply [("status", JDict [])]) in
  let w := sample_world "u1" "v1" in
  let generated := @generate_video strict_runtime env "u2" "t0" hello_request w in
  let retrieved := @retrieve_video strict_runtime env "t0" (by_request "u1") w in
  (exists detail, fst generated = inl (HTTPException 500 detail)) /\
  dict_get "u2" (video_requests_db w) = None /\
  dict_get "u2" (video_requests_db (snd generated))
    = Some (new_record env hello_request (JDict []) "t0") /\
  (exists detail, fst retrieved = inl (HTTPException 500 detail)) /\
  dict_get "u1" (video_requests_db (snd retrieved))
    = Some (checked (sample_record "v1") (JDict []) "t0") /\
  ~ @failures_leave_registry strict_runtime env "u2" "t0" hello_request
      (by_request "u1") w.
Proof.
  intros env w generated retrieved.
  split; [eexists; reflexivity|].
  split; [reflexivity|].
  split; [reflexivity|].
  split; [eexists; reflexivity|].
  split; [reflexivity|].
  intros [Hgen _].
  specialize (Hgen _ _ eq_refl). discriminate.
Qed.

(* ================================================================== *)
(** ** Values the response model changes, and request ids drawn twice *)

(** C6, as the specification states it, fails: the provider sends the
    duration of a finished video as the integer 3; the field is declared
    [Optional[float]], the response carries the float 3.0, which is not
    the value the provider sent. *)
Lemma integer_duration_is_not_verbatim :
  let env := stub_env (Raised Timeout) (status_reply integer_duration_data) in
  let w := sample_world "u1" "v1" in
  let out := @retrieve_video lax_runtime env "t1" (by_request "u1") w in
  (exists response,
     fst out = inr response /\
     VideoRetrievalResponse.status response = Some "completed" /\
     VideoRetrievalResponse.duration response = Some (Finite 3 0)) /\
  provided integer_duration_data "duration" = JInt 3 /\
  ~ @completed_fields_verbatim lax_runtime env "t1" (by_request "u1") w
      integer_duration_data.
Proof.
  intros env w out.
  split; [eexists; repeat split|].
  split; [reflexivity|].
  intros H.
  destruct (H _ _ eq_refl) as (_ & _ & _ & Hduration & _).
  discriminate.
Qed.

(** C7, as the specification states it, fails: the record under ["u1"]
    carries video ["v1"]; a later generation draws ["u1"] again and the
    record under ["u1"] is replaced as a whole, with video ["v2"]. *)
Lemma repeated_draw_replaces_record :
  let env := stub_env (video_created "v2") (Raised Timeout) in
  let rs := [POST_generate "u1" "t9" (body_of_script "Hello world")] in
  let w := sample_world "u1" "v1" in
  dict_get "u1" (video_requests_db w) = Some (sample_record "v1") /\
  dict_get "u1" (video_requests_db (@serve strict_runtime env rs w))
    = Some (new_record env hello_request (JStr "v2") "t9") /\
  ~ @record_fields_stable strict_runtime env rs w "u1".
Proof.
  intros env rs w.
  split; [reflexivity|]. split; [reflexivity|].
  intros H.
  destruct (H (sample_record "v1") eq_refl) as (record' & Hget & Hsame).
  vm_compute in Hget. injection Hget as <-.
  destruct Hsame as (Hvideo & _). discriminate.
Qed.

(* ================================================================== *)
(** ** Script length in characters *)

Lemma py_len_accented_script (n : nat) : py_len (accented_script n) = n.
Proof.
  induction n as [|n IH]; [reflexivity|].
  cbn [accented_script py_len].
  replace (is_continuation_byte (ascii_of_nat 195)) with false by reflexivity.
  replace (is_continuation_byte (ascii_of_nat 169)) with true by reflexivity.
  now rewrite IH.
Qed.

Lemma length_accented_script (n : nat) :
  String.length (accented_script n) = (2 * n)%nat.
Proof.
  induction n as [|n IH]; [reflexivity|].
  cbn [accented_script String.length]. rewrite IH. lia.
Qed.

(** A script of [n] two-byte characters is [2 * n] bytes long and
    counts as [n]: 5000 of them are within the limit, one more is not. *)
Example accented_script_is_measured_in_characters :
  (forall n,
     script_length (body_of_script (accented_script n)) = Z.of_nat n /\
     String.length (accented_script n) = (2 * n)%nat)
  /\ (exists request,
        parse_VideoGenerationRequest
          (body_of_script (accented_script (Z.to_nat 5000)))
        = inr request)
  /\ parse_VideoGenerationRequest
       (body_of_script (accented_script (Z.to_nat 5001)))
     = inl ["script_text: max_length"%string].
Proof.
  assert (L : forall n,
             script_length (body_of_script (accented_script n)) = Z.of_nat n).
  { intros n. unfold script_length, body_of_script.
    cbn [GenerationBody.script_text]. now rewrite py_len_accented_script. }
  split; [intros n; split; [apply L|apply length_accented_script]|].
  split.
  - eexists. unfold parse_VideoGenerationRequest.
    fold (script_length (body_of_script (accented_script (Z.to_nat 5000)))).
    rewrite L, Z2Nat.id by lia. reflexivity.
  - unfold parse_VideoGenerationRequest.
    fold (script_length (body_of_script (accented_script (Z.to_nat 5001)))).
    rewrite L, Z2Nat.id by lia. reflexivity.
Qed.
